(** * GrotButton firmware (src/main.cpp): a shallow embedding

    The firmware of a battery-operated button: a press triggers a webhook
    over WiFi, and the device otherwise sleeps.  This development embeds
    the firmware's globals, its interrupt handler, its main loop, its
    connection manager, its configuration handler and its header parser,
    and proves the properties its design document states about them, or
    shows where the code departs from them.

    Conventions.
    - [int] is a 32-bit two's-complement integer, [unsigned long] a 32-bit
      unsigned one (ESP32-C3); both are carried by [Z] with the wrap-around
      written out ([i32], [u32]).
    - An Arduino [String] is a [string]; lengths and indices are [Z], as
      the source compares and subtracts them as [int].
    - [Serial] output is diagnostic only and is not modelled.
    - The peripherals (WiFi, WebServer, Preferences, HTTPClient, the
      sleep controller) are external libraries: what the firmware asks of
      them is recorded in a trace of [Event]s, and what they answer is an
      input of the model. *)

From Stdlib Require Import Ascii ZArith Lia.
From stdpp Require Import gmap strings list pretty.

Local Open Scope Z_scope.

(** ** Machine integers *)

Module MachineInt.

Definition two32 : Z := 2 ^ 32.
Definition two31 : Z := 2 ^ 31.

(** Value of an [unsigned long] / [unsigned int] expression. *)
Definition u32 (z : Z) : Z := z mod two32.

(** Value of an [int] expression (two's complement wrap-around, which is
    what [__atomic_fetch_add] does on overflow). *)
Definition i32 (z : Z) : Z := (z + two31) mod two32 - two31.

Definition INT_MAX : Z := two31 - 1.

(** Unsigned subtraction [a - b] of two [unsigned long]s. *)
Definition usub (a b : Z) : Z := u32 (a - b).

End MachineInt.
Export MachineInt.

(** ** Arduino [String] operations (WString.cpp of the Arduino core) *)

Module WString.

Definition nl : ascii := "010"%char.
Definition colon : ascii := ":"%char.

(** C's [isspace]: space, and the control characters 9 to 13. *)
Definition isspace (c : ascii) : bool :=
  let n := Z.of_N (N_of_ascii c) in
  ((9 <=? n) && (n <=? 13)) || (n =? 32).

(** [String::length()]. *)
Definition len (s : string) : Z := Z.of_nat (String.length s).

(** Skip leading white space: the [while (isspace( *begin)) begin++] of
    [String::trim]. *)
Fixpoint trim_front (s : string) : string :=
  match s with
  | EmptyString => EmptyString
  | String c s' => if isspace c then trim_front s' else s
  end.

(** Cut trailing white space: the [while (isspace( *end) && end >= begin)
    end--] of [String::trim]. *)
Fixpoint trim_back (s : string) : string :=
  match s with
  | EmptyString => EmptyString
  | String c s' =>
      match trim_back s' with
      | EmptyString => if isspace c then EmptyString else String c EmptyString
      | r => String c r
      end
  end.

(** [String::trim()], as a function of the value. *)
Definition trim (s : string) : string := trim_back (trim_front s).

(** A value that [trim] leaves as it is. *)
Definition trimmed (s : string) : Prop := trim s = s.

Fixpoint sdrop (n : nat) (s : string) : string :=
  match n, s with
  | O, _ => s
  | S n', String _ s' => sdrop n' s'
  | S _, EmptyString => EmptyString
  end.

Fixpoint stake (n : nat) (s : string) : string :=
  match n, s with
  | S n', String c s' => String c (stake n' s')
  | _, _ => EmptyString
  end.

(** Position of the first [ch] in [s], positions counted from [i];
    [-1] when there is none ([strchr] returning [NULL]). *)
Fixpoint index_from (ch : ascii) (s : string) (i : Z) : Z :=
  match s with
  | EmptyString => -1
  | String c s' => if Ascii.eqb c ch then i else index_from ch s' (i + 1)
  end.

(** [String::indexOf(char ch, unsigned int fromIndex)]. *)
Definition indexOf (ch : ascii) (fromIndex : Z) (s : string) : Z :=
  let fromIndex := u32 fromIndex in
  if len s <=? fromIndex then -1
  else index_from ch (sdrop (Z.to_nat fromIndex) s) fromIndex.

(** [String::substring(unsigned int left, unsigned int right)]. *)
Definition substring (left_ right_ : Z) (s : string) : string :=
  let l := u32 left_ in
  let r := u32 right_ in
  let '(l, r) := if r <? l then (r, l) else (l, r) in
  if len s <=? l then EmptyString
  else
    let r := if len s <? r then len s else r in
    stake (Z.to_nat (r - l)) (sdrop (Z.to_nat l) s).

(** [String::substring(unsigned int left)]: up to the end. *)
Definition substring_from (left_ : Z) (s : string) : string :=
  substring left_ (len s) s.

(** [tolower] on one character. *)
Definition tolower (c : ascii) : ascii :=
  let n := N_of_ascii c in
  if ((65 <=? n) && (n <=? 90))%N then ascii_of_N (n + 32) else c.

(** [String::equalsIgnoreCase]. *)
Fixpoint equalsIgnoreCase (s1 s2 : string) : bool :=
  match s1, s2 with
  | EmptyString, EmptyString => true
  | String c1 r1, String c2 r2 =>
      Ascii.eqb (tolower c1) (tolower c2) && equalsIgnoreCase r1 r2
  | _, _ => false
  end.

(** Does [ch] occur in [s]? *)
Fixpoint has_char (ch : ascii) (s : string) : bool :=
  match s with
  | EmptyString => false
  | String c s' => Ascii.eqb c ch || has_char ch s'
  end.

End WString.
Export WString.

(** ** Header parsing (sendWebhookRequest, lines 573-592) *)

Module Headers.

(** Body of the parsing loop for one line (lines 579-590): the header
    that [http.addHeader] receives, if any. *)
Definition parseLine (raw : string) : option (string * string) :=
  let line := trim raw in
  if 0 <? len line then
    let colon := indexOf colon 0 line in
    if 0 <? colon then
      let key := substring 0 colon line in
      let value := substring_from (colon + 1) line in
      Some (trim key, trim value)
    else None
  else None.

(** The [while (lineStart < webhookHeaders.length())] loop.  [fuel]
    bounds the number of iterations; [None] means that it ran out. *)
Fixpoint parseLoop (fuel : nat) (webhookHeaders : string) (lineStart : Z)
  : option (list (string * string)) :=
  if lineStart <? len webhookHeaders then
    match fuel with
    | O => None
    | S fuel' =>
        let lineEnd := indexOf nl lineStart webhookHeaders in
        let lineEnd := if lineEnd =? -1 then len webhookHeaders else lineEnd in
        let line := substring lineStart lineEnd webhookHeaders in
        let added := match parseLine line with Some kv => [kv] | None => [] end in
        match parseLoop fuel' webhookHeaders (lineEnd + 1) with
        | Some rest => Some (added ++ rest)
        | None => None
        end
    end
  else Some [].

(** Every iteration consumes at least one character, so one unit of
    fuel per character is enough. *)
Definition parseHeaders (webhookHeaders : string)
  : option (list (string * string)) :=
  parseLoop (String.length webhookHeaders) webhookHeaders 0.

(** The design document's wording: the text is a newline-separated
    list of lines.  [splitLines] cuts at every newline. *)
Fixpoint splitLines (s : string) : list string :=
  match s with
  | EmptyString => [EmptyString]
  | String c s' =>
      if Ascii.eqb c nl then EmptyString :: splitLines s'
      else match splitLines s' with
           | [] => [String c EmptyString]
           | l :: ls => String c l :: ls
           end
  end.

(** The design document's wording: one pair per line that holds a
    header, in order. *)
Definition specHeaders (webhookHeaders : string) : list (string * string) :=
  omap parseLine (splitLines webhookHeaders).

Definition example_headers : string :=
  "Content-Type: application/json" +:+ String nl (String nl "Bad Line").

End Headers.

(** ** Globals, peripherals and their events *)

Module Firmware.

(** Constants (lines 10-17, 52, 69). *)
Definition AP_SSID_BASE : string := "GrotBot-".
Definition AP_PASSWORD : string := "".
Definition DNS_PORT : Z := 53.
Definition MAX_CONNECTION_ATTEMPTS : Z := 10.
Definition CONNECTION_RETRY_DELAY : Z := 1000.
Definition MAX_FULL_CONNECTION_ATTEMPTS : Z := 3.
Definition BUTTON_PIN : Z := 2.
Definition SLEEP_TIMEOUT : Z := 60000.
Definition USE_LOWER_WIFI_POWER : bool := true.
Definition DEBOUNCE_TIME : Z := 300.

Inductive wl_status_t :=
| WL_NO_SHIELD | WL_IDLE_STATUS | WL_NO_SSID_AVAIL | WL_SCAN_COMPLETED
| WL_CONNECTED | WL_CONNECT_FAILED | WL_CONNECTION_LOST | WL_DISCONNECTED.

Inductive wifi_mode_t :=
| WIFI_MODE_NULL | WIFI_MODE_STA | WIFI_MODE_AP | WIFI_MODE_APSTA.

Inductive wifi_power_t := WIFI_POWER_8_5dBm | WIFI_POWER_19_5dBm.

Inductive esp_sleep_wakeup_cause_t :=
| ESP_SLEEP_WAKEUP_UNDEFINED | ESP_SLEEP_WAKEUP_GPIO
| ESP_SLEEP_WAKEUP_TIMER | ESP_SLEEP_WAKEUP_OTHER.

Inductive HTTPMethod := HTTP_GET | HTTP_POST | HTTP_OTHER.

#[global] Instance wl_status_eq_dec : EqDecision wl_status_t.
Proof. solve_decision. Defined.
#[global] Instance wifi_mode_eq_dec : EqDecision wifi_mode_t.
Proof. solve_decision. Defined.
#[global] Instance wifi_power_eq_dec : EqDecision wifi_power_t.
Proof. solve_decision. Defined.
#[global] Instance wakeup_cause_eq_dec : EqDecision esp_sleep_wakeup_cause_t.
Proof. solve_decision. Defined.
#[global] Instance http_method_eq_dec : EqDecision HTTPMethod.
Proof. solve_decision. Defined.

(** What [server.send] is given as content: the two HTML pages are
    markup only, and are not spelled out. *)
Inductive Content := ConfigPage | SavedPage | Text (s : string).

(** The calls into the peripherals, in the order the firmware makes them. *)
Inductive Event :=
| Delay (ms : Z)
| WiFi_mode (m : wifi_mode_t)
| WiFi_disconnect (wifioff : bool)
| WiFi_begin (ssid password : string)
| WiFi_setTxPower (p : wifi_power_t)
| WiFi_softAP (ssid passphrase : string)
| DNS_start (port : Z)
| Server_begin
| Server_sendHeader (name value : string)
| Server_send (code : Z) (content_type : string) (content : Content)
| Preferences_putString (key value : string)
| Http_begin (url : string)
| Http_addHeader (key value : string)
| Http_POST (payload : string)
| Http_GET
| Http_end
| AttachInterrupt
| DetachInterrupt
| Enable_gpio_wakeup
| Deep_sleep_start
| ESP_restart.

#[global] Instance content_eq_dec : EqDecision Content.
Proof. solve_decision. Defined.
#[global] Instance event_eq_dec : EqDecision Event.
Proof. solve_decision. Defined.

(** The global variables (lines 58-68), and what the firmware can
    observe of its peripherals: the WiFi mode it has set, the contents of
    the [Preferences] namespace, whether the button interrupt is attached,
    whether the web server has been started, and the calls made so far. *)
Record Device := mkDevice {
  ssid : string;
  password : string;
  webhookUrl : string;
  webhookMethod : string;
  webhookHeaders : string;
  webhookPayload : string;
  configSaved : bool;
  pendingRequests : Z;
  requestInProgress : bool;
  lastButtonPressTime : Z;
  lastActivityTime : Z;
  wifiMode : wifi_mode_t;
  preferences : gmap string string;
  interruptAttached : bool;
  serverBegun : bool;
  trace : list Event
}.

Definition set_ssid (v : string) (d : Device) : Device :=
  mkDevice v (password d) (webhookUrl d) (webhookMethod d) (webhookHeaders d)
    (webhookPayload d) (configSaved d) (pendingRequests d)
    (requestInProgress d) (lastButtonPressTime d) (lastActivityTime d)
    (wifiMode d) (preferences d) (interruptAttached d) (serverBegun d) (trace d).

Definition set_password (v : string) (d : Device) : Device :=
  mkDevice (ssid d) v (webhookUrl d) (webhookMethod d) (webhookHeaders d)
    (webhookPayload d) (configSaved d) (pendingRequests d)
    (requestInProgress d) (lastButtonPressTime d) (lastActivityTime d)
    (wifiMode d) (preferences d) (interruptAttached d) (serverBegun d) (trace d).

Definition set_webhookUrl (v : string) (d : Device) : Device :=
  mkDevice (ssid d) (password d) v (webhookMethod d) (webhookHeaders d)
    (webhookPayload d) (configSaved d) (pendingRequests d)
    (requestInProgress d) (lastButtonPressTime d) (lastActivityTime d)
    (wifiMode d) (preferences d) (interruptAttached d) (serverBegun d) (trace d).

Definition set_webhookMethod (v : string) (d : Device) : Device :=
  mkDevice (ssid d) (password d) (webhookUrl d) v (webhookHeaders d)
    (webhookPayload d) (configSaved d) (pendingRequests d)
    (requestInProgress d) (lastButtonPressTime d) (lastActivityTime d)
    (wifiMode d) (preferences d) (interruptAttached d) (serverBegun d) (trace d).

Definition set_webhookHeaders (v : string) (d : Device) : Device :=
  mkDevice (ssid d) (password d) (webhookUrl d) (webhookMethod d) v
    (webhookPayload d) (configSaved d) (pendingRequests d)
    (requestInProgress d) (lastButtonPressTime d) (lastActivityTime d)
    (wifiMode d) (preferences d) (interruptAttached d) (serverBegun d) (trace d).

Definition set_webhookPayload (v : string) (d : Device) : Device :=
  mkDevice (ssid d) (password d) (webhookUrl d) (webhookMethod d)
    (webhookHeaders d) v (configSaved d) (pendingRequests d)
    (requestInProgress d) (lastButtonPressTime d) (lastActivityTime d)
    (wifiMode d) (preferences d) (interruptAttached d) (serverBegun d) (trace d).

Definition set_configSaved (v : bool) (d : Device) : Device :=
  mkDevice (ssid d) (password d) (webhookUrl d) (webhookMethod d)
    (webhookHeaders d) (webhookPayload d) v (pendingRequests d)
    (requestInProgress d) (lastButtonPressTime d) (lastActivityTime d)
    (wifiMode d) (preferences d) (interruptAttached d) (serverBegun d) (trace d).

Definition set_pendingRequests (v : Z) (d : Device) : Device :=
  mkDevice (ssid d) (password d) (webhookUrl d) (webhookMethod d)
    (webhookHeaders d) (webhookPayload d) (configSaved d) v
    (requestInProgress d) (lastButtonPressTime d) (lastActivityTime d)
    (wifiMode d) (preferences d) (interruptAttached d) (serverBegun d) (trace d).

Definition set_requestInProgress (v : bool) (d : Device) : Device :=
  mkDevice (ssid d) (password d) (webhookUrl d) (webhookMethod d)
    (webhookHeaders d) (webhookPayload d) (configSaved d) (pendingRequests d)
    v (lastButtonPressTime d) (lastActivityTime d)
    (wifiMode d) (preferences d) (interruptAttached d) (serverBegun d) (trace d).

Definition set_lastButtonPressTime (v : Z) (d : Device) : Device :=
  mkDevice (ssid d) (password d) (webhookUrl d) (webhookMethod d)
    (webhookHeaders d) (webhookPayload d) (configSaved d) (pendingRequests d)
    (requestInProgress d) v (lastActivityTime d)
    (wifiMode d) (preferences d) (interruptAttached d) (serverBegun d) (trace d).

Definition set_lastActivityTime (v : Z) (d : Device) : Device :=
  mkDevice (ssid d) (password d) (webhookUrl d) (webhookMethod d)
    (webhookHeaders d) (webhookPayload d) (configSaved d) (pendingRequests d)
    (requestInProgress d) (lastButtonPressTime d) v
    (wifiMode d) (preferences d) (interruptAttached d) (serverBegun d) (trace d).

Definition set_wifiMode (v : wifi_mode_t) (d : Device) : Device :=
  mkDevice (ssid d) (password d) (webhookUrl d) (webhookMethod d)
    (webhookHeaders d) (webhookPayload d) (configSaved d) (pendingRequests d)
    (requestInProgress d) (lastButtonPressTime d) (lastActivityTime d)
    v (preferences d) (interruptAttached d) (serverBegun d) (trace d).

Definition set_preferences (v : gmap string string) (d : Device) : Device :=
  mkDevice (ssid d) (password d) (webhookUrl d) (webhookMethod d)
    (webhookHeaders d) (webhookPayload d) (configSaved d) (pendingRequests d)
    (requestInProgress d) (lastButtonPressTime d) (lastActivityTime d)
    (wifiMode d) v (interruptAttached d) (serverBegun d) (trace d).

Definition set_interruptAttached (v : bool) (d : Device) : Device :=
  mkDevice (ssid d) (password d) (webhookUrl d) (webhookMethod d)
    (webhookHeaders d) (webhookPayload d) (configSaved d) (pendingRequests d)
    (requestInProgress d) (lastButtonPressTime d) (lastActivityTime d)
    (wifiMode d) (preferences d) v (serverBegun d) (trace d).

Definition set_serverBegun (v : bool) (d : Device) : Device :=
  mkDevice (ssid d) (password d) (webhookUrl d) (webhookMethod d)
    (webhookHeaders d) (webhookPayload d) (configSaved d) (pendingRequests d)
    (requestInProgress d) (lastButtonPressTime d) (lastActivityTime d)
    (wifiMode d) (preferences d) (interruptAttached d) v (trace d).

(** Record one more call into a peripheral. *)
Definition emit (e : Event) (d : Device) : Device :=
  mkDevice (ssid d) (password d) (webhookUrl d) (webhookMethod d)
    (webhookHeaders d) (webhookPayload d) (configSaved d) (pendingRequests d)
    (requestInProgress d) (lastButtonPressTime d) (lastActivityTime d)
    (wifiMode d) (preferences d) (interruptAttached d) (serverBegun d)
    (trace d ++ [e]).

Definition emits (es : list Event) (d : Device) : Device :=
  foldl (fun d e => emit e d) d es.

(** Statements in sequence: [d ▷ f ▷ g] runs [f], then [g]. *)
Notation "d ▷ f" := (f d) (at level 45, left associativity, only parsing).

(** [WiFi.mode(m)]. *)
Definition WiFi_set_mode (m : wifi_mode_t) (d : Device) : Device :=
  d ▷ set_wifiMode m ▷ emit (WiFi_mode m).

(** [WiFi.setTxPower] as lines 280-284 and 351-355 choose it. *)
Definition setTxPower (d : Device) : Device :=
  if USE_LOWER_WIFI_POWER then emit (WiFi_setTxPower WIFI_POWER_8_5dBm) d
  else emit (WiFi_setTxPower WIFI_POWER_19_5dBm) d.

(** [preferences.getString(key, def)]: the stored value, or [def] when
    the key is absent. *)
Definition getString (key def : string) (d : Device) : string :=
  default def (preferences d !! key).

(** [preferences.putString(key, value)]. *)
Definition putString (key value : string) (d : Device) : Device :=
  d ▷ set_preferences (<[key := value]> (preferences d))
    ▷ emit (Preferences_putString key value).

(** A request as [WebServer] presents it to a handler: the arguments
    are kept in order; [arg] and [hasArg] take the first one of a name. *)
Record Request := mkRequest {
  uri : string;
  method : HTTPMethod;
  args : list (string * string)
}.

(** [server.hasArg(name)]. *)
Definition hasArg (r : Request) (name : string) : bool :=
  existsb (fun kv => String.eqb (fst kv) name) (args r).

(** [server.arg(name)]: the empty [String] when there is none. *)
Definition arg (r : Request) (name : string) : string :=
  match find (fun kv => String.eqb (fst kv) name) (args r) with
  | Some kv => snd kv
  | None => ""
  end.

(** *** buttonISR (lines 197-212) *)

Definition buttonISR (currentTime : Z) (d : Device) : Device :=
  if DEBOUNCE_TIME <? usub currentTime (lastButtonPressTime d) then
    d ▷ set_pendingRequests (i32 (pendingRequests d + 1))
      ▷ set_lastButtonPressTime currentTime
      ▷ set_lastActivityTime currentTime
  else d.

(** Several triggers, one after the other. *)
Definition buttonISRs (times : list Z) (d : Device) : Device :=
  foldl (fun d t => buttonISR t d) d times.

(** *** setupAP (lines 330-378) and setupWebServer (lines 380-401) *)

(** What the environment answers during [setupAP]: the number drawn by
    [random(1000, 9999)] and the results of the two [softAP] calls. *)
Record ApInputs := mkApInputs {
  random_1000_9999 : Z;
  apStarted1 : bool;
  apStarted2 : bool
}.

Definition setupAP (a : ApInputs) (d : Device) : Device :=
  let d := d ▷ emit (WiFi_disconnect true) ▷ emit (Delay 500)
             ▷ WiFi_set_mode WIFI_MODE_NULL ▷ emit (Delay 100)
             ▷ WiFi_set_mode WIFI_MODE_AP ▷ emit (Delay 500) in
  let randomizedSSID := AP_SSID_BASE +:+ pretty (random_1000_9999 a) in
  let d := d ▷ emit (WiFi_softAP randomizedSSID AP_PASSWORD) ▷ setTxPower in
  let d :=
    if apStarted1 a then d
    else d ▷ emit (Delay 1000) ▷ emit (WiFi_softAP randomizedSSID AP_PASSWORD) in
  d ▷ emit (DNS_start DNS_PORT).

Definition setupWebServer (d : Device) : Device :=
  d ▷ set_serverBegun true ▷ emit Server_begin.

(** *** setupWiFi (lines 259-326) *)

(** The polling loop (lines 289-302).  [status k] is what the [k]-th
    call of [WiFi.status()] returns; the result carries the number of
    calls made so far. *)
Fixpoint pollLoop (fuel : nat) (status : nat → wl_status_t) (k : nat)
    (attempts : Z) (d : Device) : option (nat * Device) :=
  if bool_decide (status k ≠ WL_CONNECTED)
     && (attempts <? MAX_CONNECTION_ATTEMPTS) then
    match fuel with
    | O => None
    | S fuel' =>
        let d := emit (Delay CONNECTION_RETRY_DELAY) d in
        (* the diagnostic read of lines 294-299 *)
        let k' := if attempts mod 3 =? 0 then S (S k) else S k in
        pollLoop fuel' status k' (attempts + 1) d
    end
  else Some (S k, d).

(** The outer loop (lines 266-320); the boolean tells whether the
    function returned from inside the loop (line 308). *)
Fixpoint connectLoop (fuel : nat) (status : nat → wl_status_t) (k : nat)
    (fullAttempt : Z) (d : Device) : option (nat * bool * Device) :=
  if fullAttempt <? MAX_FULL_CONNECTION_ATTEMPTS then
    match fuel with
    | O => None
    | S fuel' =>
        let d := d ▷ emit (WiFi_disconnect false) ▷ emit (Delay 1000)
                   ▷ emit (WiFi_begin (ssid d) (password d)) ▷ setTxPower in
        match pollLoop (Z.to_nat MAX_CONNECTION_ATTEMPTS) status k 0 d with
        | None => None
        | Some (k, d) =>
            if bool_decide (status k = WL_CONNECTED) then Some (S k, true, d)
            else
              (* line 310 reads the status once more, for the log *)
              let k := S (S k) in
              let d :=
                if fullAttempt <? MAX_FULL_CONNECTION_ATTEMPTS - 1
                then emit (Delay 3000) d else d in
              connectLoop fuel' status k (fullAttempt + 1) d
        end
    end
  else Some (k, false, d).

Definition setupWiFi (status : nat → wl_status_t) (a : ApInputs)
    (d : Device) : option Device :=
  let d := d ▷ WiFi_set_mode WIFI_MODE_STA ▷ emit (Delay 100) in
  match connectLoop (Z.to_nat MAX_FULL_CONNECTION_ATTEMPTS) status 0 0 d with
  | None => None
  | Some (_, true, d) => Some d
  | Some (_, false, d) => Some (d ▷ setupAP a ▷ setupWebServer)
  end.

(** *** setup (lines 83-195) *)

Record BootInputs := mkBootInputs {
  boot_millis : Z;                            (* millis() at line 90 *)
  wakeup_reason : esp_sleep_wakeup_cause_t;   (* line 93 *)
  button_low_at_boot : bool;                  (* digitalRead == LOW, line 181 *)
  wifi_status : nat → wl_status_t;            (* WiFi.status(), call by call *)
  ap_inputs : ApInputs
}.

(** The device as the C++ initialisers leave it (lines 58-69), with the
    flash contents [nvs] that survive resets and deep sleep. *)
Definition power_on (nvs : gmap string string) : Device :=
  mkDevice "" "" "" "GET" "" "" false 0 false 0 0
    WIFI_MODE_NULL nvs false false [].

(** Lines 161-172: load the saved configuration and trim. *)
Definition loadConfig (d : Device) : Device :=
  let d := d ▷ set_ssid (getString "ssid" "" d)
             ▷ set_password (getString "password" "" d)
             ▷ set_webhookUrl (getString "webhook" "" d)
             ▷ set_webhookMethod (getString "webhook_method" "GET" d)
             ▷ set_webhookHeaders (getString "webhook_headers" "" d)
             ▷ set_webhookPayload (getString "webhook_payload" "" d) in
  d ▷ set_ssid (trim (ssid d))
    ▷ set_password (trim (password d))
    ▷ set_webhookUrl (trim (webhookUrl d)).

Definition setup (b : BootInputs) (d : Device) : option Device :=
  let d := d ▷ emit (Delay 1000) ▷ set_lastActivityTime (boot_millis b) in
  let d :=
    if bool_decide (wakeup_reason b = ESP_SLEEP_WAKEUP_GPIO)
    then set_pendingRequests (i32 (pendingRequests d + 1)) d else d in
  let d := d ▷ set_interruptAttached true ▷ emit AttachInterrupt in
  let d :=
    if bool_decide (wakeup_reason b ≠ ESP_SLEEP_WAKEUP_GPIO)
    then d ▷ set_interruptAttached false ▷ emit DetachInterrupt
           ▷ emit (Delay 100)
           ▷ set_interruptAttached true ▷ emit AttachInterrupt
    else d in
  let d := d ▷ emit Enable_gpio_wakeup ▷ loadConfig in
  if button_low_at_boot b then
    Some (d ▷ setupAP (ap_inputs b) ▷ setupWebServer)
  else if (0 <? len (ssid d)) && (0 <? len (password d)) then
    setupWiFi (wifi_status b) (ap_inputs b) d
  else
    Some (d ▷ setupAP (ap_inputs b) ▷ setupWebServer).

(** *** handleRoot (lines 403-463), handleSave (lines 465-524) *)

Definition handleRoot (now : Z) (d : Device) : Device :=
  d ▷ set_lastActivityTime now
    ▷ emit (Server_send 200 "text/html" ConfigPage).

Definition handleSave (r : Request) (now : Z) (d : Device) : Device :=
  let d := set_lastActivityTime now d in
  if hasArg r "ssid" && hasArg r "password" && hasArg r "webhook" then
    let d := d ▷ set_ssid (arg r "ssid")
               ▷ set_password (arg r "password")
               ▷ set_webhookUrl (arg r "webhook")
               ▷ set_webhookMethod (arg r "webhook_method")
               ▷ set_webhookHeaders (arg r "webhook_headers")
               ▷ set_webhookPayload (arg r "webhook_payload") in
    let d := d ▷ set_ssid (trim (ssid d))
               ▷ set_password (trim (password d))
               ▷ set_webhookUrl (trim (webhookUrl d))
               ▷ set_webhookMethod (trim (webhookMethod d))
               ▷ set_webhookHeaders (trim (webhookHeaders d))
               ▷ set_webhookPayload (trim (webhookPayload d)) in
    let d := d ▷ putString "ssid" (ssid d)
               ▷ putString "password" (password d)
               ▷ putString "webhook" (webhookUrl d)
               ▷ putString "webhook_method" (webhookMethod d)
               ▷ putString "webhook_headers" (webhookHeaders d)
               ▷ putString "webhook_payload" (webhookPayload d) in
    d ▷ emit (Server_send 200 "text/html" SavedPage)
      ▷ set_configSaved true
  else
    d ▷ emit (Server_send 400 "text/plain" (Text "Missing required fields")).

(** The address [WiFi.softAPIP()] of the access point. *)
Definition softAPIP : string := "192.168.4.1".

(** The catch-all handler of lines 394-397. *)
Definition handleNotFound (d : Device) : Device :=
  d ▷ emit (Server_sendHeader "Location" ("http://" +:+ softAPIP))
    ▷ emit (Server_send 302 "text/plain" (Text "")).

Definition captive_portal_paths : list string :=
  ["/"; "/generate_204"; "/connecttest.txt"; "/redirect";
   "/hotspot-detect.html"; "/canonical.html"; "/success.txt"].

(** [server.handleClient()] with the routes that [setupWebServer]
    registers: [client] is the request waiting to be served, if any. *)
Definition handleClient (client : option Request) (now : Z) (d : Device)
  : Device :=
  match client with
  | Some r =>
      if negb (serverBegun d) then d
      else if bool_decide (method r = HTTP_GET)
              && bool_decide (uri r ∈ captive_portal_paths)
      then handleRoot now d
      else if bool_decide (method r = HTTP_POST)
              && bool_decide (uri r = "/save")
      then handleSave r now d
      else handleNotFound d
  | None => d
  end.

(** *** sendWebhookRequest: the HTTP exchange (lines 566-614) *)

(** The calls of one exchange; [None] only if the header loop ran out
    of fuel. *)
Definition httpExchange (d : Device) : option (list Event) :=
  match Headers.parseHeaders (webhookHeaders d) with
  | None => None
  | Some hs =>
      Some ([Http_begin (webhookUrl d)]
            ++ map (fun kv => Http_addHeader (fst kv) (snd kv)) hs
            ++ [if equalsIgnoreCase (webhookMethod d) "POST"
                then Http_POST (webhookPayload d) else Http_GET]
            ++ [Http_end])
  end.

End Firmware.
Export Firmware.

(** ** The main loop and the interrupt, step by step

    [loop()], [sendWebhookRequest()] and [goToSleep()] run on the main
    thread; [buttonISR] preempts them.  The main thread is cut at its
    statements: a control point [PC] names the statement that runs next,
    and the interrupt may fire between any two of them while it is
    attached.  [pendingRequests--] is a load followed by a store, with a
    control point in between. *)

Module Loop.

Inductive PC :=
| L_loop          (* 215-217  mode and status read, first test          *)
| L_ap_service    (* 218-219  processNextRequest, handleClient          *)
| L_ap_restart    (* 222-226  if (configSaved) restart                  *)
| L_sta_test      (* 230      else if (STA && status == CONNECTED)      *)
| L_dispatch_test (* 234      if (pendingRequests > 0 && !inProgress)   *)
| L_dec_load      (* 235      pendingRequests--, the load               *)
| L_dec_store     (* 235      pendingRequests--, the store              *)
| S_enter         (* 557      requestInProgress = true                  *)
| S_touch         (* 558      lastActivityTime = millis()               *)
| S_url_test      (* 560      if (webhookUrl.length() == 0)             *)
| S_skip          (* 562-563  requestInProgress = false; return         *)
| S_http          (* 566-614  the HTTP exchange                         *)
| S_touch_end     (* 615      lastActivityTime = millis()               *)
| S_leave         (* 616      requestInProgress = false                 *)
| L_touch         (* 241      lastActivityTime = millis()               *)
| L_idle_test     (* 246      if (!inProgress && pendingRequests == 0)  *)
| L_timeout_test  (* 247      if (millis() - lastActivityTime >= ...)   *)
| G_detach        (* 620-626  goToSleep(): detachInterrupt              *)
| G_wakeup        (* 629      esp_deep_sleep_enable_gpio_wakeup         *)
| G_start         (* 639-640  delay(1000); esp_deep_sleep_start()       *)
| L_delay         (* 256      delay(100)                                *)
| Asleep          (* deep sleep: nothing runs until the next boot       *)
| Restarting.     (* ESP.restart(): nothing runs until the next boot    *)

#[global] Instance pc_eq_dec : EqDecision PC.
Proof. solve_decision. Defined.

(** The main thread's control point, the register that holds the value
    loaded by [pendingRequests--], and the device. *)
Record Config := mkConfig {
  pc : PC;
  reg : Z;
  dev : Device
}.

(** What the environment answers to the statement that runs: the clock,
    the WiFi status, the request waiting at the web server. *)
Record Env := mkEnv {
  millis : Z;
  status : wl_status_t;
  client : option Request
}.

Definition goto (l : PC) (c : Config) : Config := mkConfig l (reg c) (dev c).
Definition load (v : Z) (c : Config) : Config := mkConfig (pc c) v (dev c).
Definition upd (f : Device → Device) (c : Config) : Config :=
  mkConfig (pc c) (reg c) (f (dev c)).

(** The control points inside [sendWebhookRequest], after its first
    statement and before its last one has run. *)
Definition in_dispatch (l : PC) : bool :=
  match l with
  | S_touch | S_url_test | S_skip | S_http | S_touch_end | S_leave => true
  | _ => false
  end.

(** The control points of [goToSleep], and deep sleep itself. *)
Definition in_goToSleep (l : PC) : bool :=
  match l with
  | G_detach | G_wakeup | G_start | Asleep => true
  | _ => false
  end.

(** [loop()] (lines 214-257), one statement at a time: the statement at
    the control point runs, on what the environment answers to it. *)
Definition loop (e : Env) (c : Config) : Config :=
  let d := dev c in
  match pc c with
  | L_loop =>
      let currentMode := wifiMode d in
      if bool_decide (currentMode = WIFI_MODE_AP)
         || (bool_decide (currentMode = WIFI_MODE_STA)
             && bool_decide (status e ≠ WL_CONNECTED))
      then goto L_ap_service c
      else goto L_sta_test c
  | L_ap_service =>
      c ▷ upd (handleClient (client e) (millis e)) ▷ goto L_ap_restart
  | L_ap_restart =>
      if configSaved d
      then c ▷ upd (emit (Delay 1000)) ▷ upd (emit ESP_restart)
             ▷ goto Restarting
      else goto L_delay c
  | L_sta_test =>
      if bool_decide (wifiMode d = WIFI_MODE_STA)
         && bool_decide (status e = WL_CONNECTED)
      then goto L_dispatch_test c
      else goto L_delay c
  | L_dispatch_test =>
      if (0 <? pendingRequests d) && negb (requestInProgress d)
      then goto L_dec_load c
      else goto L_idle_test c
  | L_dec_load =>
      c ▷ load (pendingRequests d) ▷ goto L_dec_store
  | L_dec_store =>
      (* then the call of sendWebhookRequest(), line 238 *)
      c ▷ upd (set_pendingRequests (i32 (reg c - 1))) ▷ goto S_enter
  | L_touch =>
      c ▷ upd (set_lastActivityTime (millis e)) ▷ goto L_idle_test
  | L_idle_test =>
      if negb (requestInProgress d) && (pendingRequests d =? 0)
      then goto L_timeout_test c
      else goto L_delay c
  | L_timeout_test =>
      (* the call of goToSleep(), line 250 *)
      if SLEEP_TIMEOUT <=? usub (millis e) (lastActivityTime d)
      then goto G_detach c
      else goto L_delay c
  | L_delay =>
      c ▷ upd (emit (Delay 100)) ▷ goto L_loop
  | _ => c
  end.

(** [sendWebhookRequest()] (lines 556-617), one statement at a time; it
    returns to line 241 of [loop()]. *)
Definition sendWebhookRequest (e : Env) (c : Config) : Config :=
  let d := dev c in
  match pc c with
  | S_enter =>
      c ▷ upd (set_requestInProgress true) ▷ goto S_touch
  | S_touch =>
      c ▷ upd (set_lastActivityTime (millis e)) ▷ goto S_url_test
  | S_url_test =>
      if len (webhookUrl d) =? 0 then goto S_skip c else goto S_http c
  | S_skip =>
      c ▷ upd (set_requestInProgress false) ▷ goto L_touch
  | S_http =>
      match httpExchange d with
      | Some es => c ▷ upd (emits es) ▷ goto S_touch_end
      | None => c
      end
  | S_touch_end =>
      c ▷ upd (set_lastActivityTime (millis e)) ▷ goto S_leave
  | S_leave =>
      c ▷ upd (set_requestInProgress false) ▷ goto L_touch
  | _ => c
  end.

(** [goToSleep()] (lines 620-641), one statement at a time; it does not
    return. *)
Definition goToSleep (c : Config) : Config :=
  match pc c with
  | G_detach =>
      c ▷ upd (set_interruptAttached false) ▷ upd (emit DetachInterrupt)
        ▷ goto G_wakeup
  | G_wakeup =>
      c ▷ upd (emit Enable_gpio_wakeup) ▷ goto G_start
  | G_start =>
      c ▷ upd (emit (Delay 1000)) ▷ upd (emit Deep_sleep_start)
        ▷ goto Asleep
  | _ => c
  end.

(** One statement of the main thread. *)
Definition step_main (e : Env) (c : Config) : Config :=
  match pc c with
  | S_enter | S_touch | S_url_test | S_skip | S_http | S_touch_end
  | S_leave => sendWebhookRequest e c
  | G_detach | G_wakeup | G_start => goToSleep c
  | Asleep | Restarting => c
  | _ => loop e c
  end.

(** The processor runs, and takes interrupts, unless it sleeps or
    restarts. *)
Definition running (l : PC) : bool :=
  match l with
  | Asleep | Restarting => false
  | _ => true
  end.

(** The button's falling edge at clock reading [t]: [buttonISR] runs if
    it is attached. *)
Definition step_isr (t : Z) (c : Config) : Config :=
  if interruptAttached (dev c) && running (pc c)
  then upd (buttonISR t) c
  else c.

Inductive Label :=
| Main (e : Env)
| Isr (t : Z).

Definition step (l : Label) (c : Config) : Config :=
  match l with
  | Main e => step_main e c
  | Isr t => step_isr t c
  end.

(** A schedule, from its first label to its last. *)
Definition run (sched : list Label) (c : Config) : Config :=
  foldl (fun c l => step l c) c sched.

Definition is_isr (l : Label) : bool :=
  match l with Isr _ => true | Main _ => false end.

(** The number of interrupts in a schedule. *)
Definition isr_count (sched : list Label) : Z :=
  Z.of_nat (length (filter (fun l => is_isr l = true) sched)).

(** A power cycle: [setup()] on the device as it powers on with flash
    contents [nvs], then [loop()] from its first statement.  An interrupt
    that fires during [setup()] after line 131 touches nothing that the
    rest of [setup()] reads or writes, so it is scheduled as an [Isr]
    before the first [Main]. *)
Definition boot (b : BootInputs) (nvs : gmap string string) : option Config :=
  match setup b (power_on nvs) with
  | Some d => Some (mkConfig L_loop 0 d)
  | None => None
  end.

(** The configurations of all power cycles. *)
Inductive Reachable : Config → Prop :=
| reach_boot b nvs c : boot b nvs = Some c → Reachable c
| reach_step l c : Reachable c → Reachable (step l c).

End Loop.
Export Loop.

(** ** The shape of a connection attempt *)

Module ConnectionShape.

(** The calls of one outer cycle that polls [p] times (lines 270-302). *)
Definition cycle_events (ssid password : string) (p : nat) : list Event :=
  [WiFi_disconnect false; Delay 1000; WiFi_begin ssid password;
   WiFi_setTxPower WIFI_POWER_8_5dBm]
  ++ repeat (Delay CONNECTION_RETRY_DELAY) p.

(** The wait after a failed cycle that is not the last (lines 315-318). *)
Definition backoff (fullAttempt : Z) : list Event :=
  if fullAttempt <? MAX_FULL_CONNECTION_ATTEMPTS - 1 then [Delay 3000] else [].

(** The calls of consecutive cycles, the first of which is number
    [fullAttempt], that poll [polls] times; all fail, except that the
    last one succeeds when [connected] is set. *)
Fixpoint cycles_events (ssid password : string) (fullAttempt : Z)
    (polls : list nat) (connected : bool) : list Event :=
  match polls with
  | [] => []
  | p :: rest =>
      cycle_events ssid password p
      ++ (match rest with
          | [] => if connected then [] else backoff fullAttempt
          | _ :: _ => backoff fullAttempt
          end)
      ++ cycles_events ssid password (fullAttempt + 1) rest connected
  end.

Definition never_connected : nat → wl_status_t := fun _ => WL_DISCONNECTED.
Definition always_connected : nat → wl_status_t := fun _ => WL_CONNECTED.

Definition ap_example : ApInputs := mkApInputs 4711 true true.

Definition saved_home : gmap string string :=
  {["ssid" := "Home"; "password" := "secret1"]}.

End ConnectionShape.
Export ConnectionShape.

(** ** Predicates and examples for the loop *)

Module LoopPredicates.

(** The control points of the access-point branch of [loop()], with the
    top of the loop, the final delay and the restart. *)
Definition in_ap_branch (l : PC) : bool :=
  match l with
  | L_loop | L_ap_service | L_ap_restart | L_delay | Restarting => true
  | _ => false
  end.

(** The control points between a passed idle test and deep sleep. *)
Definition on_way_to_sleep (l : PC) : bool :=
  match l with
  | L_timeout_test | G_detach | G_wakeup | G_start | Asleep => true
  | _ => false
  end.

(** The calls that [goToSleep] makes. *)
Definition sleep_call (e : Event) : bool :=
  match e with
  | DetachInterrupt | Enable_gpio_wakeup | Deep_sleep_start => true
  | _ => false
  end.

(** Invariant of a power cycle in which at most [n] button events have
    been counted: the counter lies between 0 and [n]; where the decrement
    is about to load it is positive, and where the decrement is about to
    store, the loaded value is positive. *)
Definition counter_inv (n : Z) (c : Config) : Prop :=
  0 <= pendingRequests (dev c) <= n
  ∧ (pc c = L_dec_load → 1 <= pendingRequests (dev c))
  ∧ (pc c = L_dec_store → 1 <= reg c <= n).

Definition env (now : Z) (st : wl_status_t) : Env := mkEnv now st None.

(** The configuration that [boot] yields. *)
Definition booted (b : BootInputs) (nvs : gmap string string) : Config :=
  default (mkConfig Restarting 0 (power_on nvs)) (boot b nvs).

(** A device woken by the button, with saved credentials, that connects
    at once. *)
Definition boot_by_button : BootInputs :=
  mkBootInputs 1000 ESP_SLEEP_WAKEUP_GPIO false always_connected ap_example.

Definition saved_config : gmap string string :=
  {["ssid" := "Home"; "password" := "secret1";
    "webhook" := "http://example.org/hook"]}.

(** The schedule of the first dispatch, up to the HTTP exchange. *)
Definition sched_to_exchange : list Label :=
  map (fun t => Main (env t WL_CONNECTED))
    [1200; 1200; 1200; 1200; 1200; 1200; 1201; 1201].

(** The button is pressed between the load and the store of
    [pendingRequests--]. *)
Definition sched_press_during_decrement : list Label :=
  [Main (env 1200 WL_CONNECTED); Main (env 1200 WL_CONNECTED);
   Main (env 1200 WL_CONNECTED); Main (env 1200 WL_CONNECTED);
   Isr 5000; Main (env 5001 WL_CONNECTED)].

(** Woken by the button, pressed once more before the first dispatch:
    the first dispatch, up to the idle test. *)
Definition sched_second_press : list Label :=
  Isr 5000 ::
  map (fun t => Main (env t WL_CONNECTED))
    [5001; 5001; 5001; 5001; 5001; 5001; 5002; 5002; 5003; 5900; 5900; 5900].

(** A cold boot with saved credentials that connects at once. *)
Definition boot_idle : BootInputs :=
  mkBootInputs 1000 ESP_SLEEP_WAKEUP_UNDEFINED false always_connected
    ap_example.

(** After a minute of idling both tests pass; the button is pressed
    before [goToSleep] detaches the interrupt. *)
Definition sched_press_after_timeout_test : list Label :=
  map (fun t => Main (env t WL_CONNECTED))
    [61000; 61000; 61000; 61000; 61000]
  ++ [Isr 61001]
  ++ [Main (env 61002 WL_CONNECTED)].

(** The button is held during start-up: access-point mode. *)
Definition boot_button_held : BootInputs :=
  mkBootInputs 1000 ESP_SLEEP_WAKEUP_UNDEFINED true never_connected
    ap_example.

(** Three iterations of the loop, an hour apart, with a press. *)
Definition sched_ap_idle : list Label :=
  map (fun t => Main (env t WL_DISCONNECTED)) [3600000; 3600000; 3600000; 3600100]
  ++ [Isr 3700000]
  ++ map (fun t => Main (env t WL_DISCONNECTED))
       [7200000; 7200000; 7200000; 7200100;
        10800000; 10800000; 10800000; 10800100].

(** One whole iteration that dispatches, statement by statement. *)
Definition sched_one_dispatch : list Label :=
  map (fun t => Main (env t WL_CONNECTED))
    [1200; 1200; 1200; 1200; 1200; 1200; 1201; 1201; 1202; 1900; 1900; 1900;
     1900; 1900; 1900].

(** One iteration after a minute without activity. *)
Definition sched_idle_minute : list Label :=
  map (fun t => Main (env t WL_CONNECTED))
    [61000; 61000; 61000; 61000; 61000; 61000; 61001; 61002].

Definition saved_with_headers : gmap string string :=
  <["webhook_headers" := Headers.example_headers]>
    (<["webhook_method" := "post"]>
       (<["webhook_payload" := "{}"]> saved_config)).

End LoopPredicates.
Export LoopPredicates.

(** ** Predicates on the configuration *)

Module ConfigPredicates.

(** All six configuration strings are as [trim] leaves them. *)
Definition config_trimmed (d : Device) : Prop :=
  trimmed (ssid d) ∧ trimmed (password d) ∧ trimmed (webhookUrl d)
  ∧ trimmed (webhookMethod d) ∧ trimmed (webhookHeaders d)
  ∧ trimmed (webhookPayload d).

Definition config_keys : list string :=
  ["ssid"; "password"; "webhook"; "webhook_method"; "webhook_headers";
   "webhook_payload"].

(** Every configuration value held in flash is as [trim] leaves it. *)
Definition stored_trimmed (nvs : gmap string string) : Prop :=
  ∀ k v, k ∈ config_keys → nvs !! k = Some v → trimmed v.

(** A required field of the save form is absent from the request. *)
Definition missing_required (r : Request) : Prop :=
  hasArg r "ssid" = false ∨ hasArg r "password" = false
  ∨ hasArg r "webhook" = false.

Definition request_without_password : Request :=
  mkRequest "/save" HTTP_POST
    [("ssid", "Home"); ("webhook", "http://example.org/hook")].

Definition request_without_method : Request :=
  mkRequest "/save" HTTP_POST
    [("ssid", "Home"); ("password", "secret1");
     ("webhook", "http://example.org/hook")].

Definition request_with_spaces : Request :=
  mkRequest "/save" HTTP_POST
    [("ssid", " Home "); ("password", "secret1 ");
     ("webhook", " http://example.org/hook"); ("webhook_method", " POST")].

End ConfigPredicates.
Export ConfigPredicates.

(** ** White space at the ends of a string *)

Module Whitespace.

(** The white-space characters: space, tab, line feed, vertical tab,
    form feed and carriage return. *)
Definition white_space : list ascii :=
  [" "; "009"; "010"; "011"; "012"; "013"]%char.

(** Nothing but white space. *)
Fixpoint blank (s : string) : bool :=
  match s with
  | EmptyString => true
  | String c r => isspace c && blank r
  end.

(** The first character is white space. *)
Definition starts_with_space (s : string) : bool :=
  match s with
  | EmptyString => false
  | String c _ => isspace c
  end.

(** The last character is white space. *)
Fixpoint ends_with_space (s : string) : bool :=
  match s with
  | EmptyString => false
  | String c r =>
      match r with
      | EmptyString => isspace c
      | String _ _ => ends_with_space r
      end
  end.

(** No white space at either end. *)
Definition stripped (s : string) : Prop :=
  starts_with_space s = false ∧ ends_with_space s = false.

(** [t] is [s] without the white space at its two ends. *)
Definition strip_of (s t : string) : Prop :=
  ∃ a b, s = a +:+ (t +:+ b)
         ∧ blank a = true ∧ blank b = true ∧ stripped t.

(** Lines joined by newlines. *)
Fixpoint unlines (ls : list string) : string :=
  match ls with
  | [] => EmptyString
  | l :: rest =>
      match rest with
      | [] => l
      | _ :: _ => l +:+ String nl (unlines rest)
      end
  end.

End Whitespace.
Export Whitespace.

(** ** The status reads of a connection attempt *)

Module StatusReads.

(** [WiFi.status()] is read once by the loop test of line 289 before
    every poll, and once more for the log during polls 0, 3, 6 and 9
    (lines 294-299).  In a cycle whose first read is number [k], the
    loop test before poll [i] is read number [test_read k i]. *)
Definition test_read (k i : nat) : nat := (k + i + (i + 2) / 3)%nat.

(** The same when the loop test before poll [a] is read number [k]:
    the loop test before poll [a + i]. *)
Definition test_read_from (k a i : nat) : nat :=
  (k + i + ((a + i + 2) / 3 - (a + 2) / 3))%nat.

(** A cycle whose first read is number [k] polls [p] times: every loop
    test before a poll read something else than [WL_CONNECTED], and the
    loop ended on a read of [WL_CONNECTED] or because the 10 polls were
    used up. *)
Definition cycle_polls (status : nat → wl_status_t) (k p : nat) : Prop :=
  Z.of_nat p <= MAX_CONNECTION_ATTEMPTS
  ∧ (∀ i, (i < p)%nat → status (test_read k i) ≠ WL_CONNECTED)
  ∧ (Z.of_nat p = MAX_CONNECTION_ATTEMPTS
     ∨ status (test_read k p) = WL_CONNECTED).

(** The read of line 304, which decides whether the cycle succeeded. *)
Definition check_read (k p : nat) : nat := S (test_read k p).

(** The first read of the next cycle: a failed cycle reads once more for
    its log (line 310). *)
Definition next_cycle_read (k p : nat) : nat := S (S (check_read k p)).

(** Consecutive cycles, the first of which starts at read [k], poll
    [polls] times and end [connected]: a cycle whose check reads
    [WL_CONNECTED] is the last one, any other is followed by the next. *)
Fixpoint cycles_run (status : nat → wl_status_t) (k : nat)
    (polls : list nat) (connected : bool) : Prop :=
  match polls with
  | [] => connected = false
  | p :: rest =>
      cycle_polls status k p
      ∧ (if bool_decide (status (check_read k p) = WL_CONNECTED)
         then rest = [] ∧ connected = true
         else cycles_run status (next_cycle_read k p) rest connected)
  end.

(** The calls that start the access point and the captive portal
    (lines 330-400): [softAP] is called a second time, after a second,
    when the first call fails. *)
Definition portal_calls (a : ApInputs) : list Event :=
  let randomizedSSID := AP_SSID_BASE +:+ pretty (random_1000_9999 a) in
  [WiFi_disconnect true; Delay 500; WiFi_mode WIFI_MODE_NULL; Delay 100;
   WiFi_mode WIFI_MODE_AP; Delay 500;
   WiFi_softAP randomizedSSID AP_PASSWORD;
   WiFi_setTxPower WIFI_POWER_8_5dBm]
  ++ (if apStarted1 a then []
      else [Delay 1000; WiFi_softAP randomizedSSID AP_PASSWORD])
  ++ [DNS_start 53; Server_begin].

(** The status reads connected from read [n] on. *)
Definition connected_from (n : nat) : nat → wl_status_t :=
  fun k => if (k <? n)%nat then WL_DISCONNECTED else WL_CONNECTED.

End StatusReads.
Export StatusReads.

(** ** The configuration in memory and in flash *)

Module StoredConfig.

(** None of the six configuration strings has white space at an end. *)
Definition config_stripped (d : Device) : Prop :=
  stripped (ssid d) ∧ stripped (password d) ∧ stripped (webhookUrl d)
  ∧ stripped (webhookMethod d) ∧ stripped (webhookHeaders d)
  ∧ stripped (webhookPayload d).

(** No configuration value held in flash has white space at an end. *)
Definition stored_stripped (nvs : gmap string string) : Prop :=
  ∀ k v, k ∈ config_keys → nvs !! k = Some v → stripped v.

(** The six configuration strings and the flash. *)
Definition configuration (d : Device) :=
  (ssid d, password d, webhookUrl d, webhookMethod d, webhookHeaders d,
   webhookPayload d, preferences d).

(** No white space at an end of a configuration string, in memory or in
    flash. *)
Definition all_stripped (d : Device) : Prop :=
  config_stripped d ∧ stored_stripped (preferences d).

(** What the flash can hold: nothing, as it leaves the factory, or what
    a power cycle of this firmware leaves in it. *)
Inductive Writable : gmap string string → Prop :=
| writable_erased : Writable ∅
| writable_cycle b nvs c sched :
    Writable nvs → boot b nvs = Some c →
    Writable (preferences (dev (run sched c))).

(** A first configuration through the portal: the button is held at
    power-on, and the form is posted. *)
Definition sched_first_save : list Label :=
  [Main (mkEnv 9000 WL_DISCONNECTED None);
   Main (mkEnv 9000 WL_DISCONNECTED (Some request_with_spaces))].

Definition saved_by_portal : gmap string string :=
  preferences (dev (run sched_first_save (booted boot_button_held ∅))).

End StoredConfig.
Export StoredConfig.

(** ** A press while the device goes to sleep *)

Module SleepRace.

(** An idle minute: the tests of lines 246 and 247 pass. *)
Definition sched_idle_tests_pass : list Label :=
  map (fun t => Main (env t WL_CONNECTED))
    [61000; 61000; 61000; 61000; 61000].

(** Then the button is pressed, before [detachInterrupt] (line 625), and
    [goToSleep] runs to its end. *)
Definition sched_press_then_sleep : list Label :=
  [Isr 61001; Main (env 61002 WL_CONNECTED); Main (env 61003 WL_CONNECTED);
   Main (env 62003 WL_CONNECTED)].

End SleepRace.
Export SleepRace.

(** ** escapeJsonString (lines 526-554) *)

Module Json.

Definition backslash : ascii := "\"%char.
Definition dquote : ascii := "034"%char.

(** One digit of [snprintf]'s [%x]: lower-case hexadecimal. *)
Definition hex_digit (n : N) : ascii :=
  if (n <? 10)%N then ascii_of_N (48 + n) else ascii_of_N (87 + n).

(** [snprintf(buf, sizeof(buf), "\\u%04x", (unsigned char)c)]: the value
    is below 256, so the four digits are two zeros and two digits. *)
Definition u_escape (c : ascii) : string :=
  let n := N_of_ascii c in
  String backslash
    (String "u" (String "0" (String "0"
       (String (hex_digit (n / 16)) (String (hex_digit (n mod 16)) ""))))).

(** The body of the loop: what one character adds to [output].  The
    comparisons [c >= ' ' && c <= '~'] single out the codes 32 to 126
    whether [char] is signed or not. *)
Definition escapeChar (c : ascii) : string :=
  let n := N_of_ascii c in
  if (n =? 92)%N then String backslash (String backslash "")
  else if (n =? 34)%N then String backslash (String dquote "")
  else if (n =? 8)%N then String backslash "b"
  else if (n =? 12)%N then String backslash "f"
  else if (n =? 10)%N then String backslash "n"
  else if (n =? 13)%N then String backslash "r"
  else if (n =? 9)%N then String backslash "t"
  else if ((32 <=? n) && (n <=? 126))%N then String c ""
  else u_escape c.

(** The loop over the characters of [input], from the first to the last. *)
Fixpoint escapeJsonString (input : string) : string :=
  match input with
  | EmptyString => EmptyString
  | String c rest => escapeChar c +:+ escapeJsonString rest
  end.

(** A printable ASCII character, as the default case tests it. *)
Definition printable (c : ascii) : bool :=
  let n := N_of_ascii c in ((32 <=? n) && (n <=? 126))%N.

(** A character that needs no escape: printable, and neither the quote
    nor the backslash. *)
Definition plain (c : ascii) : bool :=
  printable c && negb (Ascii.eqb c dquote) && negb (Ascii.eqb c backslash).

(** Is every character of [s] accepted by [p]? *)
Fixpoint all_chars (p : ascii → bool) (s : string) : bool :=
  match s with
  | EmptyString => true
  | String c r => p c && all_chars p r
  end.



End Json.
Export Json.

(** ** Further predicates and examples *)

Module MorePredicates.

(** Triggers each of which comes more than the debounce time after the
    one before, the first after [last]. *)
Fixpoint well_spaced (last : Z) (times : list Z) : Prop :=
  match times with
  | [] => True
  | t :: rest => DEBOUNCE_TIME < usub t last ∧ well_spaced t rest
  end.

(** A device whose last accepted press was 100 ms before the clock
    wraps. *)
Definition pressed_before_wrap : Device :=
  set_lastButtonPressTime (two32 - 100) (power_on ∅).


(** What only the configuration portal may change: the six configuration
    strings, the restart flag, the stored configuration, the WiFi mode
    and whether the web server runs. *)
Definition settings (d : Device) :=
  (ssid d, password d, webhookUrl d, webhookMethod d, webhookHeaders d,
   webhookPayload d, configSaved d, preferences d, wifiMode d,
   serverBegun d).

(** Saved credentials, no webhook URL. *)
Definition saved_without_url : gmap string string :=
  {["ssid" := "Home"; "password" := "secret1"]}.

Definition connected (now : Z) : Env := env now WL_CONNECTED.
Definition offline (now : Z) : Env := env now WL_DISCONNECTED.


(** The milliseconds that a call waits. *)
Definition delay_of (e : Event) : Z :=
  match e with
  | Delay ms => ms
  | _ => 0
  end.

(** The milliseconds that a sequence of calls waits in [delay]. *)
Definition total_delay (es : list Event) : Z :=
  foldr (fun e acc => delay_of e + acc) 0 es.

(** A call of [WiFi.begin]. *)
Definition is_begin (e : Event) : bool :=
  match e with
  | WiFi_begin _ _ => true
  | _ => false
  end.

(** A request for a page that does not exist. *)
Definition request_favicon : Request :=
  mkRequest "/favicon.ico" HTTP_GET [].

End MorePredicates.
Export MorePredicates.

(* ===================================================================== *)
(** * Theorems *)
(* ===================================================================== *)

(** Reduce the projections of a device that was built with setters. *)
Ltac dev_simpl :=
  cbn [ssid password webhookUrl webhookMethod webhookHeaders webhookPayload
       configSaved pendingRequests requestInProgress lastButtonPressTime
       lastActivityTime wifiMode preferences interruptAttached serverBegun
       trace set_ssid set_password set_webhookUrl set_webhookMethod
       set_webhookHeaders set_webhookPayload set_configSaved
       set_pendingRequests set_requestInProgress set_lastButtonPressTime
       set_lastActivityTime set_wifiMode set_preferences
       set_interruptAttached set_serverBegun emit putString
       WiFi_set_mode setupWebServer handleRoot handleNotFound].

Ltac dev_simpl_in H :=
  cbn [ssid password webhookUrl webhookMethod webhookHeaders webhookPayload
       configSaved pendingRequests requestInProgress lastButtonPressTime
       lastActivityTime wifiMode preferences interruptAttached serverBegun
       trace set_ssid set_password set_webhookUrl set_webhookMethod
       set_webhookHeaders set_webhookPayload set_configSaved
       set_pendingRequests set_requestInProgress set_lastButtonPressTime
       set_lastActivityTime set_wifiMode set_preferences
       set_interruptAttached set_serverBegun emit putString
       WiFi_set_mode setupWebServer handleRoot handleNotFound] in H.

(** ** Facts about [String::trim] *)

Module StringFacts.

Lemma trim_front_idem s : trim_front (trim_front s) = trim_front s.
Proof.
  induction s as [|c s IH]; simpl; [reflexivity|].
  destruct (isspace c) eqn:Hc; [exact IH|].
  simpl. rewrite Hc. reflexivity.
Qed.

Lemma trim_back_idem s : trim_back (trim_back s) = trim_back s.
Proof.
  induction s as [|c s IH]; simpl; [reflexivity|].
  destruct (trim_back s) as [|c' r] eqn:Hr.
  - destruct (isspace c) eqn:Hc; simpl; [reflexivity|].
    rewrite Hc. reflexivity.
  - simpl in *. rewrite IH. reflexivity.
Qed.

(** Cutting at the back first or at the front first gives the same. *)
Lemma trim_front_back s : trim_front (trim_back s) = trim_back (trim_front s).
Proof.
  induction s as [|c s IH]; simpl; [reflexivity|].
  destruct (isspace c) eqn:Hc.
  - rewrite <- IH.
    destruct (trim_back s) as [|c' r]; simpl; rewrite ?Hc; reflexivity.
  - simpl.
    destruct (trim_back s) as [|c' r]; simpl; rewrite ?Hc; reflexivity.
Qed.

Lemma trim_idem s : trim (trim s) = trim s.
Proof.
  unfold trim.
  rewrite trim_front_back, trim_front_idem, trim_back_idem. reflexivity.
Qed.

Lemma trimmed_trim s : trimmed (trim s).
Proof. apply trim_idem. Qed.

Lemma trim_empty : trim "" = "".
Proof. reflexivity. Qed.

End StringFacts.


(** ** The interrupt handler: debounce *)

Module InterruptFacts.

(** A trigger no later than the debounce time after the last accepted
    one changes nothing. *)
Lemma buttonISR_ignored t d :
  usub t (lastButtonPressTime d) <= DEBOUNCE_TIME → buttonISR t d = d.
Proof.
  intros H. unfold buttonISR.
  destruct (DEBOUNCE_TIME <? _) eqn:E; [|reflexivity].
  apply Z.ltb_lt in E. lia.
Qed.

(** An accepted trigger counts once and stamps both times. *)
Lemma buttonISR_accepted t d :
  DEBOUNCE_TIME < usub t (lastButtonPressTime d) →
  buttonISR t d =
    d ▷ set_pendingRequests (i32 (pendingRequests d + 1))
      ▷ set_lastButtonPressTime t
      ▷ set_lastActivityTime t.
Proof.
  intros H. unfold buttonISR.
  destruct (DEBOUNCE_TIME <? _) eqn:E; [reflexivity|].
  apply Z.ltb_ge in E. lia.
Qed.

Lemma buttonISRs_ignored ts d :
  Forall (fun t => usub t (lastButtonPressTime d) < DEBOUNCE_TIME) ts →
  buttonISRs ts d = d.
Proof.
  unfold buttonISRs.
  induction 1 as [|t ts Ht _ IH]; simpl; [reflexivity|].
  rewrite buttonISR_ignored by lia. exact IH.
Qed.

Lemma buttonISRs_app ts1 ts2 d :
  buttonISRs (ts1 ++ ts2) d = buttonISRs ts2 (buttonISRs ts1 d).
Proof. unfold buttonISRs. apply foldl_app. Qed.

(** C3.  In a burst of triggers each of which, after the first, comes
    less than the debounce window (300 ms) after the last accepted
    trigger, no trigger but the first changes the state: each later one
    leaves the globals exactly as it found them, so the burst has the
    effect of its first trigger alone; and when that first trigger is
    accepted, [pendingRequests] is incremented once and both time stamps
    are set to its time. *)
Theorem debounce_burst_counts_once (d : Device) (t1 : Z) (ts : list Z) :
  Forall (fun t => usub t (lastButtonPressTime (buttonISR t1 d)) < DEBOUNCE_TIME) ts →
  (∀ pre t post, ts = pre ++ t :: post →
     buttonISR t (buttonISRs (t1 :: pre) d) = buttonISRs (t1 :: pre) d)
  ∧ buttonISRs (t1 :: ts) d = buttonISR t1 d
  ∧ (DEBOUNCE_TIME < usub t1 (lastButtonPressTime d) →
       buttonISRs (t1 :: ts) d =
         d ▷ set_pendingRequests (i32 (pendingRequests d + 1))
           ▷ set_lastButtonPressTime t1
           ▷ set_lastActivityTime t1).
Proof.
  intros Hall.
  assert (Hrun : ∀ l, Forall (fun t => usub t (lastButtonPressTime (buttonISR t1 d)) < DEBOUNCE_TIME) l →
                      buttonISRs (t1 :: l) d = buttonISR t1 d).
  { intros l Hl. change (t1 :: l) with ([t1] ++ l).
    rewrite buttonISRs_app. apply buttonISRs_ignored. exact Hl. }
  split; [|split].
  - intros pre t post ->.
    apply Forall_app in Hall as [Hpre Hpost].
    inversion Hpost as [|? ? Ht _]; subst.
    rewrite (Hrun pre Hpre).
    apply buttonISR_ignored. lia.
  - apply Hrun, Hall.
  - intros Hacc. rewrite (Hrun ts Hall). apply buttonISR_accepted, Hacc.
Qed.

(** A press at 5000 ms on a device that has seen none, then bounces at
    5010 ms, 5120 ms and 5299 ms. *)
Lemma debounce_burst_counts_once_witness :
  pendingRequests (buttonISRs [5000; 5010; 5120; 5299] (power_on ∅)) = 1
  ∧ lastButtonPressTime (buttonISRs [5000; 5010; 5120; 5299] (power_on ∅)) = 5000.
Proof.
  assert (H : Forall (fun t => usub t (lastButtonPressTime (buttonISR 5000 (power_on ∅))) < DEBOUNCE_TIME)
                [5010; 5120; 5299]).
  { repeat constructor; vm_compute; reflexivity. }
  destruct (debounce_burst_counts_once (power_on ∅) 5000 [5010; 5120; 5299] H)
    as (_ & _ & Hacc).
  rewrite Hacc; [split; reflexivity | vm_compute; reflexivity].
Defined.

End InterruptFacts.

(** ** The configuration: loading and saving *)

Module ConfigFacts.
Import StringFacts.

Lemma arg_absent r name : hasArg r name = false → arg r name = "".
Proof.
  unfold hasArg, arg. generalize (args r) as l.
  induction l as [|kv l IH]; simpl; [reflexivity|].
  destruct (String.eqb kv.1 name); simpl; [discriminate|exact IH].
Qed.

Lemma required_present r :
  hasArg r "ssid" = true → hasArg r "password" = true →
  hasArg r "webhook" = true →
  hasArg r "ssid" && hasArg r "password" && hasArg r "webhook" = true.
Proof. intros -> -> ->. reflexivity. Qed.

Lemma required_missing r :
  missing_required r →
  hasArg r "ssid" && hasArg r "password" && hasArg r "webhook" = false.
Proof.
  intros [-> | [-> | ->]]; rewrite ?andb_false_r; reflexivity.
Qed.

(** Unfold [handleSave] on its accepting path. *)
Ltac save_accepted H1 H2 H3 :=
  unfold handleSave; rewrite (required_present _ H1 H2 H3);
  cbv beta iota zeta; dev_simpl.

Lemma handleSave_rejected r now d :
  missing_required r →
  handleSave r now d =
    d ▷ set_lastActivityTime now
      ▷ emit (Server_send 400 "text/plain" (Text "Missing required fields")).
Proof.
  intros H. unfold handleSave. rewrite (required_missing r H). reflexivity.
Qed.

(** C9.  A save request that lacks a required field is answered at once
    with the 400 response, and nothing else happens: no call to
    [preferences.putString] is made, the stored configuration is the one
    that was there, and so are the six configuration strings in memory
    and the restart flag. *)
Theorem handleSave_missing_field_leaves_store (r : Request) (now : Z) (d : Device) :
  missing_required r →
  trace (handleSave r now d) =
    trace d ++ [Server_send 400 "text/plain" (Text "Missing required fields")]
  ∧ preferences (handleSave r now d) = preferences d
  ∧ configSaved (handleSave r now d) = configSaved d
  ∧ (ssid (handleSave r now d), password (handleSave r now d),
     webhookUrl (handleSave r now d), webhookMethod (handleSave r now d),
     webhookHeaders (handleSave r now d), webhookPayload (handleSave r now d))
    = (ssid d, password d, webhookUrl d, webhookMethod d, webhookHeaders d,
       webhookPayload d).
Proof.
  intros H. rewrite (handleSave_rejected r now d H). repeat split.
Qed.

Lemma handleSave_missing_field_leaves_store_witness :
  preferences (handleSave request_without_password 1234
                 (power_on {["ssid" := "Old"]})) = {["ssid" := "Old"]}.
Proof.
  assert (H : missing_required request_without_password)
    by (right; left; reflexivity).
  exact (proj1 (proj2 (handleSave_missing_field_leaves_store
                         request_without_password 1234
                         (power_on {["ssid" := "Old"]}) H))).
Defined.

(** C10.  Only [ssid], [password] and [webhook] are required.  A request
    that has these three is accepted: the 200 page is sent and
    [configSaved] is set.  For each of [webhook_method],
    [webhook_headers] and [webhook_payload] that the request omits, the
    empty string is written to flash under that key, whatever was stored
    there before. *)
Theorem handleSave_omitted_fields_saved_empty (r : Request) (now : Z) (d : Device) :
  hasArg r "ssid" = true → hasArg r "password" = true →
  hasArg r "webhook" = true →
  configSaved (handleSave r now d) = true
  ∧ last (trace (handleSave r now d)) = Some (Server_send 200 "text/html" SavedPage)
  ∧ (hasArg r "webhook_method" = false →
       preferences (handleSave r now d) !! "webhook_method" = Some ""
       ∧ Preferences_putString "webhook_method" "" ∈ trace (handleSave r now d))
  ∧ (hasArg r "webhook_headers" = false →
       preferences (handleSave r now d) !! "webhook_headers" = Some ""
       ∧ Preferences_putString "webhook_headers" "" ∈ trace (handleSave r now d))
  ∧ (hasArg r "webhook_payload" = false →
       preferences (handleSave r now d) !! "webhook_payload" = Some ""
       ∧ Preferences_putString "webhook_payload" "" ∈ trace (handleSave r now d)).
Proof.
  intros H1 H2 H3. save_accepted H1 H2 H3.
  split; [reflexivity|]. split; [apply last_snoc|].
  repeat split.
  all: rewrite (arg_absent _ _ H), trim_empty.
  all: try (rewrite !lookup_insert; repeat case_decide; congruence).
  all: rewrite !elem_of_app, !list_elem_of_singleton; tauto.
Qed.

Lemma handleSave_omitted_fields_saved_empty_witness :
  preferences (handleSave request_without_method 1234
                 (power_on {["webhook_method" := "POST"]}))
    !! "webhook_method" = Some "".
Proof.
  destruct (handleSave_omitted_fields_saved_empty request_without_method
              1234 (power_on {["webhook_method" := "POST"]})
              eq_refl eq_refl eq_refl) as (_ & _ & Hm & _).
  exact (proj1 (Hm eq_refl)).
Defined.

Lemma loadConfig_fields d :
  ssid (loadConfig d) = trim (getString "ssid" "" d)
  ∧ password (loadConfig d) = trim (getString "password" "" d)
  ∧ webhookUrl (loadConfig d) = trim (getString "webhook" "" d)
  ∧ webhookMethod (loadConfig d) = getString "webhook_method" "GET" d
  ∧ webhookHeaders (loadConfig d) = getString "webhook_headers" "" d
  ∧ webhookPayload (loadConfig d) = getString "webhook_payload" "" d.
Proof. unfold loadConfig, getString. cbv beta iota zeta. dev_simpl. repeat split. Qed.

Lemma getString_trimmed key def d :
  key ∈ config_keys → trimmed def → stored_trimmed (preferences d) →
  trimmed (getString key def d).
Proof.
  intros Hk Hdef Hst. unfold getString.
  destruct (preferences d !! key) as [v|] eqn:E; simpl; [|exact Hdef].
  exact (Hst key v Hk E).
Qed.

End ConfigFacts.

(** ** The connection manager *)

Module ConnectionFacts.

Lemma emits_app es1 es2 d : emits (es1 ++ es2) d = emits es2 (emits es1 d).
Proof. unfold emits. apply foldl_app. Qed.

Lemma emits_cons e es d : emits (e :: es) d = emits es (emit e d).
Proof. reflexivity. Qed.

(** [emits] changes the trace and nothing else. *)
Lemma emits_spec es d :
  emits es d =
    mkDevice (ssid d) (password d) (webhookUrl d) (webhookMethod d)
      (webhookHeaders d) (webhookPayload d) (configSaved d)
      (pendingRequests d) (requestInProgress d) (lastButtonPressTime d)
      (lastActivityTime d) (wifiMode d) (preferences d)
      (interruptAttached d) (serverBegun d) (trace d ++ es).
Proof.
  revert d. induction es as [|e es IH]; intros d.
  - destruct d; simpl. rewrite app_nil_r. reflexivity.
  - rewrite emits_cons, IH. dev_simpl.
    rewrite <- app_assoc. reflexivity.
Qed.

(** The polling loop runs at most [MAX_CONNECTION_ATTEMPTS - attempts]
    times, waits [CONNECTION_RETRY_DELAY] each time and does nothing
    else; it stops for good only after a read of [WL_CONNECTED] or when
    the attempts are used up. *)
Lemma pollLoop_spec status fuel : ∀ k attempts d,
  0 <= attempts <= MAX_CONNECTION_ATTEMPTS →
  (Z.to_nat (MAX_CONNECTION_ATTEMPTS - attempts) <= fuel)%nat →
  ∃ (p : nat) (k' : nat),
    pollLoop fuel status k attempts d
      = Some (S k', emits (repeat (Delay CONNECTION_RETRY_DELAY) p) d)
    ∧ Z.of_nat p <= MAX_CONNECTION_ATTEMPTS - attempts
    ∧ (status k' = WL_CONNECTED
       ∨ Z.of_nat p = MAX_CONNECTION_ATTEMPTS - attempts)
    ∧ (status k = WL_CONNECTED → p = 0%nat ∧ k' = k)
    ∧ ((∀ j, status j ≠ WL_CONNECTED) →
       Z.of_nat p = MAX_CONNECTION_ATTEMPTS - attempts).
Proof.
  unfold MAX_CONNECTION_ATTEMPTS.
  induction fuel as [|fuel IH]; intros k attempts d Hat Hfuel.
  - simpl. unfold MAX_CONNECTION_ATTEMPTS.
    assert (attempts = 10) as -> by lia.
    rewrite andb_false_r.
    exists 0%nat, k. repeat split; auto; lia.
  - simpl. unfold MAX_CONNECTION_ATTEMPTS.
    destruct (bool_decide (status k ≠ WL_CONNECTED)) eqn:Hs; simpl.
    + apply bool_decide_eq_true in Hs.
      destruct (attempts <? 10) eqn:Hlt.
      * apply Z.ltb_lt in Hlt.
        destruct (IH (if attempts mod 3 =? 0 then S (S k) else S k)
                    (attempts + 1) (emit (Delay CONNECTION_RETRY_DELAY) d))
          as (p & k' & Heq & Hp & Hstop & _ & Hnever); [lia | lia |].
        exists (S p), k'. rewrite Heq.
        split; [reflexivity|]. split; [lia|]. split; [|split].
        -- destruct Hstop as [Hc | Hp']; [left; exact Hc | right; lia].
        -- intros Hc. contradiction.
        -- intros Hn. specialize (Hnever Hn). lia.
      * apply Z.ltb_ge in Hlt.
        exists 0%nat, k. repeat split; auto; try lia.
    + apply bool_decide_eq_false in Hs.
      assert (Hc : status k = WL_CONNECTED)
        by (destruct (decide (status k = WL_CONNECTED)); [auto | contradiction]).
      exists 0%nat, k. repeat split; auto; try lia.
      intros Hn. destruct (Hn k Hc).
Qed.

Lemma emits_ssid es d : ssid (emits es d) = ssid d.
Proof. rewrite emits_spec. reflexivity. Qed.

Lemma emits_password es d : password (emits es d) = password d.
Proof. rewrite emits_spec. reflexivity. Qed.

Lemma connectLoop_S fuel status k fullAttempt d :
  connectLoop (S fuel) status k fullAttempt d =
    if fullAttempt <? MAX_FULL_CONNECTION_ATTEMPTS then
      let d1 := d ▷ emit (WiFi_disconnect false) ▷ emit (Delay 1000)
                  ▷ emit (WiFi_begin (ssid d) (password d)) ▷ setTxPower in
      match pollLoop (Z.to_nat MAX_CONNECTION_ATTEMPTS) status k 0 d1 with
      | None => None
      | Some (k, d) =>
          if bool_decide (status k = WL_CONNECTED) then Some (S k, true, d)
          else
            connectLoop fuel status (S (S k)) (fullAttempt + 1)
              (if fullAttempt <? MAX_FULL_CONNECTION_ATTEMPTS - 1
               then emit (Delay 3000) d else d)
      end
    else Some (k, false, d).
Proof. reflexivity. Qed.

(** The outer loop runs at most [MAX_FULL_CONNECTION_ATTEMPTS -
    fullAttempt] cycles; its calls are those of [cycles_events]. *)
Lemma connectLoop_spec status fuel : ∀ k fullAttempt d,
  0 <= fullAttempt <= MAX_FULL_CONNECTION_ATTEMPTS →
  (Z.to_nat (MAX_FULL_CONNECTION_ATTEMPTS - fullAttempt) <= fuel)%nat →
  ∃ (polls : list nat) (connected : bool) (k' : nat),
    connectLoop fuel status k fullAttempt d
      = Some (k', connected,
              emits (cycles_events (ssid d) (password d) fullAttempt polls
                       connected) d)
    ∧ Z.of_nat (length polls) <= MAX_FULL_CONNECTION_ATTEMPTS - fullAttempt
    ∧ Forall (fun p => Z.of_nat p <= MAX_CONNECTION_ATTEMPTS) polls
    ∧ (connected = false →
       Z.of_nat (length polls) = MAX_FULL_CONNECTION_ATTEMPTS - fullAttempt)
    ∧ (connected = true → polls ≠ [])
    ∧ ((∀ j, status j ≠ WL_CONNECTED) →
       connected = false
       ∧ polls = repeat (Z.to_nat MAX_CONNECTION_ATTEMPTS)
                   (Z.to_nat (MAX_FULL_CONNECTION_ATTEMPTS - fullAttempt)))
    ∧ (connected = true → ∃ j, status j = WL_CONNECTED)
    ∧ (status k = WL_CONNECTED → status (S k) = WL_CONNECTED →
       fullAttempt < MAX_FULL_CONNECTION_ATTEMPTS →
       connected = true ∧ polls = [0%nat]).
Proof.
  induction fuel as [|fuel IH]; intros k fa d Hfa Hfuel;
    unfold MAX_FULL_CONNECTION_ATTEMPTS in *.
  - simpl. unfold MAX_FULL_CONNECTION_ATTEMPTS.
    assert (fa = 3) as -> by lia. simpl.
    exists [], false, k.
    repeat split; auto; try lia; try discriminate.
  - rewrite connectLoop_S. unfold MAX_FULL_CONNECTION_ATTEMPTS.
    destruct (fa <? 3) eqn:Hlt.
    2:{ apply Z.ltb_ge in Hlt. assert (fa = 3) as -> by lia.
        exists [], false, k.
    repeat split; auto; try lia; try discriminate. }
    apply Z.ltb_lt in Hlt. cbv zeta.
    set (d1 := setTxPower _).
    destruct (pollLoop_spec status (Z.to_nat MAX_CONNECTION_ATTEMPTS) k 0 d1)
      as (p & k1 & Hpoll & Hp & _ & Hp0 & HpN);
      [unfold MAX_CONNECTION_ATTEMPTS; lia | lia |].
    rewrite Hpoll.
    assert (Hd1 : ∀ es, emits es d1
              = emits (cycle_events (ssid d) (password d) 0 ++ es) d)
      by (intros es; reflexivity).
    assert (Hcyc : emits (repeat (Delay CONNECTION_RETRY_DELAY) p) d1
              = emits (cycle_events (ssid d) (password d) p) d).
    { rewrite Hd1. unfold cycle_events. rewrite app_nil_r. reflexivity. }
    destruct (bool_decide (status (S k1) = WL_CONNECTED)) eqn:Hs.
    + exists [p], true, (S (S k1)).
      split.
      { rewrite Hcyc. simpl. rewrite !app_nil_r. reflexivity. }
      split; [simpl; lia|].
      split; [repeat constructor; lia|].
      split; [discriminate|].
      split; [discriminate|].
      apply bool_decide_eq_true in Hs.
      split; [|split].
      * intros Hn. destruct (Hn _ Hs).
      * intros _. eauto.
      * intros Hk _ _. destruct (Hp0 Hk) as [-> _]. auto.
    + apply bool_decide_eq_false in Hs.
      set (d2 := if fa <? 3 - 1 then _ else _).
      assert (Hd2 : d2 = emits (cycle_events (ssid d) (password d) p
                                 ++ backoff fa) d).
      { subst d2. rewrite emits_app, <- Hcyc. unfold backoff.
        unfold MAX_FULL_CONNECTION_ATTEMPTS.
        destruct (fa <? 3 - 1); reflexivity. }
      destruct (IH (S (S (S k1))) (fa + 1) d2)
        as (polls & connected & k' & Heq & Hlen & Hall & Hfail & Hok & HN
            & Hsome & _);
        [lia | lia |].
      exists (p :: polls), connected, k'.
      split.
      { rewrite Heq. f_equal. f_equal.
        rewrite Hd2, emits_ssid, emits_password, <- emits_app.
        f_equal. cbn [cycles_events].
        rewrite <- app_assoc. f_equal. f_equal.
        destruct polls as [|q polls]; [|reflexivity].
        destruct connected; [|reflexivity].
        destruct (Hok eq_refl eq_refl). }
      split; [simpl length; lia|].
      split; [constructor; [exact Hp | exact Hall]|].
      split; [intros Hc; specialize (Hfail Hc); simpl length; lia|].
      split; [discriminate|].
      split; [|split].
      * intros Hn. destruct (HN Hn) as [-> ->]. split; [reflexivity|].
        specialize (HpN Hn).
        replace (Z.to_nat (3 - fa)) with (S (Z.to_nat (3 - (fa + 1)))) by lia.
        simpl repeat. f_equal. lia.
      * exact Hsome.
      * intros Hk HSk _. destruct (Hp0 Hk) as [_ ->]. destruct (Hs HSk).
Qed.

(** The design document's scenario: credentials "Home" / "secret1" are
    saved and the connection fails throughout. *)
Example setupWiFi_home_never_connects :
  ∃ d, setup (mkBootInputs 1000 ESP_SLEEP_WAKEUP_UNDEFINED false
                never_connected ap_example) (power_on saved_home) = Some d
       ∧ wifiMode d = WIFI_MODE_AP ∧ serverBegun d = true
       ∧ length (filter (fun e => e = WiFi_begin "Home" "secret1") (trace d)) = 3%nat
       ∧ last (trace d) = Some Server_begin.
Proof. eexists. split; [vm_compute; reflexivity|]. vm_compute. repeat split. Qed.

End ConnectionFacts.

(** ** The loop and the interrupt: invariants *)

Module LoopFacts.
Import ConnectionFacts.

(** *** What [setup()] leaves behind *)

(** The fields that the interrupt and the dispatch logic work on. *)
Local Abbreviation same_runtime d' d :=
  (pendingRequests d' = pendingRequests d
   ∧ requestInProgress d' = requestInProgress d
   ∧ lastButtonPressTime d' = lastButtonPressTime d
   ∧ interruptAttached d' = interruptAttached d).

Lemma setupAP_runtime a d :
  same_runtime (setupAP a d) d ∧ wifiMode (setupAP a d) = WIFI_MODE_AP.
Proof. unfold setupAP. destruct (apStarted1 a); repeat split. Qed.

Lemma loadConfig_runtime d : same_runtime (loadConfig d) d.
Proof. unfold loadConfig. cbv zeta. dev_simpl. repeat split. Qed.

Lemma setupWiFi_runtime st a d :
  ∃ d', setupWiFi st a d = Some d'
        ∧ same_runtime d' d
        ∧ (wifiMode d' = WIFI_MODE_STA ∨ wifiMode d' = WIFI_MODE_AP).
Proof.
  unfold setupWiFi.
  set (d0 := d ▷ WiFi_set_mode WIFI_MODE_STA ▷ emit (Delay 100)).
  destruct (connectLoop_spec st (Z.to_nat MAX_FULL_CONNECTION_ATTEMPTS) 0 0 d0)
    as (polls & connected & k' & -> & _);
    [unfold MAX_FULL_CONNECTION_ATTEMPTS; lia | lia |].
  destruct connected; eexists; (split; [reflexivity|]).
  - rewrite emits_spec. split; [repeat split|]. left. reflexivity.
  - cbn [setupWebServer set_serverBegun emit pendingRequests
           requestInProgress lastButtonPressTime interruptAttached wifiMode].
    destruct (setupAP_runtime a (emits (cycles_events (ssid d0) (password d0) 0 polls false) d0))
      as [(-> & -> & -> & ->) ->].
    rewrite emits_spec. split; [repeat split|]. right. reflexivity.
Qed.

(** [setup()] always returns; it leaves no dispatch in flight, the
    interrupt attached, and a count of one exactly when the button woke
    the device. *)
Lemma setup_spec b nvs :
  ∃ d, setup b (power_on nvs) = Some d
       ∧ requestInProgress d = false
       ∧ interruptAttached d = true
       ∧ pendingRequests d =
           (if bool_decide (wakeup_reason b = ESP_SLEEP_WAKEUP_GPIO) then 1 else 0)
       ∧ (wifiMode d = WIFI_MODE_STA ∨ wifiMode d = WIFI_MODE_AP).
Proof.
  unfold setup. cbv zeta.
  set (d1 := loadConfig _).
  assert (Hd1 : pendingRequests d1 =
                  (if bool_decide (wakeup_reason b = ESP_SLEEP_WAKEUP_GPIO) then 1 else 0)
                ∧ requestInProgress d1 = false ∧ interruptAttached d1 = true).
  { subst d1.
    match goal with |- context [loadConfig ?x] =>
      destruct (loadConfig_runtime x) as (-> & -> & _ & ->) end.
    destruct (wakeup_reason b); repeat split. }
  destruct Hd1 as (Hp & Hr & Hi).
  assert (Hap : ∀ a, ∃ d, Some (d1 ▷ setupAP a ▷ setupWebServer) = Some d
       ∧ requestInProgress d = false
       ∧ interruptAttached d = true
       ∧ pendingRequests d =
           (if bool_decide (wakeup_reason b = ESP_SLEEP_WAKEUP_GPIO) then 1 else 0)
       ∧ (wifiMode d = WIFI_MODE_STA ∨ wifiMode d = WIFI_MODE_AP)).
  { intros a. eexists. split; [reflexivity|].
    destruct (setupAP_runtime a d1) as [(Hp' & Hr' & _ & Hi') Hm].
    cbn [setupWebServer set_serverBegun emit pendingRequests
           requestInProgress lastButtonPressTime interruptAttached wifiMode].
    rewrite Hp', Hr', Hi', Hm. auto. }
  destruct (button_low_at_boot b); [apply Hap|].
  destruct (_ && _); [|apply Hap].
  destruct (setupWiFi_runtime (wifi_status b) (ap_inputs b) d1)
    as (d' & -> & (Hp' & Hr' & _ & Hi') & Hm).
  exists d'. rewrite Hp', Hr', Hi'. auto.
Qed.

Lemma boot_spec b nvs :
  ∃ c, boot b nvs = Some c
       ∧ pc c = L_loop
       ∧ requestInProgress (dev c) = false
       ∧ interruptAttached (dev c) = true
       ∧ 0 <= pendingRequests (dev c) <= 1.
Proof.
  unfold boot. destruct (setup_spec b nvs) as (d & -> & Hr & Hi & Hp & _).
  eexists. split; [reflexivity|]. cbn [pc dev].
  repeat split; auto; rewrite Hp; case_bool_decide; lia.
Qed.

(** *** The model at work *)

(** Woken by the button: the first iteration makes one HTTP exchange with
    the stored method, headers and payload, and comes back to the top of
    the loop with nothing pending. *)
Example first_iteration_dispatches :
  let c := run sched_one_dispatch (booted boot_by_button saved_with_headers) in
  pc c = L_loop
  ∧ pendingRequests (dev c) = 0
  ∧ requestInProgress (dev c) = false
  ∧ lastActivityTime (dev c) = 1900
  ∧ drop 9 (trace (dev c))
    = [Http_begin "http://example.org/hook";
       Http_addHeader "Content-Type" "application/json";
       Http_POST "{}"; Http_end; Delay 100].
Proof. vm_compute. repeat split. Qed.

(** A minute without activity: the iteration ends in deep sleep. *)
Example idle_minute_sleeps :
  let c := run sched_idle_minute (booted boot_idle saved_config) in
  pc c = Asleep
  ∧ interruptAttached (dev c) = false
  ∧ drop 12 (trace (dev c))
    = [DetachInterrupt; Enable_gpio_wakeup; Delay 1000; Deep_sleep_start].
Proof. vm_compute. repeat split. Qed.

(** *** What the steps change *)

Lemma handleSave_frame r now d :
  same_runtime (handleSave r now d) d
  ∧ wifiMode (handleSave r now d) = wifiMode d
  ∧ ∃ es, trace (handleSave r now d) = trace d ++ es
          ∧ Forall (fun e => sleep_call e = false) es.
Proof.
  unfold handleSave.
  destruct (hasArg r "ssid" && hasArg r "password" && hasArg r "webhook");
    cbv zeta; dev_simpl.
  - repeat split. eexists. rewrite <- !app_assoc. split; [reflexivity|].
    repeat constructor.
  - repeat split. eexists. split; [reflexivity|]. repeat constructor.
Qed.

Lemma handleClient_frame cl now d :
  same_runtime (handleClient cl now d) d
  ∧ wifiMode (handleClient cl now d) = wifiMode d
  ∧ ∃ es, trace (handleClient cl now d) = trace d ++ es
          ∧ Forall (fun e => sleep_call e = false) es.
Proof.
  unfold handleClient.
  assert (Hid : same_runtime d d ∧ wifiMode d = wifiMode d
                ∧ ∃ es, trace d = trace d ++ es
                        ∧ Forall (fun e => sleep_call e = false) es).
  { repeat split. exists []. rewrite app_nil_r. split; [reflexivity|constructor]. }
  destruct cl as [r|]; [|exact Hid].
  destruct (negb (serverBegun d)); [exact Hid|].
  destruct (_ && _).
  { dev_simpl. repeat split. eexists. split; [reflexivity|]. repeat constructor. }
  destruct (_ && _); [apply handleSave_frame|].
  dev_simpl. repeat split. eexists. rewrite <- !app_assoc.
  split; [reflexivity|]. repeat constructor.
Qed.

Lemma buttonISR_frame t d :
  requestInProgress (buttonISR t d) = requestInProgress d
  ∧ interruptAttached (buttonISR t d) = interruptAttached d
  ∧ wifiMode (buttonISR t d) = wifiMode d
  ∧ trace (buttonISR t d) = trace d
  ∧ (pendingRequests (buttonISR t d) = pendingRequests d
     ∨ pendingRequests (buttonISR t d) = i32 (pendingRequests d + 1)).
Proof.
  unfold buttonISR. destruct (DEBOUNCE_TIME <? _); dev_simpl; auto 10.
Qed.

(** Case analysis on the statement that runs next. *)
Ltac main_cases c :=
  unfold step_main, loop, sendWebhookRequest, goToSleep;
  destruct (pc c) eqn:?Hpc;
  repeat match goal with
         | |- context [if ?b then _ else _] => destruct b eqn:?
         | |- context [match httpExchange ?d with _ => _ end] =>
             destruct (httpExchange d) eqn:?
         end;
  cbn [pc reg dev goto load upd]; dev_simpl.

Lemma run_snoc sched l c : run (sched ++ [l]) c = step l (run sched c).
Proof. unfold run. rewrite foldl_app. reflexivity. Qed.

Lemma reachable_run sched c : Reachable c → Reachable (run sched c).
Proof.
  revert c. induction sched as [|l sched IH]; intros c Hc; [exact Hc|].
  apply IH. apply reach_step. exact Hc.
Qed.

(** *** Single-flight dispatch *)

Lemma step_keeps_flag_in_step l c :
  (requestInProgress (dev c) = true ↔ in_dispatch (pc c) = true) →
  (requestInProgress (dev (step l c)) = true
   ↔ in_dispatch (pc (step l c)) = true).
Proof.
  intros Hinv. destruct l as [e|t]; cbn [step].
  - main_cases c; rewrite ?Hpc in Hinv;
      cbn [in_dispatch] in *;
      try (destruct (handleClient_frame (client e) (millis e) (dev c))
             as ((_ & -> & _) & _));
      try rewrite emits_spec; dev_simpl;
      try tauto; try (split; congruence).
    all: rewrite Hpc; exact Hinv.
  - unfold step_isr. destruct (_ && _); [|exact Hinv].
    cbn [pc dev upd].
    destruct (buttonISR_frame t (dev c)) as (-> & _). exact Hinv.
Qed.

Lemma reachable_flag c :
  Reachable c →
  (requestInProgress (dev c) = true ↔ in_dispatch (pc c) = true).
Proof.
  induction 1 as [b nvs c Hboot | l c _ IH].
  - destruct (boot_spec b nvs) as (c' & Hb & Hpc & Hr & _).
    rewrite Hb in Hboot. injection Hboot as <-.
    rewrite Hpc, Hr. simpl. split; discriminate.
  - apply step_keeps_flag_in_step, IH.
Qed.

(** C4.  In every configuration of every power cycle, whatever the
    button does and whenever it does it, [requestInProgress] is set
    exactly while the main thread is inside [sendWebhookRequest]: after
    the call's first statement has set it and before the call's last
    statement has cleared it.  Everywhere else it is clear; in
    particular it is clear where [sendWebhookRequest] is entered, so a
    dispatch never starts while another one is in flight. *)
Theorem single_flight_dispatch (c : Config) :
  Reachable c →
  (requestInProgress (dev c) = true ↔ in_dispatch (pc c) = true)
  ∧ (pc c = S_enter → requestInProgress (dev c) = false).
Proof.
  intros Hc. pose proof (reachable_flag c Hc) as Hinv.
  split; [exact Hinv|].
  intros Hpc. rewrite Hpc in Hinv. simpl in Hinv.
  destruct (requestInProgress (dev c)); [|reflexivity].
  destruct Hinv as [H _]. discriminate (H eq_refl).
Qed.

Lemma booted_reachable b nvs :
  boot b nvs = Some (booted b nvs) → ∀ sched, Reachable (run sched (booted b nvs)).
Proof.
  intros Hb sched. apply reachable_run. exact (reach_boot b nvs _ Hb).
Qed.

Lemma single_flight_dispatch_witness :
  pc (run sched_to_exchange (booted boot_by_button saved_config)) = S_http
  ∧ requestInProgress
      (dev (run sched_to_exchange (booted boot_by_button saved_config))) = true.
Proof.
  assert (Hb : boot boot_by_button saved_config
               = Some (booted boot_by_button saved_config))
    by (vm_compute; reflexivity).
  assert (Hpc : pc (run sched_to_exchange (booted boot_by_button saved_config))
                = S_http) by (vm_compute; reflexivity).
  split; [exact Hpc|].
  apply (proj1 (single_flight_dispatch _
                  (booted_reachable _ _ Hb sched_to_exchange))).
  rewrite Hpc. reflexivity.
Defined.

(** *** The counter *)

Lemma i32_small z : - two31 <= z < two31 → i32 z = z.
Proof.
  unfold i32, two32, two31. intros H.
  rewrite Z.mod_small; lia.
Qed.

Lemma isr_count_cons l sched :
  isr_count (l :: sched) = (if is_isr l then 1 else 0) + isr_count sched.
Proof.
  unfold isr_count. rewrite filter_cons.
  destruct l; simpl; try case_decide; try discriminate; try congruence;
    simpl length; lia.
Qed.

Lemma isr_count_nonneg sched : 0 <= isr_count sched.
Proof. unfold isr_count. lia. Qed.

Lemma step_counter_inv l c n :
  counter_inv n c →
  n + (if is_isr l then 1 else 0) <= INT_MAX →
  counter_inv (n + (if is_isr l then 1 else 0)) (step l c).
Proof.
  unfold counter_inv, INT_MAX, two31.
  intros (Hp & Hload & Hstore) Hn.
  destruct l as [e|t]; cbn [step is_isr] in Hn |- *.
  - rewrite Z.add_0_r in *.
    main_cases c; rewrite ?Hpc in Hload, Hstore;
      try (destruct (handleClient_frame (client e) (millis e) (dev c))
             as ((-> & _) & _));
      try rewrite emits_spec; dev_simpl;
      try (split; [lia | split; discriminate]).
    + split; [lia|]. split; [|discriminate]. intros _.
      apply andb_true_iff in Heqb as [Hlt _]. apply Z.ltb_lt in Hlt. lia.
    + specialize (Hload eq_refl). split; [lia|].
      split; [discriminate|]. intros _. lia.
    + specialize (Hstore eq_refl).
      rewrite i32_small by (unfold two31; lia).
      split; [lia|]. split; discriminate.
    + rewrite Hpc. auto.
    + rewrite Hpc. auto.
    + rewrite Hpc. auto.
  - unfold step_isr. destruct (_ && _).
    2:{ split; [lia|]. split; [exact Hload|]. intros H. specialize (Hstore H). lia. }
    cbn [pc reg dev upd].
    destruct (buttonISR_frame t (dev c)) as (_ & _ & _ & _ & [-> | ->]).
    + split; [lia|]. split; [exact Hload|]. intros H. specialize (Hstore H). lia.
    + rewrite i32_small by (unfold two31; lia).
      split; [lia|]. split; [intros H; specialize (Hload H); lia|].
      intros H. specialize (Hstore H). lia.
Qed.

Lemma run_counter_inv sched : ∀ c n,
  counter_inv n c →
  n + isr_count sched <= INT_MAX →
  counter_inv (n + isr_count sched) (run sched c).
Proof.
  induction sched as [|l sched IH]; intros c n Hinv Hn.
  - unfold isr_count; simpl. rewrite Z.add_0_r. exact Hinv.
  - rewrite isr_count_cons in *. cbn [run foldl].
    rewrite Z.add_assoc. apply IH; [|lia].
    apply step_counter_inv; [exact Hinv|].
    pose proof (isr_count_nonneg sched). lia.
Qed.

(** C5.  In a power cycle with fewer than [INT_MAX] interrupts, so that
    the 32-bit counter cannot wrap, [pendingRequests] is never negative,
    at whatever points the interrupts fall: the interrupt handler only
    adds one, and the decrement of line 235 runs only after the test of
    line 234 has seen a positive value, so the value it loads is
    positive and the value it stores is not negative. *)
Theorem pendingRequests_never_negative
    (b : BootInputs) (nvs : gmap string string) (c0 : Config)
    (sched : list Label) :
  boot b nvs = Some c0 →
  isr_count sched < INT_MAX →
  0 <= pendingRequests (dev (run sched c0))
  ∧ (pc (run sched c0) = L_dec_load → 0 < pendingRequests (dev (run sched c0)))
  ∧ (pc (run sched c0) = L_dec_store → 0 <= reg (run sched c0) - 1).
Proof.
  intros Hboot Hn.
  destruct (boot_spec b nvs) as (c & Hb & Hpc & _ & _ & Hp).
  rewrite Hb in Hboot. injection Hboot as <-.
  assert (H0 : counter_inv 1 c).
  { split; [exact Hp|]. rewrite Hpc. split; discriminate. }
  destruct (run_counter_inv sched c 1 H0) as (Hr & Hl & Hs); [lia|].
  split; [lia|]. split.
  - intros H. specialize (Hl H). lia.
  - intros H. specialize (Hs H). lia.
Qed.

Lemma pendingRequests_never_negative_witness :
  pc (run sched_press_during_decrement (booted boot_by_button saved_config))
    = S_enter
  ∧ 0 <= pendingRequests
           (dev (run sched_press_during_decrement
                   (booted boot_by_button saved_config))).
Proof.
  assert (Hb : boot boot_by_button saved_config
               = Some (booted boot_by_button saved_config))
    by (vm_compute; reflexivity).
  assert (Hn : isr_count sched_press_during_decrement < INT_MAX)
    by (vm_compute; reflexivity).
  split; [vm_compute; reflexivity|].
  exact (proj1 (pendingRequests_never_negative boot_by_button saved_config
                  _ sched_press_during_decrement Hb Hn)).
Defined.

(** *** The idle controller *)

Lemma run_isrs_keep isrs c :
  pc (run (map Isr isrs) c) = pc c
  ∧ trace (dev (run (map Isr isrs) c)) = trace (dev c).
Proof.
  revert c. induction isrs as [|t isrs IH]; intros c; [split; reflexivity|].
  cbn [map run foldl]. change (foldl _ ?x ?l) with (run l x).
  destruct (IH (step (Isr t) c)) as [-> ->].
  cbn [step]. unfold step_isr. destruct (_ && _); [|split; reflexivity].
  cbn [pc dev upd].
  destruct (buttonISR_frame t (dev c)) as (_ & _ & _ & -> & _).
  split; reflexivity.
Qed.

(** The guard of line 246 where it is evaluated: with a pending request
    or with a request in progress the test sends the main thread to the
    final [delay(100)], whatever the clock says, and the iteration ends at
    the top of the loop having called nothing but that delay, whatever
    interrupts arrive meanwhile. *)
Lemma no_sleep_while_pending_or_in_flight (c : Config) (e : Env) :
  pc c = L_idle_test →
  0 < pendingRequests (dev c) ∨ requestInProgress (dev c) = true →
  pc (step_main e c) = L_delay
  ∧ ∀ (isrs : list Z) (e' : Env),
      pc (run (Main e :: map Isr isrs ++ [Main e']) c) = L_loop
      ∧ trace (dev (run (Main e :: map Isr isrs ++ [Main e']) c))
        = trace (dev c) ++ [Delay 100].
Proof.
  intros Hpc Hbusy.
  assert (Hstep : step_main e c = goto L_delay c).
  { unfold step_main, loop. rewrite Hpc.
    destruct Hbusy as [Hp | Hr].
    - replace (pendingRequests (dev c) =? 0) with false
        by (symmetry; apply Z.eqb_neq; lia).
      rewrite andb_false_r. reflexivity.
    - rewrite Hr. reflexivity. }
  split; [rewrite Hstep; reflexivity|].
  intros isrs e'.
  cbn [run foldl step]. change (foldl _ ?x ?l) with (run l x).
  rewrite Hstep, run_snoc.
  destruct (run_isrs_keep isrs (goto L_delay c)) as [Hpc' Htr'].
  cbn [step]. unfold step_main, loop. rewrite Hpc'. cbn [pc goto upd dev].
  dev_simpl. rewrite Htr'. split; reflexivity.
Qed.

Lemma no_sleep_while_pending_or_in_flight_witness :
  pendingRequests
    (dev (run sched_second_press (booted boot_by_button saved_config))) = 1
  ∧ pc (step_main (env 4000000 WL_CONNECTED)
          (run sched_second_press (booted boot_by_button saved_config)))
    = L_delay.
Proof.
  assert (Hpc : pc (run sched_second_press (booted boot_by_button saved_config))
                = L_idle_test) by (vm_compute; reflexivity).
  assert (Hp : pendingRequests
                 (dev (run sched_second_press
                         (booted boot_by_button saved_config))) = 1)
    by (vm_compute; reflexivity).
  assert (Hlt : 0 < pendingRequests
                       (dev (run sched_second_press
                               (booted boot_by_button saved_config))))
    by (rewrite Hp; reflexivity).
  split; [exact Hp|].
  exact (proj1 (no_sleep_while_pending_or_in_flight _
                  (env 4000000 WL_CONNECTED) Hpc (or_introl Hlt))).
Defined.

(** No device sleeps with a request in progress. *)
Lemma never_asleep_in_flight c :
  Reachable c → in_goToSleep (pc c) = true →
  requestInProgress (dev c) = false.
Proof.
  intros Hc Hs. pose proof (reachable_flag c Hc) as [Hin _].
  destruct (requestInProgress (dev c)); [|reflexivity].
  specialize (Hin eq_refl).
  destruct (pc c); discriminate.
Qed.

(** The tests of lines 246 and 247 are made once per iteration.  A press
    that arrives after both have passed, before [goToSleep] has detached
    the interrupt, is counted by the handler
    while the main thread is already on its way to sleep.  (A press
    between the two tests stamps [lastActivityTime], so that the timeout
    test fails.) *)
Example press_after_timeout_test :
  pc (run sched_press_after_timeout_test (booted boot_idle saved_config))
    = G_wakeup
  ∧ pendingRequests
      (dev (run sched_press_after_timeout_test (booted boot_idle saved_config)))
    = 1.
Proof. split; vm_compute; reflexivity. Qed.

(** A step that takes the main thread onto the way to sleep is the idle
    test, made in a state without pending request and without request in
    progress. *)
Lemma step_onto_way_to_sleep l c :
  on_way_to_sleep (pc (step l c)) = true →
  on_way_to_sleep (pc c) = false →
  ∃ e, l = Main e ∧ pc c = L_idle_test
       ∧ pendingRequests (dev c) = 0 ∧ requestInProgress (dev c) = false.
Proof.
  destruct l as [e|t]; cbn [step].
  - main_cases c; cbn [on_way_to_sleep]; try discriminate;
      try (rewrite Hpc; cbn [on_way_to_sleep]; congruence).
    intros _ _. exists e.
    match goal with H : _ && _ = true |- _ =>
      apply andb_true_iff in H as [Hr Hp] end.
    apply Z.eqb_eq in Hp. destruct (requestInProgress (dev c)); [discriminate|].
    auto.
  - unfold step_isr. destruct (_ && _); cbn [pc dev upd]; congruence.
Qed.

(** Every run that has the main thread on the way to sleep, in
    [goToSleep] or asleep, has passed an idle test in a state without
    pending request and without request in progress, and has been on the
    way to sleep ever since. *)
Lemma sleep_only_through_idle_test c0 sched :
  on_way_to_sleep (pc c0) = false →
  on_way_to_sleep (pc (run sched c0)) = true →
  ∃ s1 e s2,
    sched = s1 ++ Main e :: s2
    ∧ pc (run s1 c0) = L_idle_test
    ∧ pendingRequests (dev (run s1 c0)) = 0
    ∧ requestInProgress (dev (run s1 c0)) = false
    ∧ ∀ n, on_way_to_sleep (pc (run (s1 ++ Main e :: take n s2) c0)) = true.
Proof.
  intros H0. induction sched as [|l sched IH] using rev_ind.
  - intros H. cbn [run foldl] in H. congruence.
  - rewrite run_snoc. intros H.
    destruct (on_way_to_sleep (pc (run sched c0))) eqn:Hway.
    + destruct (IH eq_refl) as (s1 & e & s2 & -> & Hpc & Hp & Hr & Hstay).
      exists s1, e, (s2 ++ [l]).
      split; [rewrite <- app_assoc; reflexivity|].
      split; [exact Hpc|]. split; [exact Hp|]. split; [exact Hr|].
      intros n. destruct (decide (n <= length s2)%nat) as [Hn|Hn].
      * rewrite take_app_le by exact Hn. apply Hstay.
      * rewrite take_ge by (rewrite length_app; simpl; lia).
        change (s1 ++ Main e :: s2 ++ [l]) with (s1 ++ (Main e :: s2) ++ [l]).
        rewrite app_assoc, run_snoc. exact H.
    + destruct (step_onto_way_to_sleep l _ H Hway) as (e & -> & Hpc & Hp & Hr).
      exists sched, e, [].
      split; [reflexivity|].
      split; [exact Hpc|]. split; [exact Hp|]. split; [exact Hr|].
      intros n. rewrite take_nil, run_snoc. exact H.
Qed.

(** *** Access-point mode *)

Lemma step_ap_inv l c :
  wifiMode (dev c) = WIFI_MODE_AP → in_ap_branch (pc c) = true →
  wifiMode (dev (step l c)) = WIFI_MODE_AP
  ∧ in_ap_branch (pc (step l c)) = true
  ∧ ∃ es, trace (dev (step l c)) = trace (dev c) ++ es
          ∧ Forall (fun e => sleep_call e = false) es.
Proof.
  intros Hm Hpc.
  assert (Hnil : ∃ es, trace (dev c) = trace (dev c) ++ es
                       ∧ Forall (fun e => sleep_call e = false) es).
  { exists []. rewrite app_nil_r. split; [reflexivity|constructor]. }
  destruct l as [e|t]; cbn [step].
  - main_cases c; rewrite ?Hpc0 in Hpc; cbn [in_ap_branch] in Hpc |- *;
      try discriminate Hpc;
      try (rewrite Hm in *; discriminate);
      try (split; [exact Hm|]; split; [reflexivity|]; exact Hnil).
    + destruct (handleClient_frame (client e) (millis e) (dev c))
        as (_ & -> & Hes). auto.
    + split; [exact Hm|]. split; [reflexivity|].
      eexists. rewrite <- app_assoc. split; [reflexivity|]. repeat constructor.
    + split; [exact Hm|]. split; [reflexivity|].
      eexists. split; [reflexivity|]. repeat constructor.
    + rewrite Hpc0. auto.
  - unfold step_isr. destruct (_ && _); cbn [pc dev upd]; [|auto].
    destruct (buttonISR_frame t (dev c)) as (_ & _ & -> & -> & _). auto.
Qed.

(** C2.  From the top of the loop in access-point mode, no schedule of
    main-thread statements and interrupts, however long and with
    whatever clock readings, counter and time stamps, leads into
    [goToSleep]: the mode stays [WIFI_MODE_AP], the main thread stays in
    the access-point branch, and none of the calls of [goToSleep] is
    ever made. *)
Theorem access_point_never_sleeps (c : Config) (sched : list Label) :
  pc c = L_loop →
  wifiMode (dev c) = WIFI_MODE_AP →
  in_goToSleep (pc (run sched c)) = false
  ∧ in_ap_branch (pc (run sched c)) = true
  ∧ wifiMode (dev (run sched c)) = WIFI_MODE_AP
  ∧ ∃ es, trace (dev (run sched c)) = trace (dev c) ++ es
          ∧ Forall (fun e => sleep_call e = false) es.
Proof.
  intros Hpc Hm.
  assert (Hinv : in_ap_branch (pc c) = true) by (rewrite Hpc; reflexivity).
  clear Hpc.
  assert (H : wifiMode (dev (run sched c)) = WIFI_MODE_AP
              ∧ in_ap_branch (pc (run sched c)) = true
              ∧ ∃ es, trace (dev (run sched c)) = trace (dev c) ++ es
                      ∧ Forall (fun e => sleep_call e = false) es).
  { revert c Hm Hinv. induction sched as [|l sched IH]; intros c Hm Hinv.
    - split; [exact Hm|]. split; [exact Hinv|].
      exists []. rewrite app_nil_r. split; [reflexivity|constructor].
    - cbn [run foldl]. change (foldl _ ?x ?l) with (run l x).
      destruct (step_ap_inv l c Hm Hinv) as (Hm' & Hinv' & es1 & Ht1 & Hf1).
      destruct (IH (step l c) Hm' Hinv') as (Hm2 & Hinv2 & es2 & Ht2 & Hf2).
      split; [exact Hm2|]. split; [exact Hinv2|].
      exists (es1 ++ es2). rewrite Ht2, Ht1, app_assoc.
      split; [reflexivity|]. apply Forall_app; auto. }
  destruct H as (Hm' & Hinv' & Hes).
  split; [|auto].
  destruct (pc (run sched c)); try reflexivity; discriminate Hinv'.
Qed.

Lemma access_point_never_sleeps_witness :
  pc (run sched_ap_idle (booted boot_button_held saved_config)) = L_loop
  ∧ in_goToSleep (pc (run sched_ap_idle (booted boot_button_held saved_config)))
    = false.
Proof.
  assert (Hpc : pc (booted boot_button_held saved_config) = L_loop)
    by (vm_compute; reflexivity).
  assert (Hm : wifiMode (dev (booted boot_button_held saved_config))
               = WIFI_MODE_AP) by (vm_compute; reflexivity).
  split; [vm_compute; reflexivity|].
  exact (proj1 (access_point_never_sleeps _ sched_ap_idle Hpc Hm)).
Defined.

End LoopFacts.

(** ** Header parsing *)

Module HeaderFacts.
Import Headers StringFacts.

(** *** Strings as sequences *)

Lemma app_cons c s t : String c s +:+ t = String c (s +:+ t).
Proof. reflexivity. Qed.

Lemma app_empty_r s : s +:+ "" = s.
Proof. induction s as [|c s IH]; [reflexivity|]. rewrite app_cons, IH. reflexivity. Qed.

Lemma app_assoc_s a b c : (a +:+ b) +:+ c = a +:+ (b +:+ c).
Proof. induction a as [|x a IH]; [reflexivity|]. rewrite !app_cons, IH. reflexivity. Qed.

Lemma length_app_s a b :
  String.length (a +:+ b) = (String.length a + String.length b)%nat.
Proof. induction a as [|x a IH]; [reflexivity|]. rewrite app_cons. simpl. rewrite IH. reflexivity. Qed.

Lemma len_app a b : len (a +:+ b) = len a + len b.
Proof. unfold len. rewrite length_app_s. lia. Qed.

Lemma len_cons c s : len (String c s) = 1 + len s.
Proof. unfold len. simpl String.length. lia. Qed.

Lemma len_nonneg s : 0 <= len s.
Proof. unfold len. lia. Qed.

Lemma len_zero s : len s = 0 → s = "".
Proof. destruct s; [reflexivity|]. rewrite len_cons. pose proof (len_nonneg s). lia. Qed.

Lemma sdrop_app a b : sdrop (String.length a) (a +:+ b) = b.
Proof. induction a as [|x a IH]; [reflexivity|]. rewrite app_cons. exact IH. Qed.

Lemma stake_app a b : stake (String.length a) (a +:+ b) = a.
Proof.
  induction a as [|x a IH]; [destruct b; reflexivity|].
  rewrite app_cons. simpl. rewrite IH. reflexivity.
Qed.

Lemma u32_small z : 0 <= z < two32 → u32 z = z.
Proof. intros H. unfold u32. apply Z.mod_small. exact H. Qed.

(** *** Searching a character *)

Lemma index_from_absent ch s i : has_char ch s = false → index_from ch s i = -1.
Proof.
  revert i. induction s as [|c s IH]; intros i H; [reflexivity|].
  simpl in *. apply orb_false_iff in H as [-> H]. apply IH, H.
Qed.

Lemma index_from_first ch a b i :
  has_char ch a = false → index_from ch (a +:+ String ch b) i = i + len a.
Proof.
  revert i. induction a as [|c a IH]; intros i H.
  - simpl. rewrite Ascii.eqb_refl. unfold len. simpl. lia.
  - rewrite app_cons. simpl in *. apply orb_false_iff in H as [-> H].
    rewrite (IH _ H), len_cons. lia.
Qed.

Lemma split_at_char ch s :
  has_char ch s = true →
  ∃ a b, s = a +:+ String ch b ∧ has_char ch a = false.
Proof.
  induction s as [|c s IH]; [discriminate|]. simpl.
  destruct (Ascii.eqb c ch) eqn:E.
  - apply Ascii.eqb_eq in E as ->. intros _. exists "", s. split; reflexivity.
  - simpl. intros H. destruct (IH H) as (a & b & -> & Ha).
    exists (String c a), b. split; [reflexivity|]. simpl. rewrite E. exact Ha.
Qed.

Lemma has_char_trim_front ch s :
  has_char ch s = false → has_char ch (trim_front s) = false.
Proof.
  induction s as [|c s IH]; [reflexivity|]. simpl. intros H.
  destruct (isspace c); [|exact H].
  apply orb_false_iff in H as [_ H]. apply IH, H.
Qed.

Lemma has_char_trim_back ch s :
  has_char ch s = false → has_char ch (trim_back s) = false.
Proof.
  induction s as [|c s IH]; [reflexivity|]. simpl. intros H.
  apply orb_false_iff in H as [Hc H]. specialize (IH H).
  destruct (trim_back s) as [|c' r].
  - destruct (isspace c); simpl; [reflexivity|]. rewrite Hc. reflexivity.
  - simpl in *. rewrite Hc. exact IH.
Qed.

Lemma has_char_trim ch s : has_char ch s = false → has_char ch (trim s) = false.
Proof. intros H. apply has_char_trim_back, has_char_trim_front, H. Qed.

Lemma length_trim_front s : (String.length (trim_front s) <= String.length s)%nat.
Proof.
  induction s as [|c s IH]; [reflexivity|]. simpl.
  destruct (isspace c); simpl; lia.
Qed.

Lemma length_trim_back s : (String.length (trim_back s) <= String.length s)%nat.
Proof.
  induction s as [|c s IH]; [reflexivity|]. simpl.
  destruct (trim_back s); [destruct (isspace c)|]; simpl in *; lia.
Qed.

Lemma len_trim s : len (trim s) <= len s.
Proof.
  unfold len, trim.
  pose proof (length_trim_back (trim_front s)).
  pose proof (length_trim_front s). lia.
Qed.

(** *** [indexOf] and [substring] on a string cut in pieces *)

Lemma indexOf_absent ch pre t :
  len (pre +:+ t) < two32 → has_char ch t = false →
  indexOf ch (len pre) (pre +:+ t) = -1.
Proof.
  intros Hlen H. unfold indexOf.
  pose proof (len_nonneg pre). pose proof (len_nonneg t).
  rewrite len_app in *. rewrite u32_small by lia.
  destruct (_ <=? _); [reflexivity|].
  unfold len at 1. rewrite Nat2Z.id, sdrop_app.
  apply index_from_absent, H.
Qed.

Lemma indexOf_first ch pre a b :
  len (pre +:+ a +:+ String ch b) < two32 → has_char ch a = false →
  indexOf ch (len pre) (pre +:+ a +:+ String ch b) = len pre + len a.
Proof.
  intros Hlen H. unfold indexOf.
  pose proof (len_nonneg pre). pose proof (len_nonneg a).
  pose proof (len_nonneg b).
  rewrite !len_app, len_cons in *. rewrite u32_small by lia.
  destruct (_ <=? _) eqn:E; [apply Z.leb_le in E; lia|].
  unfold len at 1. rewrite Nat2Z.id, sdrop_app.
  apply index_from_first, H.
Qed.

Lemma substring_mid pre a b :
  len (pre +:+ a +:+ b) < two32 →
  substring (len pre) (len pre + len a) (pre +:+ a +:+ b) = a.
Proof.
  intros Hlen. unfold substring.
  pose proof (len_nonneg pre). pose proof (len_nonneg a).
  pose proof (len_nonneg b).
  rewrite !len_app in *. rewrite !u32_small by lia.
  destruct (_ <? _) eqn:E; [apply Z.ltb_lt in E; lia|]. clear E.
  destruct (_ <=? _) eqn:E.
  - apply Z.leb_le in E. symmetry. apply len_zero. lia.
  - destruct (_ <? _) eqn:E'; [apply Z.ltb_lt in E'; lia|].
    replace (len pre + len a - len pre) with (len a) by lia.
    unfold len. rewrite !Nat2Z.id, sdrop_app. apply stake_app.
Qed.

(** *** Lines *)

Lemma splitLines_no_nl s : has_char nl s = false → splitLines s = [s].
Proof.
  induction s as [|c s IH]; [reflexivity|]. simpl. intros H.
  apply orb_false_iff in H as [-> H]. rewrite (IH H). reflexivity.
Qed.

Lemma splitLines_nl a b :
  has_char nl a = false →
  splitLines (a +:+ String nl b) = a :: splitLines b.
Proof.
  induction a as [|c a IH]; intros H.
  - reflexivity.
  - rewrite app_cons. simpl in *. apply orb_false_iff in H as [-> H].
    rewrite (IH H). reflexivity.
Qed.

(** *** The loop *)

Lemma parseLoop_done fuel h lineStart :
  len h <= lineStart → parseLoop fuel h lineStart = Some [].
Proof.
  intros H. destruct fuel; simpl;
    (destruct (lineStart <? len h) eqn:E; [apply Z.ltb_lt in E; lia|]);
    reflexivity.
Qed.

Lemma parseLoop_S fuel h lineStart :
  lineStart < len h →
  parseLoop (S fuel) h lineStart =
    let lineEnd := indexOf nl lineStart h in
    let lineEnd := if lineEnd =? -1 then len h else lineEnd in
    match parseLoop fuel h (lineEnd + 1) with
    | Some rest =>
        Some (match parseLine (substring lineStart lineEnd h) with
              | Some kv => [kv]
              | None => []
              end ++ rest)
    | None => None
    end.
Proof.
  intros H. simpl.
  destruct (lineStart <? len h) eqn:E; [reflexivity|].
  apply Z.ltb_ge in E. lia.
Qed.

(** From any line start the loop adds the headers of the lines that
    remain, and one unit of fuel per remaining character is enough. *)
Lemma parseLoop_spec fuel : ∀ pre t,
  len (pre +:+ t) < two32 →
  (String.length t <= fuel)%nat →
  parseLoop fuel (pre +:+ t) (len pre) = Some (omap parseLine (splitLines t)).
Proof.
  induction fuel as [|fuel IH]; intros pre t Hlen Hfuel.
  - destruct t; [|simpl in Hfuel; lia].
    rewrite parseLoop_done by (rewrite app_empty_r; lia). reflexivity.
  - destruct t as [|c t'] eqn:Et.
    { rewrite parseLoop_done by (rewrite app_empty_r; lia). reflexivity. }
    rewrite <- Et in *.
    assert (Hpos : 0 < len t) by (rewrite Et, len_cons; pose proof (len_nonneg t'); lia).
    pose proof (len_nonneg pre) as Hpre.
    rewrite parseLoop_S by (rewrite len_app; lia). cbv zeta.
    destruct (has_char nl t) eqn:Hnl.
    + destruct (split_at_char nl t Hnl) as (a & b & Hab & Ha).
      clear Et. subst t.
      pose proof (len_nonneg a) as Hla.
      rewrite (indexOf_first nl pre a b Hlen Ha).
      destruct (_ =? -1) eqn:E; [apply Z.eqb_eq in E; lia|]. clear E.
      rewrite (substring_mid pre a (String nl b) Hlen).
      rewrite (splitLines_nl a b Ha).
      replace (pre +:+ a +:+ String nl b)
        with ((pre +:+ a +:+ String nl "") +:+ b)
        by (rewrite !app_assoc_s; reflexivity).
      replace (len pre + len a + 1) with (len (pre +:+ a +:+ String nl ""))
        by (rewrite !len_app, len_cons; unfold len; simpl; lia).
      rewrite IH.
      * simpl omap. destruct (parseLine a); reflexivity.
      * rewrite !app_assoc_s. exact Hlen.
      * rewrite length_app_s in Hfuel. simpl in Hfuel. lia.
    + rewrite (indexOf_absent nl pre t Hlen Hnl), Z.eqb_refl.
      rewrite parseLoop_done by lia.
      rewrite (splitLines_no_nl t Hnl).
      rewrite len_app.
      rewrite <- (app_empty_r t) at 2.
      rewrite substring_mid by (rewrite app_empty_r; exact Hlen).
      simpl omap. destruct (parseLine t); reflexivity.
Qed.

(** The loop of lines 574-592 terminates on every text that fits in
    memory, and adds exactly the headers of its lines, in order. *)
Lemma parseHeaders_spec h :
  len h < two31 → parseHeaders h = Some (specHeaders h).
Proof.
  intros H. unfold parseHeaders, specHeaders.
  change h with ("" +:+ h) at 2.
  change 0 with (len "").
  apply parseLoop_spec; [|lia].
  change ("" +:+ h) with h. unfold two31, two32 in *. lia.
Qed.

(** *** One line *)

Lemma parseLine_blank raw : trim raw = "" → parseLine raw = None.
Proof. intros H. unfold parseLine. rewrite H. reflexivity. Qed.

Lemma parseLine_no_colon raw : has_char colon raw = false → parseLine raw = None.
Proof.
  intros H. unfold parseLine.
  destruct (0 <? len (trim raw)); [|reflexivity].
  change (trim raw) with ("" +:+ trim raw).
  change 0 with (len "") at 2.
  unfold indexOf. cbv zeta.
  change (u32 (len "")) with 0.
  destruct (_ <=? 0); [reflexivity|].
  rewrite index_from_absent by (apply has_char_trim, H). reflexivity.
Qed.

Lemma parseLine_header raw k v :
  len raw < two31 →
  parseLine raw = Some (k, v) →
  ∃ a b, trim raw = a +:+ String colon b
         ∧ has_char colon a = false ∧ a ≠ ""
         ∧ k = trim a ∧ v = trim b.
Proof.
  intros Hlen. unfold parseLine.
  pose proof (len_trim raw) as Htl. set (line := trim raw) in *.
  destruct (0 <? len line); [|discriminate].
  destruct (has_char colon line) eqn:Hc.
  2:{ replace (indexOf colon 0 line) with (-1); [discriminate|].
      symmetry. change line with ("" +:+ line). change 0 with (len "").
      apply indexOf_absent; [|exact Hc].
      change ("" +:+ line) with line. unfold two31, two32 in *. lia. }
  destruct (split_at_char colon line Hc) as (a & b & Hab & Ha).
  assert (H32 : len ("" +:+ a +:+ String colon b) < two32).
  { change ("" +:+ a +:+ String colon b) with (a +:+ String colon b).
    rewrite <- Hab. unfold two31, two32 in *. lia. }
  assert (Hidx : indexOf colon 0 line = len a).
  { rewrite Hab. change 0 with (len "").
    change (a +:+ String colon b) with ("" +:+ a +:+ String colon b).
    rewrite indexOf_first; [reflexivity | exact H32 | exact Ha]. }
  rewrite Hidx.
  destruct (0 <? len a) eqn:Hpos; [|discriminate].
  apply Z.ltb_lt in Hpos.
  intros [= <- <-]. exists a, b.
  split; [exact Hab|]. split; [exact Ha|].
  split; [intros ->; unfold len in Hpos; simpl in Hpos; lia|].
  split.
  - f_equal. rewrite Hab.
    change (a +:+ String colon b) with ("" +:+ a +:+ String colon b).
    change 0 with (len "") at 1.
    change (len a) with (len "" + len a).
    apply substring_mid, H32.
  - f_equal. unfold substring_from. rewrite Hab.
    replace (a +:+ String colon b)
      with ((a +:+ String colon "") +:+ b +:+ "")
      by (rewrite app_empty_r, app_assoc_s; reflexivity).
    replace (len a + 1) with (len (a +:+ String colon ""))
      by (rewrite len_app, len_cons; unfold len; simpl; lia).
    rewrite (len_app _ (b +:+ "")) at 1. rewrite app_empty_r at 1.
    apply substring_mid.
    rewrite app_empty_r, app_assoc_s. exact H32.
Qed.

End HeaderFacts.

(** ** White space *)

Module WhitespaceFacts.
Import StringFacts HeaderFacts.

(** [isspace] holds of the six white-space characters and of no other. *)
Lemma isspace_white_space c : isspace c = bool_decide (c ∈ white_space).
Proof. destruct c as [[] [] [] [] [] [] [] []]; vm_compute; reflexivity. Qed.

Lemma trim_front_split s :
  ∃ a, s = a +:+ trim_front s ∧ blank a = true
       ∧ starts_with_space (trim_front s) = false.
Proof.
  induction s as [|c s (a & Hs & Ha & Hh)].
  - exists "". repeat split.
  - cbn [trim_front]. destruct (isspace c) eqn:Hc.
    + exists (String c a). rewrite app_cons, <- Hs.
      cbn [blank]. rewrite Hc, Ha. repeat split. exact Hh.
    + exists "". repeat split. exact Hc.
Qed.

Lemma trim_back_cons c s :
  trim_back (String c s) =
    match trim_back s with
    | EmptyString => if isspace c then EmptyString else String c EmptyString
    | r => String c r
    end.
Proof. reflexivity. Qed.

Lemma trim_back_split s :
  ∃ b, s = trim_back s +:+ b ∧ blank b = true
       ∧ ends_with_space (trim_back s) = false.
Proof.
  induction s as [|c s (b & Hs & Hb & He)].
  - exists "". repeat split.
  - rewrite trim_back_cons. destruct (trim_back s) as [|c2 r].
    + change ("" +:+ b) with b in Hs. subst b.
      destruct (isspace c) eqn:Hc.
      * exists (String c s). cbn [blank]. rewrite Hc, Hb. repeat split.
      * exists s. repeat split; [exact Hb | exact Hc].
    + exists b. rewrite app_cons, <- Hs. repeat split; [exact Hb | exact He].
Qed.

Lemma trim_back_keeps_start s :
  starts_with_space s = false → starts_with_space (trim_back s) = false.
Proof.
  destruct s as [|c s]; [reflexivity|]. rewrite trim_back_cons.
  cbn [starts_with_space]. intros Hc.
  destruct (trim_back s); [rewrite Hc|]; exact Hc.
Qed.

(** [trim] removes the white space at the two ends, and nothing else. *)
Lemma trim_strip_of s : strip_of s (trim s).
Proof.
  destruct (trim_front_split s) as (a & Hs & Ha & Hh).
  destruct (trim_back_split (trim_front s)) as (b & Ht & Hb & He).
  exists a, b. fold (trim s) in Ht, He. rewrite <- Ht.
  repeat split; try assumption.
  apply trim_back_keeps_start, Hh.
Qed.

Lemma trim_front_blank s : blank s = true → trim_front s = "".
Proof.
  induction s as [|c s IH]; [reflexivity|]. cbn [blank trim_front].
  intros H. apply andb_true_iff in H as [-> H]. exact (IH H).
Qed.

Lemma trim_front_empty_blank s : trim_front s = "" → blank s = true.
Proof.
  induction s as [|c s IH]; [reflexivity|]. cbn [blank trim_front].
  destruct (isspace c); [exact IH | discriminate].
Qed.

Lemma trim_blank s : blank s = true ↔ trim s = "".
Proof.
  split.
  - intros H. unfold trim. rewrite (trim_front_blank s H). reflexivity.
  - intros H. apply trim_front_empty_blank.
    destruct (trim_front_split s) as (_ & _ & _ & Hh).
    unfold trim in H. destruct (trim_front s) as [|c r]; [reflexivity|].
    rewrite trim_back_cons in H. cbn [starts_with_space] in Hh.
    destruct (trim_back r); [rewrite Hh in H|]; discriminate H.
Qed.

Lemma trim_front_app_blank a t :
  blank a = true → trim_front (a +:+ t) = trim_front t.
Proof.
  induction a as [|c a IH]; [reflexivity|]. cbn [blank].
  intros H. apply andb_true_iff in H as [Hc H].
  rewrite app_cons. cbn [trim_front]. rewrite Hc. exact (IH H).
Qed.

Lemma trim_front_app a t :
  blank a = false → trim_front (a +:+ t) = trim_front a +:+ t.
Proof.
  induction a as [|c a IH]; [discriminate|]. cbn [blank].
  rewrite app_cons. cbn [trim_front].
  destruct (isspace c); [exact IH | intros _; rewrite app_cons; reflexivity].
Qed.

Lemma trim_back_app a t :
  trim_back t ≠ "" → trim_back (a +:+ t) = a +:+ trim_back t.
Proof.
  intros Ht. induction a as [|c a IH]; [reflexivity|].
  rewrite !app_cons, trim_back_cons, IH.
  destruct (a +:+ trim_back t) as [|c2 r] eqn:E; [|reflexivity].
  destruct a; [|discriminate E]. contradiction.
Qed.

Lemma trim_back_nonspace c s :
  isspace c = false → trim_back (String c s) = String c (trim_back s).
Proof.
  intros Hc. rewrite trim_back_cons.
  destruct (trim_back s); [rewrite Hc|]; reflexivity.
Qed.

Lemma stripped_trim s : stripped (trim s).
Proof. destruct (trim_strip_of s) as (_ & _ & _ & _ & _ & H). exact H. Qed.

Lemma trim_back_blank s : blank s = true → trim_back s = "".
Proof.
  induction s as [|c s IH]; [reflexivity|]. cbn [blank].
  intros H. apply andb_true_iff in H as [Hc H].
  rewrite trim_back_cons, (IH H), Hc. reflexivity.
Qed.

Lemma ends_with_space_tail c s :
  ends_with_space (String c s) = false → ends_with_space s = false.
Proof. destruct s; [reflexivity|]. intros H. exact H. Qed.

Lemma trim_back_app_blank t b :
  ends_with_space t = false → blank b = true → trim_back (t +:+ b) = t.
Proof.
  intros Ht Hb. induction t as [|c t IH]; [apply trim_back_blank, Hb|].
  rewrite app_cons, trim_back_cons, (IH (ends_with_space_tail _ _ Ht)).
  destruct t; [|reflexivity]. cbn [ends_with_space] in Ht. rewrite Ht.
  reflexivity.
Qed.

(** [trim s] is the only string that is [s] without the white space at
    its ends. *)
Lemma strip_of_trim s t : strip_of s t ↔ t = trim s.
Proof.
  split; [|intros ->; apply trim_strip_of].
  intros (a & b & -> & Ha & Hb & Hs & He).
  unfold trim. rewrite (trim_front_app_blank _ _ Ha).
  destruct t as [|c t].
  - change ("" +:+ b) with b. rewrite (trim_front_blank _ Hb). reflexivity.
  - rewrite app_cons. cbn [trim_front]. cbn [starts_with_space] in Hs.
    rewrite Hs, <- app_cons. symmetry. apply trim_back_app_blank; assumption.
Qed.

(** A string without white space at its ends is left as it is. *)
Lemma trim_stripped s : stripped s → trim s = s.
Proof.
  intros Hs. symmetry. apply strip_of_trim. exists "", "".
  rewrite app_empty_r. repeat split; apply Hs.
Qed.

End WhitespaceFacts.

(** ** Header lines *)

Module HeaderLineFacts.
Import Headers StringFacts HeaderFacts WhitespaceFacts.

Lemma isspace_colon : isspace colon = false.
Proof. reflexivity. Qed.

(** [parseLine] on a line whose trimmed text is cut at its first colon. *)
Lemma parseLine_cut raw a b :
  len raw < two31 →
  trim raw = a +:+ String colon b → has_char colon a = false →
  parseLine raw = if 0 <? len a then Some (trim a, trim b) else None.
Proof.
  intros Hlen Hab Ha. unfold parseLine. cbv zeta.
  pose proof (len_trim raw) as Htl. rewrite Hab in *.
  pose proof (len_nonneg a) as Hna. pose proof (len_nonneg b) as Hnb.
  rewrite len_app, len_cons in Htl.
  assert (H32 : len ("" +:+ a +:+ String colon b) < two32).
  { change ("" +:+ a +:+ String colon b) with (a +:+ String colon b).
    rewrite len_app, len_cons. unfold two31, two32 in *. lia. }
  assert (Hidx : indexOf colon 0 (a +:+ String colon b) = len a).
  { change 0 with (len "").
    change (a +:+ String colon b) with ("" +:+ a +:+ String colon b).
    rewrite indexOf_first; [reflexivity | exact H32 | exact Ha]. }
  rewrite Hidx.
  destruct (0 <? len (a +:+ String colon b)) eqn:Hl;
    [|apply Z.ltb_ge in Hl; rewrite len_app, len_cons in Hl; lia].
  destruct (0 <? len a); [|reflexivity].
  f_equal. f_equal.
  - f_equal.
    change (a +:+ String colon b) with ("" +:+ a +:+ String colon b).
    change 0 with (len "") at 1.
    change (len a) with (len "" + len a).
    apply substring_mid, H32.
  - f_equal. unfold substring_from.
    replace (a +:+ String colon b)
      with ((a +:+ String colon "") +:+ b +:+ "")
      by (rewrite app_empty_r, app_assoc_s; reflexivity).
    replace (len a + 1) with (len (a +:+ String colon ""))
      by (rewrite len_app, len_cons; unfold len; simpl; lia).
    rewrite (len_app _ (b +:+ "")) at 1. rewrite app_empty_r at 1.
    apply substring_mid.
    rewrite app_empty_r, app_assoc_s. exact H32.
Qed.

(** A line [key:value] whose key has no colon gives the header of the
    trimmed key and the trimmed value, unless the key is blank. *)
Lemma parseLine_key_value key value :
  len (key +:+ String colon value) < two31 →
  has_char colon key = false →
  parseLine (key +:+ String colon value)
  = if blank key then None else Some (trim key, trim value).
Proof.
  intros Hlen Hk.
  assert (Hb : trim_back (String colon value) = String colon (trim_back value))
    by (apply trim_back_nonspace, isspace_colon).
  destruct (blank key) eqn:Hblank.
  - rewrite (parseLine_cut _ "" (trim_back value) Hlen); [reflexivity| |reflexivity].
    unfold trim. rewrite (trim_front_app_blank _ _ Hblank).
    cbn [trim_front]. rewrite isspace_colon. exact Hb.
  - rewrite (parseLine_cut _ (trim_front key) (trim_back value) Hlen).
    + assert (Hne : trim_front key ≠ "").
      { intros E. apply trim_front_empty_blank in E. congruence. }
      destruct (0 <? len (trim_front key)) eqn:Hl.
      * unfold trim. rewrite trim_front_idem, trim_front_back, trim_back_idem.
        reflexivity.
      * apply Z.ltb_ge in Hl. pose proof (len_nonneg (trim_front key)).
        destruct Hne. apply len_zero. lia.
    + unfold trim. rewrite (trim_front_app _ _ Hblank).
      rewrite trim_back_app; rewrite Hb; [reflexivity | discriminate].
    + apply has_char_trim_front, Hk.
Qed.

Lemma splitLines_cons h : ∃ l ls, splitLines h = l :: ls.
Proof.
  destruct h as [|c h]; [eauto|]. cbn [splitLines].
  destruct (Ascii.eqb c nl); [eauto|]. destruct (splitLines h); eauto.
Qed.

Lemma unlines_cons l l2 ls :
  unlines (l :: l2 :: ls) = l +:+ String nl (unlines (l2 :: ls)).
Proof. reflexivity. Qed.

Lemma unlines_splitLines h : unlines (splitLines h) = h.
Proof.
  induction h as [|c h IH]; [reflexivity|]. cbn [splitLines].
  destruct (splitLines_cons h) as (l & ls & E). rewrite E in *.
  destruct (Ascii.eqb c nl) eqn:Hc.
  - apply Ascii.eqb_eq in Hc. subst c. rewrite unlines_cons, IH. reflexivity.
  - destruct ls as [|l2 ls].
    + cbn [unlines] in *. rewrite IH. reflexivity.
    + rewrite unlines_cons in *. rewrite app_cons, IH. reflexivity.
Qed.

Lemma splitLines_unlines ls :
  ls ≠ [] → Forall (fun l => has_char nl l = false) ls →
  splitLines (unlines ls) = ls.
Proof.
  intros Hne Hall. induction Hall as [|l ls Hl Hall IH]; [contradiction|].
  destruct ls as [|l2 ls].
  - cbn [unlines]. apply splitLines_no_nl, Hl.
  - rewrite unlines_cons, (splitLines_nl _ _ Hl), IH; [reflexivity|discriminate].
Qed.

(** C7.  The header loop of [sendWebhookRequest] terminates and treats
    [webhookHeaders] as the lines that its newlines separate: what it
    passes to [http.addHeader] are the headers of the lines, in order.  A
    line that is empty or blank, and a line without a colon, give no
    header.  A line [Key: Value], cut at its first colon, gives the pair
    of the key and the value, both without the white space at their
    ends; a line whose key is blank gives none.  White space is space,
    tab, line feed, vertical tab, form feed and carriage return, and
    [trim] removes exactly the white space at the two ends.  So a header's key is not empty, has
    no colon and, like its value, no white space at either end.  On
    ["Content-Type: application/json\n\nBad Line"] the result is the
    one pair [Content-Type], [application/json]. *)
Theorem header_parsing_by_lines :
  (∀ h, len h < two31 → parseHeaders h = Some (omap parseLine (splitLines h)))
  ∧ (∀ h, unlines (splitLines h) = h)
  ∧ (∀ ls, ls ≠ [] → Forall (fun l => has_char nl l = false) ls →
       splitLines (unlines ls) = ls)
  ∧ (∀ raw, blank raw = true → parseLine raw = None)
  ∧ (∀ raw, has_char colon raw = false → parseLine raw = None)
  ∧ (∀ key value,
       len (key +:+ String colon value) < two31 →
       has_char colon key = false →
       parseLine (key +:+ String colon value)
       = if blank key then None else Some (trim key, trim value))
  ∧ (∀ c, isspace c = true ↔ c ∈ white_space)
  ∧ (∀ s t, strip_of s t ↔ t = trim s)
  ∧ (∀ raw k v, len raw < two31 → parseLine raw = Some (k, v) →
       stripped k ∧ stripped v ∧ trimmed k ∧ trimmed v
       ∧ k ≠ "" ∧ has_char colon k = false
       ∧ ∃ a b, trim raw = a +:+ String colon b
                ∧ has_char colon a = false ∧ k = trim a ∧ v = trim b)
  ∧ parseHeaders example_headers = Some [("Content-Type", "application/json")].
Proof.
  split; [exact parseHeaders_spec|].
  split; [exact unlines_splitLines|].
  split; [exact splitLines_unlines|].
  split; [intros raw H; apply parseLine_blank, trim_blank, H|].
  split; [exact parseLine_no_colon|].
  split; [exact parseLine_key_value|].
  split; [intros c; rewrite isspace_white_space; apply bool_decide_eq_true|].
  split; [exact strip_of_trim|].
  split; [|vm_compute; reflexivity].
  intros raw k v Hlen H.
  destruct (parseLine_header raw k v Hlen H) as (a & b & Hab & Ha & Hne & -> & ->).
  split; [apply stripped_trim|]. split; [apply stripped_trim|].
  split; [apply trimmed_trim|]. split; [apply trimmed_trim|].
  split; [|split; [apply has_char_trim, Ha|exists a, b; auto]].
  (* the key is not empty: the trimmed line starts with it *)
  intros Hk. apply trim_blank in Hk.
  destruct (trim_strip_of raw) as (_ & _ & _ & _ & _ & Hs & _).
  rewrite Hab in Hs. destruct a as [|c a]; [contradiction|].
  rewrite app_cons in Hs. cbn [starts_with_space] in Hs.
  cbn [blank] in Hk. rewrite Hs in Hk. discriminate Hk.
Qed.

Lemma header_parsing_by_lines_witness :
  parseHeaders example_headers = Some (omap parseLine (splitLines example_headers))
  ∧ omap parseLine (splitLines example_headers)
    = [("Content-Type", "application/json")]
  ∧ parseLine (" Authorization " +:+ String colon " Bearer abc:def ")
    = Some ("Authorization", "Bearer abc:def").
Proof.
  split; [|split; [vm_compute; reflexivity|]].
  - apply (proj1 header_parsing_by_lines). vm_compute. reflexivity.
  - assert (H1 : len (" Authorization " +:+ String colon " Bearer abc:def ") < two31)
      by (vm_compute; reflexivity).
    exact (proj1 (proj2 (proj2 (proj2 (proj2 (proj2 header_parsing_by_lines)))))
             " Authorization " " Bearer abc:def " H1 eq_refl).
Defined.

End HeaderLineFacts.

(** ** The connection manager and the status it reads *)

Module RetryFacts.
Import ConnectionFacts.

Lemma pollLoop_eq fuel status k attempts d :
  pollLoop fuel status k attempts d =
    if bool_decide (status k ≠ WL_CONNECTED)
       && (attempts <? MAX_CONNECTION_ATTEMPTS)
    then match fuel with
         | O => None
         | S fuel' =>
             pollLoop fuel' status
               (if attempts mod 3 =? 0 then S (S k) else S k)
               (attempts + 1) (emit (Delay CONNECTION_RETRY_DELAY) d)
         end
    else Some (S k, d).
Proof. destruct fuel; reflexivity. Qed.

Lemma test_read_from_0 k a : test_read_from k a 0 = k.
Proof. unfold test_read_from. replace (a + 0 + 2)%nat with (a + 2)%nat by lia. lia. Qed.

Lemma div3_step (a : nat) :
  ((S a + 2) / 3
   = (a + 2) / 3 + (if (Z.of_nat a mod 3 =? 0)%Z then 1 else 0))%nat.
Proof.
  apply Nat2Z.inj. rewrite Nat2Z.inj_add, !Nat2Z.inj_div.
  destruct (Z.eqb_spec (Z.of_nat a mod 3) 0);
    Z.to_euclidean_division_equations; lia.
Qed.

Lemma div3_mono (a i : nat) : ((a + 2) / 3 <= (a + i + 2) / 3)%nat.
Proof.
  apply Nat2Z.inj_le. rewrite !Nat2Z.inj_div.
  Z.to_euclidean_division_equations; lia.
Qed.

Lemma test_read_from_S k a i :
  test_read_from k a (S i)
  = test_read_from (if Z.of_nat a mod 3 =? 0 then S (S k) else S k) (S a) i.
Proof.
  unfold test_read_from.
  replace (a + S i + 2)%nat with (S a + i + 2)%nat by lia.
  pose proof (div3_step a) as H3. pose proof (div3_mono (S a) i) as Hm.
  destruct (Z.of_nat a mod 3 =? 0); lia.
Qed.

Lemma test_read_0 k i : test_read k i = test_read_from k 0 i.
Proof.
  unfold test_read, test_read_from. change ((0 + 2) / 3)%nat with 0%nat.
  change (0 + i + 2)%nat with (i + 2)%nat. lia.
Qed.

(** The polling loop, read by read. *)
Lemma pollLoop_reads status fuel : ∀ k (a : nat) d,
  (a <= 10)%nat → (10 - a <= fuel)%nat →
  ∃ p : nat,
    pollLoop fuel status k (Z.of_nat a) d
      = Some (S (test_read_from k a p),
              emits (repeat (Delay CONNECTION_RETRY_DELAY) p) d)
    ∧ (a + p <= 10)%nat
    ∧ (∀ i, (i < p)%nat → status (test_read_from k a i) ≠ WL_CONNECTED)
    ∧ ((a + p = 10)%nat ∨ status (test_read_from k a p) = WL_CONNECTED).
Proof.
  induction fuel as [|fuel IH]; intros k a d Ha Hfuel;
    rewrite pollLoop_eq; unfold MAX_CONNECTION_ATTEMPTS.
  - assert (a = 10%nat) as -> by lia.
    rewrite andb_false_r. exists 0%nat. rewrite test_read_from_0.
    repeat split; [lia | intros i Hi; lia | left; lia].
  - destruct (bool_decide (status k ≠ WL_CONNECTED)) eqn:Hs; cbn [andb].
    + apply bool_decide_eq_true in Hs.
      destruct (Z.of_nat a <? 10) eqn:Hlt.
      * apply Z.ltb_lt in Hlt.
        replace (Z.of_nat a + 1) with (Z.of_nat (S a)) by lia.
        destruct (IH (if Z.of_nat a mod 3 =? 0 then S (S k) else S k) (S a)
                    (emit (Delay CONNECTION_RETRY_DELAY) d))
          as (p & Heq & Hp & Hbefore & Hstop); [lia | lia |].
        exists (S p). rewrite Heq, test_read_from_S.
        split; [reflexivity|]. split; [lia|]. split.
        -- intros [|i] Hi; [rewrite test_read_from_0; exact Hs|].
           rewrite test_read_from_S. apply Hbefore. lia.
        -- destruct Hstop as [H|H]; [left; lia | right; exact H].
      * apply Z.ltb_ge in Hlt. exists 0%nat. rewrite test_read_from_0.
        repeat split; [lia | intros i Hi; lia | left; lia].
    + apply bool_decide_eq_false in Hs.
      assert (Hc : status k = WL_CONNECTED)
        by (destruct (decide (status k = WL_CONNECTED)); [auto | contradiction]).
      exists 0%nat. rewrite test_read_from_0.
      repeat split; [lia | intros i Hi; lia | right; exact Hc].
Qed.

Lemma cycle_polls_of_reads status k p :
  (0 + p <= 10)%nat →
  (∀ i, (i < p)%nat → status (test_read_from k 0 i) ≠ WL_CONNECTED) →
  ((0 + p = 10)%nat ∨ status (test_read_from k 0 p) = WL_CONNECTED) →
  cycle_polls status k p.
Proof.
  intros Hp Hbefore Hstop. unfold cycle_polls, MAX_CONNECTION_ATTEMPTS.
  split; [lia|]. split.
  - intros i Hi. rewrite test_read_0. apply Hbefore, Hi.
  - rewrite test_read_0. destruct Hstop as [H|H]; [left; lia | right; exact H].
Qed.

(** The outer loop, cycle by cycle: its calls are those of
    [cycles_events], and the polls of its cycles are those that the
    status reads dictate. *)
Lemma connectLoop_runs status fuel : ∀ k fullAttempt d,
  0 <= fullAttempt <= MAX_FULL_CONNECTION_ATTEMPTS →
  (Z.to_nat (MAX_FULL_CONNECTION_ATTEMPTS - fullAttempt) <= fuel)%nat →
  ∃ (polls : list nat) (connected : bool) (k' : nat),
    connectLoop fuel status k fullAttempt d
      = Some (k', connected,
              emits (cycles_events (ssid d) (password d) fullAttempt polls
                       connected) d)
    ∧ Z.of_nat (length polls) <= MAX_FULL_CONNECTION_ATTEMPTS - fullAttempt
    ∧ (connected = false →
       Z.of_nat (length polls) = MAX_FULL_CONNECTION_ATTEMPTS - fullAttempt)
    ∧ (connected = true → polls ≠ [])
    ∧ cycles_run status k polls connected.
Proof.
  induction fuel as [|fuel IH]; intros k fa d Hfa Hfuel;
    unfold MAX_FULL_CONNECTION_ATTEMPTS in *.
  - assert (fa = 3) as -> by lia.
    exists [], false, k. repeat split; auto; try lia; discriminate.
  - rewrite connectLoop_S. unfold MAX_FULL_CONNECTION_ATTEMPTS.
    destruct (fa <? 3) eqn:Hlt.
    2:{ apply Z.ltb_ge in Hlt. assert (fa = 3) as -> by lia.
        exists [], false, k. repeat split; auto; try lia; discriminate. }
    apply Z.ltb_lt in Hlt. cbv zeta.
    set (d1 := setTxPower _).
    destruct (pollLoop_reads status (Z.to_nat MAX_CONNECTION_ATTEMPTS) k 0 d1)
      as (p & Hpoll & Hp & Hbefore & Hstop);
      [lia | unfold MAX_CONNECTION_ATTEMPTS; lia |].
    change (Z.of_nat 0) with 0 in Hpoll. rewrite Hpoll.
    pose proof (cycle_polls_of_reads status k p Hp Hbefore Hstop) as Hcyc1.
    rewrite <- test_read_0. fold (check_read k p).
    assert (Hd1 : ∀ es, emits es d1
              = emits (cycle_events (ssid d) (password d) 0 ++ es) d)
      by (intros es; reflexivity).
    assert (Hcyc : emits (repeat (Delay CONNECTION_RETRY_DELAY) p) d1
              = emits (cycle_events (ssid d) (password d) p) d).
    { rewrite Hd1. unfold cycle_events. rewrite app_nil_r. reflexivity. }
    destruct (bool_decide (status (check_read k p) = WL_CONNECTED)) eqn:Hs.
    + exists [p], true, (S (check_read k p)).
      split.
      { rewrite Hcyc. simpl. rewrite !app_nil_r. reflexivity. }
      split; [simpl; lia|].
      split; [discriminate|].
      split; [discriminate|].
      cbn [cycles_run]. rewrite Hs. auto.
    + set (d2 := if fa <? 3 - 1 then _ else _).
      assert (Hd2 : d2 = emits (cycle_events (ssid d) (password d) p
                                 ++ backoff fa) d).
      { subst d2. rewrite emits_app, <- Hcyc. unfold backoff.
        unfold MAX_FULL_CONNECTION_ATTEMPTS.
        destruct (fa <? 3 - 1); reflexivity. }
      fold (next_cycle_read k p).
      destruct (IH (next_cycle_read k p) (fa + 1) d2)
        as (polls & connected & k' & Heq & Hlen & Hfail & Hok & Hrun);
        [lia | lia |].
      exists (p :: polls), connected, k'.
      split.
      { rewrite Heq. f_equal. f_equal.
        rewrite Hd2, emits_ssid, emits_password, <- emits_app.
        f_equal. cbn [cycles_events].
        rewrite <- app_assoc. f_equal. f_equal.
        destruct polls as [|q polls]; [|reflexivity].
        destruct connected; [|reflexivity].
        destruct (Hok eq_refl eq_refl). }
      split; [simpl length; lia|].
      split; [intros Hc; specialize (Hfail Hc); simpl length; lia|].
      split; [discriminate|].
      cbn [cycles_run]. rewrite Hs. auto.
Qed.

(** The status reads leave one choice for the polls of a cycle. *)
Lemma cycle_polls_unique status k p q :
  cycle_polls status k p → cycle_polls status k q → p = q.
Proof.
  unfold cycle_polls, MAX_CONNECTION_ATTEMPTS.
  intros (Hp & Hbp & Hsp) (Hq & Hbq & Hsq).
  destruct (Nat.lt_trichotomy p q) as [Hlt | [-> | Hlt]]; [|reflexivity|].
  - destruct Hsp as [Hsp|Hsp]; [lia|]. destruct (Hbq p Hlt Hsp).
  - destruct Hsq as [Hsq|Hsq]; [lia|]. destruct (Hbp q Hlt Hsq).
Qed.

(** Hence one choice for the cycles of a connection attempt with room
    for [n] cycles. *)
Lemma cycles_run_unique status (n : nat) : ∀ k polls1 c1 polls2 c2,
  (length polls1 <= n)%nat → (c1 = false → length polls1 = n) →
  (length polls2 <= n)%nat → (c2 = false → length polls2 = n) →
  cycles_run status k polls1 c1 → cycles_run status k polls2 c2 →
  polls1 = polls2 ∧ c1 = c2.
Proof.
  induction n as [|n IH]; intros k polls1 c1 polls2 c2 Hl1 Hf1 Hl2 Hf2 H1 H2.
  - destruct polls1; [|simpl in Hl1; lia]. destruct polls2; [|simpl in Hl2; lia].
    cbn [cycles_run] in *. split; congruence.
  - destruct polls1 as [|p1 r1].
    { cbn [cycles_run] in H1. specialize (Hf1 H1). discriminate. }
    destruct polls2 as [|p2 r2].
    { cbn [cycles_run] in H2. specialize (Hf2 H2). discriminate. }
    cbn [cycles_run] in H1, H2. destruct H1 as [Hc1 H1], H2 as [Hc2 H2].
    pose proof (cycle_polls_unique status k p1 p2 Hc1 Hc2) as <-.
    destruct (bool_decide (status (check_read k p1) = WL_CONNECTED)).
    + destruct H1 as [-> ->], H2 as [-> ->]. split; reflexivity.
    + simpl in Hl1, Hl2.
      destruct (IH (next_cycle_read k p1) r1 c1 r2 c2) as [-> ->]; auto; try lia.
      * intros Hc. specialize (Hf1 Hc). simpl in Hf1. lia.
      * intros Hc. specialize (Hf2 Hc). simpl in Hf2. lia.
Qed.

Lemma cycles_run_bounded status : ∀ polls k connected,
  cycles_run status k polls connected →
  Forall (fun p => (p <= 10)%nat) polls.
Proof.
  induction polls as [|p rest IH]; intros k connected H; [constructor|].
  cbn [cycles_run] in H. destruct H as [(Hp & _) H].
  unfold MAX_CONNECTION_ATTEMPTS in Hp. constructor; [lia|].
  destruct (bool_decide _); [destruct H as [-> _]; constructor|].
  exact (IH _ _ H).
Qed.

Lemma cycles_run_connected status : ∀ polls k,
  cycles_run status k polls true → ∃ j, status j = WL_CONNECTED.
Proof.
  induction polls as [|p rest IH]; intros k H; [discriminate H|].
  cbn [cycles_run] in H. destruct H as [_ H].
  destruct (bool_decide _) eqn:E; [|exact (IH _ H)].
  apply bool_decide_eq_true in E. eauto.
Qed.

Lemma cycles_run_never status k (n : nat) :
  (∀ j, status j ≠ WL_CONNECTED) →
  cycles_run status k (repeat 10%nat n) false.
Proof.
  intros Hn. revert k. induction n as [|n IH]; intros k; [reflexivity|].
  cbn [repeat cycles_run]. split.
  - unfold cycle_polls, MAX_CONNECTION_ATTEMPTS.
    split; [lia|]. split; [intros i _; apply Hn | left; reflexivity].
  - rewrite bool_decide_eq_false_2 by apply Hn. apply IH.
Qed.

Lemma device_ext d1 d2 :
  ssid d1 = ssid d2 → password d1 = password d2 →
  webhookUrl d1 = webhookUrl d2 → webhookMethod d1 = webhookMethod d2 →
  webhookHeaders d1 = webhookHeaders d2 →
  webhookPayload d1 = webhookPayload d2 →
  configSaved d1 = configSaved d2 →
  pendingRequests d1 = pendingRequests d2 →
  requestInProgress d1 = requestInProgress d2 →
  lastButtonPressTime d1 = lastButtonPressTime d2 →
  lastActivityTime d1 = lastActivityTime d2 →
  wifiMode d1 = wifiMode d2 → preferences d1 = preferences d2 →
  interruptAttached d1 = interruptAttached d2 →
  serverBegun d1 = serverBegun d2 → trace d1 = trace d2 →
  d1 = d2.
Proof. destruct d1, d2. cbn. intros. subst. reflexivity. Qed.

(** [setupAP] and [setupWebServer] together: the mode, the server flag
    and the calls. *)
Lemma portal_spec a d :
  d ▷ setupAP a ▷ setupWebServer
  = d ▷ set_wifiMode WIFI_MODE_AP ▷ set_serverBegun true
      ▷ emits (portal_calls a).
Proof.
  rewrite emits_spec.
  unfold setupAP, setupWebServer, WiFi_set_mode, setTxPower, portal_calls.
  cbv zeta. cbv delta [USE_LOWER_WIFI_POWER DNS_PORT] iota.
  destruct (apStarted1 a); apply device_ext; dev_simpl;
    rewrite <- ?app_assoc; reflexivity.
Qed.

(** C6.  [setupWiFi] sets station mode and then runs at least one and at
    most 3 outer cycles.  Each cycle disconnects, waits, begins a fresh
    connection, sets the transmit power, and then polls at most 10 times,
    waiting [CONNECTION_RETRY_DELAY] for each poll.  The status reads
    decide everything: a cycle polls for as long as the loop test reads
    something else than [WL_CONNECTED], up to 10 times; when the check
    after the polling (line 304) reads [WL_CONNECTED] the function
    returns there and then, in station mode, with no further call;
    otherwise the next cycle follows.  Only after 3 failed cycles, and
    then always, it does not fail but starts the access point and the
    captive-portal web server: access-point mode, the calls of
    [portal_calls], the server running.  No other sequence of cycles fits
    the status reads.  With a status that never reads connected that is
    3 cycles of 10 polls; success means that some read of the status was
    [WL_CONNECTED]; and when the first two reads are, the function returns
    from the first cycle without a poll. *)
Theorem setupWiFi_bounded_retry_then_fallback
    (status : nat → wl_status_t) (a : ApInputs) (d : Device) :
  ∃ (polls : list nat) (connected : bool),
    let tried :=
      d ▷ WiFi_set_mode WIFI_MODE_STA ▷ emit (Delay 100)
        ▷ emits (cycles_events (ssid d) (password d) 0 polls connected) in
    (1 <= length polls <= 3)%nat
    ∧ Forall (fun p => (p <= 10)%nat) polls
    ∧ cycles_run status 0 polls connected
    ∧ (connected = false → length polls = 3%nat)
    ∧ (∀ polls' connected',
         (length polls' <= 3)%nat →
         (connected' = false → length polls' = 3%nat) →
         cycles_run status 0 polls' connected' →
         polls' = polls ∧ connected' = connected)
    ∧ setupWiFi status a d
      = Some (if connected then tried
              else tried ▷ set_wifiMode WIFI_MODE_AP ▷ set_serverBegun true
                         ▷ emits (portal_calls a))
    ∧ wifiMode tried = WIFI_MODE_STA
    ∧ serverBegun tried = serverBegun d
    ∧ ((∀ j, status j ≠ WL_CONNECTED) →
       connected = false ∧ polls = [10; 10; 10]%nat)
    ∧ (connected = true → ∃ j, status j = WL_CONNECTED)
    ∧ (status 0%nat = WL_CONNECTED → status 1%nat = WL_CONNECTED →
       connected = true ∧ polls = [0%nat]).
Proof.
  set (d0 := d ▷ WiFi_set_mode WIFI_MODE_STA ▷ emit (Delay 100)).
  destruct (connectLoop_runs status (Z.to_nat MAX_FULL_CONNECTION_ATTEMPTS)
              0 0 d0)
    as (polls & connected & k' & Heq & Hlen & Hfail & Hok & Hrun);
    [unfold MAX_FULL_CONNECTION_ATTEMPTS; lia | lia |].
  unfold MAX_FULL_CONNECTION_ATTEMPTS in *.
  exists polls, connected. cbv zeta. fold d0.
  change (ssid d0) with (ssid d) in Heq.
  change (password d0) with (password d) in Heq.
  assert (Hl3 : (length polls <= 3)%nat) by lia.
  assert (Hf3 : connected = false → length polls = 3%nat)
    by (intros Hc; specialize (Hfail Hc); lia).
  assert (Huniq : ∀ polls' connected',
            (length polls' <= 3)%nat →
            (connected' = false → length polls' = 3%nat) →
            cycles_run status 0 polls' connected' →
            polls' = polls ∧ connected' = connected).
  { intros polls' connected' Hl' Hf' Hrun'.
    exact (cycles_run_unique status 3 0 polls' connected' polls connected
             Hl' Hf' Hl3 Hf3 Hrun' Hrun). }
  split.
  { split; [|exact Hl3]. destruct connected.
    - specialize (Hok eq_refl). destruct polls; [contradiction|simpl; lia].
    - specialize (Hf3 eq_refl). lia. }
  split; [exact (cycles_run_bounded _ _ _ _ Hrun)|].
  split; [exact Hrun|].
  split; [exact Hf3|].
  split; [exact Huniq|].
  split.
  { unfold setupWiFi. fold d0. unfold MAX_FULL_CONNECTION_ATTEMPTS.
    rewrite Heq. destruct connected; [reflexivity|].
    rewrite portal_spec. reflexivity. }
  split; [rewrite emits_spec; reflexivity|].
  split; [rewrite emits_spec; reflexivity|].
  split; [|split].
  - intros Hn.
    destruct (Huniq (repeat 10%nat 3) false) as [Hp Hc];
      [simpl; lia | reflexivity | apply cycles_run_never, Hn |].
    split; [symmetry; exact Hc | symmetry; exact Hp].
  - intros ->. exact (cycles_run_connected _ _ _ Hrun).
  - intros H0 H1.
    destruct (Huniq [0%nat] true) as [Hp Hc];
      [simpl; lia | discriminate | | split; symmetry; assumption].
    cbn [cycles_run]. split.
    + unfold cycle_polls, MAX_CONNECTION_ATTEMPTS.
      split; [lia|]. split; [intros i Hi; lia | right; exact H0].
    + change (check_read 0 0) with 1%nat.
      rewrite bool_decide_eq_true_2 by exact H1. auto.
Qed.

(** The status reads connected from read 5 on: the first cycle polls 4
    times and [setupWiFi] returns in station mode. *)
Lemma setupWiFi_bounded_retry_then_fallback_witness :
  setupWiFi (connected_from 5) ap_example (loadConfig (power_on saved_home))
  = Some (loadConfig (power_on saved_home)
            ▷ WiFi_set_mode WIFI_MODE_STA ▷ emit (Delay 100)
            ▷ emits (cycles_events "Home" "secret1" 0 [4%nat] true)).
Proof.
  destruct (setupWiFi_bounded_retry_then_fallback (connected_from 5)
              ap_example (loadConfig (power_on saved_home)))
    as (polls & connected & _ & _ & _ & _ & Huniq & Heq & _).
  destruct (Huniq [4%nat] true) as [<- <-]; [simpl; lia | discriminate | | exact Heq].
  cbn [cycles_run]. split.
  - unfold cycle_polls, MAX_CONNECTION_ATTEMPTS.
    split; [lia|]. split; [|right; reflexivity].
    intros i Hi. destruct i as [|[|[|[|i]]]]; try lia; discriminate.
  - split; reflexivity.
Defined.

End RetryFacts.

(** ** The configuration strings, in memory and in flash *)

Module StoreFacts.
Import StringFacts ConfigFacts ConnectionFacts LoopFacts WhitespaceFacts
  RetryFacts.

Lemma configuration_emits es d : configuration (emits es d) = configuration d.
Proof. rewrite emits_spec. reflexivity. Qed.

Lemma configuration_portal a d :
  configuration (d ▷ setupAP a ▷ setupWebServer) = configuration d.
Proof. rewrite portal_spec, configuration_emits. reflexivity. Qed.

Lemma configuration_setupWiFi status a d :
  ∃ d', setupWiFi status a d = Some d' ∧ configuration d' = configuration d.
Proof.
  unfold setupWiFi.
  set (d0 := d ▷ WiFi_set_mode WIFI_MODE_STA ▷ emit (Delay 100)).
  destruct (connectLoop_runs status (Z.to_nat MAX_FULL_CONNECTION_ATTEMPTS)
              0 0 d0) as (polls & connected & k' & -> & _);
    [unfold MAX_FULL_CONNECTION_ATTEMPTS; lia | lia |].
  destruct connected; eexists; (split; [reflexivity|]).
  - rewrite configuration_emits. reflexivity.
  - rewrite configuration_portal, configuration_emits. reflexivity.
Qed.

(** [setup] leaves the configuration as [loadConfig] made it, and the
    flash as it was. *)
Lemma configuration_setup b nvs :
  ∃ d, setup b (power_on nvs) = Some d
       ∧ configuration d = configuration (loadConfig (power_on nvs)).
Proof.
  unfold setup. cbv zeta.
  match goal with |- context [loadConfig ?x] => set (d0 := x) end.
  assert (H0 : configuration (loadConfig d0)
               = configuration (loadConfig (power_on nvs))).
  { subst d0. unfold configuration, loadConfig, getString. cbv zeta.
    destruct (bool_decide (wakeup_reason b = ESP_SLEEP_WAKEUP_GPIO));
      destruct (bool_decide (wakeup_reason b ≠ ESP_SLEEP_WAKEUP_GPIO));
      dev_simpl; reflexivity. }
  rewrite <- H0.
  destruct (button_low_at_boot b).
  { eexists. split; [reflexivity|]. apply configuration_portal. }
  destruct (_ && _).
  - apply configuration_setupWiFi.
  - eexists. split; [reflexivity|]. apply configuration_portal.
Qed.

Lemma all_stripped_configuration d d' :
  configuration d' = configuration d → all_stripped d → all_stripped d'.
Proof.
  unfold configuration, all_stripped, config_stripped.
  intros [= -> -> -> -> -> -> ->]. auto.
Qed.

(** An accepted save: the six strings are the trimmed arguments, and the
    flash holds them. *)
Lemma handleSave_fields r now d :
  hasArg r "ssid" = true → hasArg r "password" = true →
  hasArg r "webhook" = true →
  let d' := handleSave r now d in
  (ssid d' = trim (arg r "ssid")
   ∧ password d' = trim (arg r "password")
   ∧ webhookUrl d' = trim (arg r "webhook")
   ∧ webhookMethod d' = trim (arg r "webhook_method")
   ∧ webhookHeaders d' = trim (arg r "webhook_headers")
   ∧ webhookPayload d' = trim (arg r "webhook_payload"))
  ∧ (preferences d' !! "ssid" = Some (ssid d')
     ∧ preferences d' !! "password" = Some (password d')
     ∧ preferences d' !! "webhook" = Some (webhookUrl d')
     ∧ preferences d' !! "webhook_method" = Some (webhookMethod d')
     ∧ preferences d' !! "webhook_headers" = Some (webhookHeaders d')
     ∧ preferences d' !! "webhook_payload" = Some (webhookPayload d')).
Proof.
  intros H1 H2 H3. cbv zeta. save_accepted H1 H2 H3.
  split; [repeat split|].
  repeat split; rewrite !lookup_insert; repeat case_decide; congruence.
Qed.

Lemma handleSave_stripped r now d :
  hasArg r "ssid" = true → hasArg r "password" = true →
  hasArg r "webhook" = true →
  all_stripped (handleSave r now d).
Proof.
  intros H1 H2 H3.
  destruct (handleSave_fields r now d H1 H2 H3)
    as ((E1 & E2 & E3 & E4 & E5 & E6) & (P1 & P2 & P3 & P4 & P5 & P6)).
  split.
  - unfold config_stripped. rewrite E1, E2, E3, E4, E5, E6.
    repeat split; apply stripped_trim.
  - intros k v Hk. unfold config_keys in Hk.
    repeat (apply elem_of_cons in Hk as [-> | Hk]);
      [ .. | apply elem_of_nil in Hk; contradiction ].
    + rewrite P1, E1. intros [= <-]. apply stripped_trim.
    + rewrite P2, E2. intros [= <-]. apply stripped_trim.
    + rewrite P3, E3. intros [= <-]. apply stripped_trim.
    + rewrite P4, E4. intros [= <-]. apply stripped_trim.
    + rewrite P5, E5. intros [= <-]. apply stripped_trim.
    + rewrite P6, E6. intros [= <-]. apply stripped_trim.
Qed.

Lemma handleSave_keeps_stripped r now d :
  all_stripped d → all_stripped (handleSave r now d).
Proof.
  intros Hd.
  destruct (hasArg r "ssid") eqn:H1; [destruct (hasArg r "password") eqn:H2;
    [destruct (hasArg r "webhook") eqn:H3|]|].
  1: exact (handleSave_stripped r now d H1 H2 H3).
  all: rewrite handleSave_rejected by (unfold missing_required; auto);
    revert Hd; apply all_stripped_configuration; reflexivity.
Qed.

Lemma handleClient_keeps_stripped cl now d :
  all_stripped d → all_stripped (handleClient cl now d).
Proof.
  intros Hd. unfold handleClient. destruct cl as [r|]; [|exact Hd].
  destruct (negb (serverBegun d)); [exact Hd|].
  destruct (_ && _).
  { revert Hd. apply all_stripped_configuration. reflexivity. }
  destruct (_ && _); [apply handleSave_keeps_stripped, Hd|].
  revert Hd. apply all_stripped_configuration. reflexivity.
Qed.

Lemma step_keeps_stripped l c :
  all_stripped (dev c) → all_stripped (dev (step l c)).
Proof.
  intros Hd. destruct l as [e|t]; cbn [step].
  - main_cases c;
      try (apply handleClient_keeps_stripped, Hd);
      try exact Hd;
      try (revert Hd; apply all_stripped_configuration;
           rewrite ?configuration_emits; reflexivity).
  - unfold step_isr. destruct (_ && _); [|exact Hd].
    cbn [pc dev upd]. unfold buttonISR.
    destruct (DEBOUNCE_TIME <? _); [|exact Hd].
    revert Hd. apply all_stripped_configuration. reflexivity.
Qed.

Lemma run_keeps_stripped sched c :
  all_stripped (dev c) → all_stripped (dev (run sched c)).
Proof.
  intros Hd. induction sched as [|l sched IH] using rev_ind; [exact Hd|].
  rewrite run_snoc. apply step_keeps_stripped, IH.
Qed.

Lemma getString_stripped key def d :
  key ∈ config_keys → stripped def → stored_stripped (preferences d) →
  stripped (getString key def d).
Proof.
  intros Hk Hdef Hst. unfold getString.
  destruct (preferences d !! key) as [v|] eqn:E; simpl; [|exact Hdef].
  exact (Hst key v Hk E).
Qed.

(** What [setup] loads from a flash without white space at the ends of
    its values. *)
Lemma loadConfig_stripped d :
  stored_stripped (preferences d) → all_stripped (loadConfig d).
Proof.
  intros Hst. split.
  - unfold config_stripped.
    destruct (loadConfig_fields d) as (-> & -> & -> & -> & -> & ->).
    repeat split; try apply stripped_trim.
    all: apply getString_stripped; try exact Hst; try (split; reflexivity).
    all: unfold config_keys; rewrite !elem_of_cons; tauto.
  - unfold loadConfig. cbv zeta. dev_simpl. exact Hst.
Qed.

Lemma boot_stripped b nvs c :
  stored_stripped nvs → boot b nvs = Some c → all_stripped (dev c).
Proof.
  intros Hst. unfold boot.
  destruct (configuration_setup b nvs) as (d & -> & Hd). intros [= <-].
  cbn [dev]. apply (all_stripped_configuration _ _ Hd).
  apply loadConfig_stripped. exact Hst.
Qed.

(** The flash never holds a configuration value with white space at an
    end: [handleSave] is its only writer. *)
Lemma writable_stripped nvs : Writable nvs → stored_stripped nvs.
Proof.
  induction 1 as [|b nvs c sched _ IH Hboot].
  - intros k v _. rewrite lookup_empty. discriminate.
  - apply (run_keeps_stripped sched c), (boot_stripped b nvs c IH Hboot).
Qed.

(** What [setup] loads, whatever the flash holds: the credentials and the
    URL trimmed, the method, the headers and the payload as stored. *)
Lemma setup_fields b nvs :
  ∃ d, setup b (power_on nvs) = Some d
       ∧ configuration d = configuration (loadConfig (power_on nvs))
       ∧ ssid d = trim (default "" (nvs !! "ssid"))
       ∧ password d = trim (default "" (nvs !! "password"))
       ∧ webhookUrl d = trim (default "" (nvs !! "webhook"))
       ∧ webhookMethod d = default "GET" (nvs !! "webhook_method")
       ∧ webhookHeaders d = default "" (nvs !! "webhook_headers")
       ∧ webhookPayload d = default "" (nvs !! "webhook_payload")
       ∧ preferences d = nvs.
Proof.
  destruct (configuration_setup b nvs) as (d & Hs & Hd).
  exists d. split; [exact Hs|]. split; [exact Hd|].
  unfold configuration in Hd. injection Hd as -> -> -> -> -> -> ->.
  destruct (loadConfig_fields (power_on nvs)) as (F1 & F2 & F3 & F4 & F5 & F6).
  repeat split; assumption.
Qed.

(** C8.  White space is space, tab, line feed, vertical tab, form feed
    and carriage return, and [trim] removes exactly the white space at the
    two ends of a string.  On an accepted save each of the six configuration strings is
    the submitted value, trimmed, and that is what is written to flash
    under its key.  [handleSave] is the only writer of the flash, so
    whatever the flash holds, from the factory on and over any number of
    power cycles, has no white space at its ends.  [setup] trims [ssid],
    [password] and [webhookUrl] after loading them and takes the method,
    the headers and the payload as they are stored; as [handleSave]
    stored them, each of the six strings is at boot the stored value (or
    the default), trimmed.  So in every
    power cycle, from the end of [setup] on and whatever the portal and the
    button do, none of the six strings has white space at an end, in
    memory or in flash. *)
Theorem config_strings_always_trimmed :
  (∀ c, isspace c = true ↔ c ∈ white_space)
  ∧ (∀ s t, strip_of s t ↔ t = trim s)
  ∧ (∀ r now d,
       hasArg r "ssid" = true → hasArg r "password" = true →
       hasArg r "webhook" = true →
       let d' := handleSave r now d in
       (ssid d' = trim (arg r "ssid")
        ∧ password d' = trim (arg r "password")
        ∧ webhookUrl d' = trim (arg r "webhook")
        ∧ webhookMethod d' = trim (arg r "webhook_method")
        ∧ webhookHeaders d' = trim (arg r "webhook_headers")
        ∧ webhookPayload d' = trim (arg r "webhook_payload"))
       ∧ (preferences d' !! "ssid" = Some (ssid d')
          ∧ preferences d' !! "password" = Some (password d')
          ∧ preferences d' !! "webhook" = Some (webhookUrl d')
          ∧ preferences d' !! "webhook_method" = Some (webhookMethod d')
          ∧ preferences d' !! "webhook_headers" = Some (webhookHeaders d')
          ∧ preferences d' !! "webhook_payload" = Some (webhookPayload d'))
       ∧ all_stripped d')
  ∧ (∀ b nvs,
       ∃ d, setup b (power_on nvs) = Some d
            ∧ ssid d = trim (default "" (nvs !! "ssid"))
            ∧ password d = trim (default "" (nvs !! "password"))
            ∧ webhookUrl d = trim (default "" (nvs !! "webhook"))
            ∧ webhookMethod d = default "GET" (nvs !! "webhook_method")
            ∧ webhookHeaders d = default "" (nvs !! "webhook_headers")
            ∧ webhookPayload d = default "" (nvs !! "webhook_payload")
            ∧ preferences d = nvs)
  ∧ (∀ nvs, Writable nvs → stored_stripped nvs)
  ∧ (∀ b nvs, Writable nvs →
       ∃ d, setup b (power_on nvs) = Some d
            ∧ ssid d = trim (default "" (nvs !! "ssid"))
            ∧ password d = trim (default "" (nvs !! "password"))
            ∧ webhookUrl d = trim (default "" (nvs !! "webhook"))
            ∧ webhookMethod d = trim (default "GET" (nvs !! "webhook_method"))
            ∧ webhookHeaders d = trim (default "" (nvs !! "webhook_headers"))
            ∧ webhookPayload d = trim (default "" (nvs !! "webhook_payload"))
            ∧ all_stripped d)
  ∧ (∀ b nvs c sched,
       Writable nvs → boot b nvs = Some c →
       all_stripped (dev (run sched c))).
Proof.
  split; [intros c; rewrite isspace_white_space; apply bool_decide_eq_true|].
  split; [exact strip_of_trim|].
  split.
  { intros r now d H1 H2 H3. cbv zeta.
    destruct (handleSave_fields r now d H1 H2 H3) as [Hf Hp].
    split; [exact Hf|]. split; [exact Hp|].
    exact (handleSave_stripped r now d H1 H2 H3). }
  split.
  { intros b nvs.
    destruct (setup_fields b nvs) as (d & Hs & _ & Hf). exists d. auto. }
  split; [exact writable_stripped|].
  split.
  - intros b nvs Hw. pose proof (writable_stripped nvs Hw) as Hst.
    destruct (setup_fields b nvs)
      as (d & Hs & Hd & F1 & F2 & F3 & F4 & F5 & F6 & _).
    exists d. split; [exact Hs|].
    pose proof (loadConfig_stripped (power_on nvs) Hst) as Hall.
    apply (all_stripped_configuration _ _ Hd) in Hall.
    pose proof Hall as [(S1 & S2 & S3 & S4 & S5 & S6) Hpref].
    split; [exact F1|]. split; [exact F2|]. split; [exact F3|].
    split; [rewrite <- F4; symmetry; apply trim_stripped, S4|].
    split; [rewrite <- F5; symmetry; apply trim_stripped, S5|].
    split; [rewrite <- F6; symmetry; apply trim_stripped, S6|].
    exact Hall.
  - intros b nvs c sched Hw Hboot.
    apply run_keeps_stripped, (boot_stripped b nvs c); [|exact Hboot].
    apply writable_stripped, Hw.
Qed.

Lemma config_strings_always_trimmed_witness :
  Writable saved_by_portal
  ∧ webhookMethod (dev (booted boot_by_button saved_by_portal)) = "POST"
  ∧ all_stripped
      (dev (run sched_one_dispatch (booted boot_by_button saved_by_portal))).
Proof.
  assert (Hb0 : boot boot_button_held ∅ = Some (booted boot_button_held ∅))
    by (vm_compute; reflexivity).
  assert (Hw : Writable saved_by_portal)
    by exact (writable_cycle boot_button_held ∅ _ sched_first_save
                writable_erased Hb0).
  assert (Hb : boot boot_by_button saved_by_portal
               = Some (booted boot_by_button saved_by_portal))
    by (vm_compute; reflexivity).
  split; [exact Hw|]. split; [vm_compute; reflexivity|].
  exact (proj2 (proj2 (proj2 (proj2 (proj2 (proj2
                  config_strings_always_trimmed)))))
           boot_by_button saved_by_portal _ sched_one_dispatch Hw Hb).
Defined.

End StoreFacts.

(** ** A press while the device goes to sleep *)

Module SleepFacts.
Import LoopFacts.

(** C1.  The guard of line 246 is evaluated once, and the button
    interrupt stays attached until [goToSleep] detaches it (line 625).  A
    press in between is counted and the device goes to sleep all the
    same.  A device that has idled for a minute passes the tests of lines
    246 and 247 with no request pending; the button is pressed before
    [detachInterrupt]; the handler counts the press; [goToSleep] runs to
    its end and the device enters deep sleep with one request pending. *)
Theorem sleep_with_request_pending :
  let c0 := booted boot_idle saved_config in
  let c1 := run sched_idle_tests_pass c0 in
  let c2 := run sched_press_then_sleep c1 in
  boot boot_idle saved_config = Some c0
  ∧ Reachable c2
  ∧ pc c1 = G_detach
  ∧ pendingRequests (dev c1) = 0
  ∧ requestInProgress (dev c1) = false
  ∧ interruptAttached (dev c1) = true
  ∧ pendingRequests (dev (step (Isr 61001) c1)) = 1
  ∧ pc c2 = Asleep
  ∧ pendingRequests (dev c2) = 1
  ∧ requestInProgress (dev c2) = false
  ∧ last (trace (dev c2)) = Some Deep_sleep_start.
Proof.
  cbv zeta.
  assert (Hb : boot boot_idle saved_config = Some (booted boot_idle saved_config))
    by (vm_compute; reflexivity).
  split; [exact Hb|].
  split.
  { apply reachable_run. apply (booted_reachable _ _ Hb). }
  repeat split; vm_compute; reflexivity.
Qed.

End SleepFacts.

(** ** escapeJsonString *)

Module JsonFacts.
Import HeaderFacts.

Lemma escapeJsonString_app a b :
  escapeJsonString (a +:+ b) = escapeJsonString a +:+ escapeJsonString b.
Proof.
  induction a as [|c a IH]; [reflexivity|].
  rewrite app_cons. cbn [escapeJsonString]. rewrite IH, app_assoc_s. reflexivity.
Qed.


Lemma all_chars_app p a b :
  all_chars p (a +:+ b) = all_chars p a && all_chars p b.
Proof.
  induction a as [|c a IH]; [reflexivity|].
  rewrite app_cons. cbn [all_chars]. rewrite IH, andb_assoc. reflexivity.
Qed.

Lemma escapeChar_printable c : all_chars printable (escapeChar c) = true.
Proof. destruct c as [[] [] [] [] [] [] [] []]; reflexivity. Qed.

Lemma escapeChar_length c :
  (1 <= String.length (escapeChar c) <= 6)%nat.
Proof. destruct c as [[] [] [] [] [] [] [] []]; vm_compute; lia. Qed.

Lemma escapeChar_plain c : plain c = true → escapeChar c = String c "".
Proof. destruct c as [[] [] [] [] [] [] [] []]; intros H; try reflexivity; discriminate H. Qed.

Lemma escapeChar_not_plain c :
  plain c = false → (2 <= String.length (escapeChar c))%nat.
Proof. destruct c as [[] [] [] [] [] [] [] []]; intros H; try discriminate H; vm_compute; lia. Qed.

Lemma escapeJsonString_length_ge s :
  (String.length s <= String.length (escapeJsonString s))%nat.
Proof.
  induction s as [|c s IH]; [reflexivity|].
  cbn [escapeJsonString]. rewrite length_app_s.
  pose proof (escapeChar_length c). simpl. lia.
Qed.


(** X2.  The escaped text is printable ASCII throughout (codes 32 to
    126), whatever bytes the input holds; it is at least as long as the
    input and at most six times as long. *)
Theorem escapeJsonString_printable_bounded (s : string) :
  all_chars printable (escapeJsonString s) = true
  ∧ len s <= len (escapeJsonString s) <= 6 * len s.
Proof.
  induction s as [|c s [IHp IHl]]; [split; [reflexivity | unfold len; simpl; lia]|].
  cbn [escapeJsonString]. split.
  - rewrite all_chars_app, escapeChar_printable, IHp. reflexivity.
  - rewrite len_app, len_cons. pose proof (escapeChar_length c).
    unfold len in *. lia.
Qed.

(** X3.  Escaping leaves a text as it is exactly when the text needs no
    escape: when each of its characters is printable ASCII other than the
    quote and the backslash. *)
Theorem escapeJsonString_fixes_plain (s : string) :
  escapeJsonString s = s ↔ all_chars plain s = true.
Proof.
  split.
  - induction s as [|c s IH]; [reflexivity|].
    cbn [escapeJsonString all_chars]. intros Heq.
    destruct (plain c) eqn:Hc.
    + rewrite (escapeChar_plain c Hc) in Heq. injection Heq as Heq.
      simpl. apply IH, Heq.
    + exfalso. pose proof (escapeChar_not_plain c Hc) as Hlen.
      pose proof (escapeJsonString_length_ge s) as Hge.
      apply (f_equal String.length) in Heq.
      rewrite length_app_s in Heq. simpl in Heq. lia.
  - induction s as [|c s IH]; [reflexivity|].
    cbn [escapeJsonString all_chars]. intros H.
    apply andb_true_iff in H as [Hc Hs].
    rewrite (escapeChar_plain c Hc), (IH Hs). reflexivity.
Qed.

End JsonFacts.

(** ** The interrupt handler: clock wrap-around and counting *)

Module DebounceFacts.
Import InterruptFacts.

Lemma usub_after last delta :
  0 <= delta < two32 → usub (u32 (last + delta)) last = delta.
Proof.
  intros H. unfold usub, u32, two32 in *.
  rewrite Zminus_mod_idemp_l.
  replace (last + delta - last) with delta by lia.
  apply Z.mod_small. exact H.
Qed.

Lemma i32_add a b : i32 (i32 a + b) = i32 (a + b).
Proof.
  unfold i32, two32, two31.
  replace ((a + 2 ^ 31) mod 2 ^ 32 - 2 ^ 31 + b + 2 ^ 31)
    with ((a + 2 ^ 31) mod 2 ^ 32 + b) by lia.
  rewrite Zplus_mod_idemp_l. f_equal. f_equal. lia.
Qed.

Lemma i32_range z : - two31 <= i32 z < two31.
Proof.
  unfold i32, two32, two31.
  pose proof (Z.mod_pos_bound (z + 2 ^ 31) (2 ^ 32)). lia.
Qed.

Lemma i32_id z : - two31 <= z < two31 → i32 z = z.
Proof.
  unfold i32, two32, two31. intros H. rewrite Z.mod_small; lia.
Qed.

(** X4.  The debounce works across the wrap-around of the 32-bit
    millisecond clock: a trigger that comes [delta] ms after the last
    accepted one, whatever the two clock readings are, is ignored when
    [delta] is at most 300 and is counted, and stamped, when it is more. *)
Theorem debounce_across_clock_wrap (d : Device) (delta : Z) :
  0 <= delta < two32 →
  let t := u32 (lastButtonPressTime d + delta) in
  (delta <= DEBOUNCE_TIME → buttonISR t d = d)
  ∧ (DEBOUNCE_TIME < delta →
     pendingRequests (buttonISR t d) = i32 (pendingRequests d + 1)
     ∧ lastButtonPressTime (buttonISR t d) = t
     ∧ lastActivityTime (buttonISR t d) = t).
Proof.
  intros H t. pose proof (usub_after (lastButtonPressTime d) delta H) as Hu.
  fold t in Hu. split.
  - intros Hle. apply buttonISR_ignored. lia.
  - intros Hlt. rewrite buttonISR_accepted by lia. repeat split.
Qed.

Lemma debounce_across_clock_wrap_witness :
  pendingRequests (buttonISR 300 pressed_before_wrap) = 1
  ∧ buttonISR 199 pressed_before_wrap = pressed_before_wrap.
Proof.
  assert (H400 : 0 <= 400 < two32) by (vm_compute; split; [discriminate | reflexivity]).
  assert (H299 : 0 <= 299 < two32) by (vm_compute; split; [discriminate | reflexivity]).
  split.
  - exact (proj1 (proj2 (debounce_across_clock_wrap pressed_before_wrap 400 H400)
                    eq_refl)).
  - apply (proj1 (debounce_across_clock_wrap pressed_before_wrap 299 H299)).
    vm_compute. discriminate.
Defined.

(** X5.  Presses that are each more than the debounce time apart are all
    counted: after [n] of them the counter has gone up by [n] (as a 32-bit
    integer), and the time of the last one is the time of the last
    accepted press and of the last activity. *)
Theorem well_spaced_presses_all_count (ts : list Z) (d : Device) :
  - two31 <= pendingRequests d < two31 →
  well_spaced (lastButtonPressTime d) ts →
  pendingRequests (buttonISRs ts d)
    = i32 (pendingRequests d + Z.of_nat (length ts))
  ∧ ∀ t, last ts = Some t →
         lastButtonPressTime (buttonISRs ts d) = t
         ∧ lastActivityTime (buttonISRs ts d) = t.
Proof.
  revert d. induction ts as [|t ts IH]; intros d Hp Hw.
  - cbn. rewrite Z.add_0_r, i32_id by exact Hp. split; [reflexivity|].
    intros t [=].
  - destruct Hw as [Hacc Hw].
    change (buttonISRs (t :: ts) d) with (buttonISRs ts (buttonISR t d)).
    rewrite (buttonISR_accepted t d Hacc).
    set (d1 := _ ▷ set_lastActivityTime t).
    destruct (IH d1) as [Hcount Hlast]; [apply i32_range | exact Hw |].
    split.
    + rewrite Hcount. change (pendingRequests d1) with (i32 (pendingRequests d + 1)).
      rewrite i32_add. f_equal. simpl length. lia.
    + intros t' Ht'. destruct ts as [|t2 ts].
      * injection Ht' as <-. split; reflexivity.
      * apply Hlast. exact Ht'.
Qed.

Lemma well_spaced_presses_all_count_witness :
  pendingRequests (buttonISRs [5000; 5301; 5602] (power_on ∅)) = 3.
Proof.
  assert (Hp : - two31 <= pendingRequests (power_on ∅) < two31)
    by (vm_compute; split; discriminate || reflexivity).
  assert (Hw : well_spaced (lastButtonPressTime (power_on ∅)) [5000; 5301; 5602])
    by (vm_compute; repeat split).
  exact (proj1 (well_spaced_presses_all_count [5000; 5301; 5602] (power_on ∅) Hp Hw)).
Defined.

End DebounceFacts.

(** ** The main loop, iteration by iteration *)

Module IterationFacts.
Import ConnectionFacts LoopFacts.

Lemma run_cons l sched c : run (l :: sched) c = run sched (step l c).
Proof. reflexivity. Qed.

Lemma run_nil c : run [] c = c.
Proof. reflexivity. Qed.

Lemma run_app_s s1 s2 c : run (s1 ++ s2) c = run s2 (run s1 c).
Proof. unfold run. apply foldl_app. Qed.

Lemma goto_mk l p r d : goto l (mkConfig p r d) = mkConfig l r d.
Proof. reflexivity. Qed.

Lemma upd_mk f p r d : upd f (mkConfig p r d) = mkConfig p r (f d).
Proof. reflexivity. Qed.

Lemma load_mk v p r d : load v (mkConfig p r d) = mkConfig p v d.
Proof. reflexivity. Qed.

(** Bring a configuration built by [goto], [upd] and [load] into the form
    of a record. *)
Ltac norm :=
  repeat first [rewrite goto_mk | rewrite upd_mk | rewrite load_mk].

(** Run the next statement of a schedule on a configuration whose control
    point is known. *)
Ltac go :=
  rewrite run_cons;
  cbn [step step_main loop sendWebhookRequest goToSleep pc reg dev goto upd
       load];
  dev_simpl; norm.

(** Settle the [bool_decide]s of the mode and status tests. *)
Ltac settle :=
  repeat (case_bool_decide; try congruence); cbn [orb andb negb].

(** Take the branch of a test whose condition evaluates. *)
Ltac closed_if :=
  repeat match goal with
         | |- context [if ?b then _ else _] =>
             let v := eval vm_compute in b in
             match v with
             | true => change b with true
             | false => change b with false
             end; cbv iota
         end.

(** X6.  An iteration of the loop in station mode with the connection up,
    nothing pending and no request in progress goes to sleep exactly when
    the clock read at line 247 is at least 60 s past [lastActivityTime]
    (as unsigned 32-bit difference).  Then [goToSleep] detaches the
    interrupt, re-arms the wake-up, waits a second and starts deep sleep;
    otherwise nothing at all has changed when the final delay is reached. *)
Theorem idle_iteration_sleeps_iff_timeout
    (c : Config) (e1 e2 e3 e4 e5 e6 e7 e8 : Env) :
  pc c = L_loop →
  wifiMode (dev c) = WIFI_MODE_STA →
  status e1 = WL_CONNECTED → status e2 = WL_CONNECTED →
  pendingRequests (dev c) = 0 → requestInProgress (dev c) = false →
  (SLEEP_TIMEOUT <= usub (millis e5) (lastActivityTime (dev c)) →
   let c' := run (map Main [e1; e2; e3; e4; e5; e6; e7; e8]) c in
   pc c' = Asleep
   ∧ dev c' = (dev c ▷ set_interruptAttached false
                 ▷ emits [DetachInterrupt; Enable_gpio_wakeup; Delay 1000;
                          Deep_sleep_start]))
  ∧ (usub (millis e5) (lastActivityTime (dev c)) < SLEEP_TIMEOUT →
     let c' := run (map Main [e1; e2; e3; e4; e5]) c in
     pc c' = L_delay ∧ dev c' = dev c).
Proof.
  destruct c as [p r d]. cbn [pc dev]. intros -> Hm Hs1 Hs2 Hp Hr.
  assert (H5 : run (map Main [e1; e2; e3; e4]) (mkConfig L_loop r d)
               = mkConfig L_timeout_test r d).
  { cbn [map]. go. rewrite Hm, Hs1. settle.
    go. rewrite Hm, Hs2. settle.
    go. rewrite Hp, Hr. closed_if.
    go. rewrite Hp, Hr. closed_if. reflexivity. }
  split; intros Ht; cbv zeta.
  - change (map Main [e1; e2; e3; e4; e5; e6; e7; e8])
      with (map Main [e1; e2; e3; e4] ++ map Main [e5; e6; e7; e8]).
    rewrite run_app_s, H5. cbn [map].
    go. destruct (SLEEP_TIMEOUT <=? _) eqn:E; [|apply Z.leb_gt in E; lia].
    go. go. go. rewrite run_nil. split; reflexivity.
  - change (map Main [e1; e2; e3; e4; e5])
      with (map Main [e1; e2; e3; e4] ++ map Main [e5]).
    rewrite run_app_s, H5. cbn [map].
    go. destruct (SLEEP_TIMEOUT <=? _) eqn:E; [apply Z.leb_le in E; lia|].
    rewrite run_nil. split; reflexivity.
Qed.

Lemma idle_iteration_sleeps_iff_timeout_witness :
  pc (run (map Main [connected 61000; connected 61000; connected 61000;
                     connected 61000; connected 61000; connected 61000;
                     connected 61001; connected 61002])
        (booted boot_idle saved_config)) = Asleep
  ∧ pc (run (map Main [connected 2000; connected 2000; connected 2000;
                       connected 2000; connected 2000])
          (booted boot_idle saved_config)) = L_delay.
Proof.
  pose (c := booted boot_idle saved_config).
  assert (H1 : pc c = L_loop) by (vm_compute; reflexivity).
  assert (H2 : wifiMode (dev c) = WIFI_MODE_STA) by (vm_compute; reflexivity).
  assert (H3 : pendingRequests (dev c) = 0) by (vm_compute; reflexivity).
  assert (H4 : requestInProgress (dev c) = false) by (vm_compute; reflexivity).
  assert (H5 : SLEEP_TIMEOUT <= usub (millis (connected 61000)) (lastActivityTime (dev c)))
    by (vm_compute; discriminate).
  assert (H6 : usub (millis (connected 2000)) (lastActivityTime (dev c)) < SLEEP_TIMEOUT)
    by (vm_compute; reflexivity).
  split.
  - exact (proj1 (proj1 (idle_iteration_sleeps_iff_timeout c
      (connected 61000) (connected 61000) (connected 61000) (connected 61000)
      (connected 61000) (connected 61000) (connected 61001) (connected 61002)
      H1 H2 eq_refl eq_refl H3 H4) H5)).
  - exact (proj1 (proj2 (idle_iteration_sleeps_iff_timeout c
      (connected 2000) (connected 2000) (connected 2000) (connected 2000)
      (connected 2000) (connected 2000) (connected 2000) (connected 2000)
      H1 H2 eq_refl eq_refl H3 H4) H6)).
Defined.



(** The first five statements of a dispatching iteration: down to the
    store of [pendingRequests--]. *)
Lemma run_to_dispatch r d e1 e2 e3 e4 e5 :
  wifiMode d = WIFI_MODE_STA →
  status e1 = WL_CONNECTED → status e2 = WL_CONNECTED →
  0 < pendingRequests d < two31 → requestInProgress d = false →
  run (map Main [e1; e2; e3; e4; e5]) (mkConfig L_loop r d)
  = mkConfig S_enter (pendingRequests d)
      (set_pendingRequests (pendingRequests d - 1) d).
Proof.
  intros Hm Hs1 Hs2 Hp Hr. cbn [map].
  go. rewrite Hm, Hs1. settle.
  go. rewrite Hm, Hs2. settle.
  go. rewrite Hr.
  destruct (0 <? pendingRequests d) eqn:E; [|apply Z.ltb_ge in E; lia].
  cbn [andb negb].
  go. go. rewrite run_nil.
  rewrite DebounceFacts.i32_id by (unfold two31 in *; lia). reflexivity.
Qed.



(** X8.  With no webhook URL set the request is consumed without any
    call: the iteration reaches the idle test with one request less, none
    in progress and the trace as it was. *)
Theorem dispatch_without_url_is_skipped
    (c : Config) (e1 e2 e3 e4 e5 e6 e7 e8 e9 e10 : Env) :
  pc c = L_loop →
  wifiMode (dev c) = WIFI_MODE_STA →
  status e1 = WL_CONNECTED → status e2 = WL_CONNECTED →
  0 < pendingRequests (dev c) < two31 →
  requestInProgress (dev c) = false →
  webhookUrl (dev c) = "" →
  let c' := run (map Main [e1; e2; e3; e4; e5; e6; e7; e8; e9; e10]) c in
  pc c' = L_idle_test
  ∧ pendingRequests (dev c') = pendingRequests (dev c) - 1
  ∧ requestInProgress (dev c') = false
  ∧ lastActivityTime (dev c') = millis e10
  ∧ trace (dev c') = trace (dev c)
  ∧ settings (dev c') = settings (dev c).
Proof.
  destruct c as [p r d]. cbn [pc dev]. intros -> Hm Hs1 Hs2 Hp Hr Hurl.
  cbv zeta.
  change (map Main [e1; e2; e3; e4; e5; e6; e7; e8; e9; e10])
    with (map Main [e1; e2; e3; e4; e5] ++ map Main [e6; e7; e8; e9; e10]).
  rewrite run_app_s, (run_to_dispatch r d e1 e2 e3 e4 e5 Hm Hs1 Hs2 Hp Hr).
  cbn [map]. go. go. go. rewrite Hurl. closed_if.
  go. go. rewrite run_nil. cbn [pc reg dev goto upd load].
  unfold settings. dev_simpl. repeat split.
Qed.

Lemma dispatch_without_url_is_skipped_witness :
  trace
    (dev (run (map Main [connected 1200; connected 1200; connected 1200;
                         connected 1200; connected 1200; connected 1200;
                         connected 1201; connected 1201; connected 1202;
                         connected 1202])
            (booted boot_by_button saved_without_url)))
  = trace (dev (booted boot_by_button saved_without_url)).
Proof.
  pose (c := booted boot_by_button saved_without_url).
  assert (H1 : pc c = L_loop) by (vm_compute; reflexivity).
  assert (H2 : wifiMode (dev c) = WIFI_MODE_STA) by (vm_compute; reflexivity).
  assert (H3 : 0 < pendingRequests (dev c) < two31)
    by (vm_compute; split; reflexivity).
  assert (H4 : requestInProgress (dev c) = false) by (vm_compute; reflexivity).
  assert (H5 : webhookUrl (dev c) = "") by (vm_compute; reflexivity).
  exact (proj1 (proj2 (proj2 (proj2 (proj2 (dispatch_without_url_is_skipped c
    (connected 1200) (connected 1200) (connected 1200) (connected 1200)
    (connected 1200) (connected 1200) (connected 1201) (connected 1201)
    (connected 1202) (connected 1202)
    H1 H2 eq_refl eq_refl H3 H4 H5)))))).
Defined.

Lemma handleClient_not_begun cl now d :
  serverBegun d = false → handleClient cl now d = d.
Proof.
  intros H. unfold handleClient. destruct cl; [|reflexivity].
  rewrite H. reflexivity.
Qed.

(** X9.  While the station has no connection, an iteration of a device
    that runs no web server does nothing but wait 100 ms: it dispatches
    nothing, however many requests are pending, and it does not go to
    sleep, however long the device has been idle. *)
Theorem offline_iteration_only_waits (c : Config) (e1 e2 e3 e4 : Env) :
  pc c = L_loop →
  wifiMode (dev c) = WIFI_MODE_STA →
  status e1 ≠ WL_CONNECTED →
  serverBegun (dev c) = false →
  configSaved (dev c) = false →
  run (map Main [e1; e2; e3; e4]) c
  = mkConfig L_loop (reg c) (emit (Delay 100) (dev c)).
Proof.
  destruct c as [p r d]. cbn [pc dev reg]. intros -> Hm Hs Hsrv Hcs.
  cbn [map]. go. rewrite Hm. settle.
  go. rewrite (handleClient_not_begun _ _ _ Hsrv).
  go. rewrite Hcs.
  go. rewrite run_nil. reflexivity.
Qed.

Lemma offline_iteration_only_waits_witness :
  pc (run (map Main [offline 90000; offline 90000; offline 90000; offline 90000])
        (booted boot_by_button saved_config)) = L_loop.
Proof.
  pose (c := booted boot_by_button saved_config).
  assert (H1 : pc c = L_loop) by (vm_compute; reflexivity).
  assert (H2 : wifiMode (dev c) = WIFI_MODE_STA) by (vm_compute; reflexivity).
  assert (H3 : status (offline 90000) ≠ WL_CONNECTED) by (vm_compute; discriminate).
  assert (H4 : serverBegun (dev c) = false) by (vm_compute; reflexivity).
  assert (H5 : configSaved (dev c) = false) by (vm_compute; reflexivity).
  exact (f_equal pc (offline_iteration_only_waits c
    (offline 90000) (offline 90000) (offline 90000) (offline 90000)
    H1 H2 H3 H4 H5)).
Defined.

(** Nothing runs once the device sleeps or restarts. *)
Lemma run_stopped sched c : running (pc c) = false → run sched c = c.
Proof.
  intros H. induction sched as [|l sched IH]; [reflexivity|].
  rewrite run_cons.
  assert (Hs : step l c = c).
  { destruct l as [e|t]; cbn [step].
    - unfold step_main. destruct (pc c); try discriminate H; reflexivity.
    - unfold step_isr. rewrite H, andb_false_r. reflexivity. }
  rewrite Hs. exact IH.
Qed.

Lemma handleClient_save r now d :
  serverBegun d = true → method r = HTTP_POST → uri r = "/save" →
  handleClient (Some r) now d = handleSave r now d.
Proof.
  intros Hs Hm Hu. unfold handleClient. rewrite Hs, Hm, Hu. reflexivity.
Qed.

(** X10.  In the portal, an iteration that serves a [POST /save] with the
    three required fields ends in [ESP.restart()]: the request is handled
    by [handleSave], then the loop waits one second and restarts, and
    nothing runs after that. *)
Theorem accepted_save_restarts (c : Config) (e1 e2 e3 : Env) (r : Request) :
  pc c = L_loop →
  wifiMode (dev c) = WIFI_MODE_AP →
  serverBegun (dev c) = true →
  client e2 = Some r → method r = HTTP_POST → uri r = "/save" →
  hasArg r "ssid" = true → hasArg r "password" = true →
  hasArg r "webhook" = true →
  let c' := run (map Main [e1; e2; e3]) c in
  pc c' = Restarting
  ∧ dev c' = (dev c ▷ handleSave r (millis e2)
                    ▷ emit (Delay 1000) ▷ emit ESP_restart)
  ∧ ∀ sched, run sched c' = c'.
Proof.
  destruct c as [p rg d]. cbn [pc dev].
  intros -> Hm Hsrv Hcl Hpost Huri H1 H2 H3. cbv zeta.
  assert (Hrun : run (map Main [e1; e2; e3]) (mkConfig L_loop rg d)
                 = mkConfig Restarting rg
                     (d ▷ handleSave r (millis e2)
                        ▷ emit (Delay 1000) ▷ emit ESP_restart)).
  { cbn [map]. go. rewrite Hm.
    rewrite (bool_decide_eq_true_2 (WIFI_MODE_AP = WIFI_MODE_AP) eq_refl).
    cbn [orb]. norm.
    go. rewrite Hcl, (handleClient_save r _ d Hsrv Hpost Huri).
    go.
    assert (Hc : configSaved (handleSave r (millis e2) d) = true)
      by (ConfigFacts.save_accepted H1 H2 H3; reflexivity).
    rewrite Hc. norm. rewrite run_nil. reflexivity. }
  rewrite Hrun. cbn [pc dev]. repeat split.
  intros sched. apply run_stopped. reflexivity.
Qed.

Lemma accepted_save_restarts_witness :
  pc (run (map Main [mkEnv 9000 WL_DISCONNECTED None;
                     mkEnv 9000 WL_DISCONNECTED (Some request_with_spaces);
                     mkEnv 9100 WL_DISCONNECTED None])
        (booted boot_button_held ∅)) = Restarting.
Proof.
  pose (c := booted boot_button_held ∅).
  assert (H1 : pc c = L_loop) by (vm_compute; reflexivity).
  assert (H2 : wifiMode (dev c) = WIFI_MODE_AP) by (vm_compute; reflexivity).
  assert (H3 : serverBegun (dev c) = true) by (vm_compute; reflexivity).
  exact (proj1 (accepted_save_restarts c
    (mkEnv 9000 WL_DISCONNECTED None)
    (mkEnv 9000 WL_DISCONNECTED (Some request_with_spaces))
    (mkEnv 9100 WL_DISCONNECTED None) request_with_spaces
    H1 H2 H3 eq_refl eq_refl eq_refl eq_refl eq_refl eq_refl)).
Defined.

(** X11.  [goToSleep] cannot be cancelled.  Once it is called the device
    reaches deep sleep whatever the button does.  Presses before
    [detachInterrupt] are counted but not served; presses after it change
    nothing. *)
Theorem goToSleep_cannot_be_cancelled
    (c : Config) (ts1 ts2 ts3 ts4 : list Z) (e1 e2 e3 : Env) :
  pc c = G_detach →
  let c1 := run (map Isr ts1) c in
  let c' := run (map Isr ts1 ++ [Main e1] ++ map Isr ts2 ++ [Main e2]
                 ++ map Isr ts3 ++ [Main e3] ++ map Isr ts4) c in
  pc c' = Asleep
  ∧ dev c' = (dev c1 ▷ set_interruptAttached false
                     ▷ emits [DetachInterrupt; Enable_gpio_wakeup;
                              Delay 1000; Deep_sleep_start]).
Proof.
  intros Hpc. cbv zeta.
  assert (Hoff : ∀ ts c0, interruptAttached (dev c0) = false →
                          run (map Isr ts) c0 = c0).
  { intros ts. induction ts as [|t ts IH]; intros c0 H0; [reflexivity|].
    cbn [map]. rewrite run_cons. cbn [step]. unfold step_isr.
    rewrite H0. cbn [andb]. apply IH, H0. }
  rewrite run_app_s.
  pose proof (proj1 (run_isrs_keep ts1 c)) as Hpc1. rewrite Hpc in Hpc1.
  destruct (run (map Isr ts1) c) as [p1 r1 d1]. cbn [pc dev] in *. subst p1.
  rewrite run_app_s. cbn [map]. go. rewrite run_nil.
  rewrite run_app_s, Hoff by reflexivity.
  rewrite run_app_s. go. rewrite run_nil.
  rewrite run_app_s, Hoff by reflexivity.
  rewrite run_app_s. go. rewrite run_nil.
  rewrite Hoff by reflexivity.
  split; reflexivity.
Qed.

Lemma goToSleep_cannot_be_cancelled_witness :
  pc (run (map Isr [61003] ++ [Main (connected 61004)] ++ map Isr [61400]
           ++ [Main (connected 61401)] ++ map Isr [] ++ [Main (connected 61402)]
           ++ map Isr [63000])
        (run (map Main [connected 61000; connected 61000; connected 61000;
                        connected 61000; connected 61000])
           (booted boot_idle saved_config))) = Asleep.
Proof.
  pose (c := run (map Main [connected 61000; connected 61000; connected 61000;
                            connected 61000; connected 61000])
               (booted boot_idle saved_config)).
  assert (H1 : pc c = G_detach) by (vm_compute; reflexivity).
  exact (proj1 (goToSleep_cannot_be_cancelled c [61003] [61400] [] [63000]
                  (connected 61004) (connected 61401) (connected 61402) H1)).
Defined.




(** X13.  [pendingRequests--] is a load and a store, and the button
    interrupt can fire between the two.  A press that is accepted before
    the load is kept: after the decrement the counter is what it was
    before the press.  The same press between the load and the store is
    lost: the store overwrites the interrupt's increment. *)
Theorem press_during_decrement_is_lost (c : Config) (e1 e2 : Env) (t : Z) :
  pc c = L_dec_load →
  interruptAttached (dev c) = true →
  DEBOUNCE_TIME < usub t (lastButtonPressTime (dev c)) →
  0 < pendingRequests (dev c) < INT_MAX →
  pendingRequests (dev (run [Isr t; Main e1; Main e2] c))
    = pendingRequests (dev c)
  ∧ pendingRequests (dev (run [Main e1; Isr t; Main e2] c))
    = pendingRequests (dev c) - 1
  ∧ lastButtonPressTime (dev (run [Main e1; Isr t; Main e2] c)) = t.
Proof.
  destruct c as [p r d]. cbn [pc dev]. intros -> Ha Ht Hp.
  unfold INT_MAX in Hp.
  assert (Hacc : ∀ d0, lastButtonPressTime d0 = lastButtonPressTime d →
                       buttonISR t d0 =
                         d0 ▷ set_pendingRequests (i32 (pendingRequests d0 + 1))
                            ▷ set_lastButtonPressTime t
                            ▷ set_lastActivityTime t).
  { intros d0 H0. apply InterruptFacts.buttonISR_accepted. rewrite H0. exact Ht. }
  repeat split.
  - rewrite run_cons. cbn [step]. unfold step_isr. cbn [pc dev running].
    rewrite Ha. cbn [andb]. norm. rewrite (Hacc d eq_refl).
    go. go. rewrite run_nil. cbn [dev]. dev_simpl.
    rewrite (DebounceFacts.i32_id (pendingRequests d + 1))
      by (unfold two31 in *; lia).
    rewrite DebounceFacts.i32_id by (unfold two31 in *; lia). lia.
  - go. rewrite run_cons. cbn [step]. unfold step_isr. cbn [pc dev running].
    rewrite Ha. cbn [andb]. norm. rewrite (Hacc d eq_refl).
    go. rewrite run_nil. cbn [dev]. dev_simpl.
    apply DebounceFacts.i32_id. unfold two31 in *. lia.
  - go. rewrite run_cons. cbn [step]. unfold step_isr. cbn [pc dev running].
    rewrite Ha. cbn [andb]. norm. rewrite (Hacc d eq_refl).
    go. rewrite run_nil. cbn [dev]. dev_simpl. reflexivity.
Qed.

Lemma press_during_decrement_is_lost_witness :
  pendingRequests
    (dev (run [Main (connected 1200); Isr 5000; Main (connected 5001)]
            (run (map Main [connected 1200; connected 1200; connected 1200])
               (booted boot_by_button saved_config))))
  = pendingRequests
      (dev (run (map Main [connected 1200; connected 1200; connected 1200])
              (booted boot_by_button saved_config))) - 1.
Proof.
  pose (c := run (map Main [connected 1200; connected 1200; connected 1200])
               (booted boot_by_button saved_config)).
  assert (H1 : pc c = L_dec_load) by (vm_compute; reflexivity).
  assert (H2 : interruptAttached (dev c) = true) by (vm_compute; reflexivity).
  assert (H3 : DEBOUNCE_TIME < usub 5000 (lastButtonPressTime (dev c)))
    by (vm_compute; reflexivity).
  assert (H4 : 0 < pendingRequests (dev c) < INT_MAX)
    by (vm_compute; split; reflexivity).
  exact (proj1 (proj2 (press_during_decrement_is_lost c
           (connected 1200) (connected 5001) 5000 H1 H2 H3 H4))).
Defined.

Lemma step_settings l c :
  serverBegun (dev c) = false → settings (dev (step l c)) = settings (dev c).
Proof.
  intros Hs. destruct l as [e|t]; cbn [step].
  - main_cases c;
      rewrite ?(handleClient_not_begun _ _ _ Hs);
      try rewrite emits_spec; unfold settings; dev_simpl;
      reflexivity.
  - unfold step_isr. destruct (_ && _); [|reflexivity].
    cbn [pc dev upd]. unfold buttonISR.
    destruct (DEBOUNCE_TIME <? _); unfold settings; dev_simpl; reflexivity.
Qed.

(** X14.  Only the configuration portal changes the configuration.  On a
    device whose web server has not been started, no statement of the
    loop and no button press changes the six configuration strings, the
    restart flag, the stored configuration, the WiFi mode or the state of
    the server, however long the device runs. *)
Theorem settings_fixed_without_portal (c : Config) (sched : list Label) :
  serverBegun (dev c) = false →
  settings (dev (run sched c)) = settings (dev c).
Proof.
  intros Hs. induction sched as [|l sched IH] using rev_ind; [reflexivity|].
  rewrite run_snoc, step_settings; [exact IH|].
  unfold settings in IH. congruence.
Qed.

Lemma settings_fixed_without_portal_witness :
  settings (dev (run sched_one_dispatch (booted boot_by_button saved_config)))
  = settings (dev (booted boot_by_button saved_config)).
Proof.
  assert (H : serverBegun (dev (booted boot_by_button saved_config)) = false)
    by (vm_compute; reflexivity).
  exact (settings_fixed_without_portal _ sched_one_dispatch H).
Defined.

End IterationFacts.

(** ** The portal's requests and the stored configuration *)

Module PortalFacts.
Import StringFacts ConfigFacts ConnectionFacts LoopFacts WhitespaceFacts
  RetryFacts StoreFacts IterationFacts.

(** X15.  A configuration saved through the portal survives the restart:
    whatever the next boot finds at its button and its WiFi, [setup]
    returns with the six configuration strings that [handleSave] left,
    and with the flash as [handleSave] left it. *)
Theorem saved_configuration_survives_reboot
    (r : Request) (now : Z) (d : Device) (b : BootInputs) :
  hasArg r "ssid" = true → hasArg r "password" = true →
  hasArg r "webhook" = true →
  ∃ d', setup b (power_on (preferences (handleSave r now d))) = Some d'
        ∧ configuration d' = configuration (handleSave r now d).
Proof.
  intros H1 H2 H3.
  destruct (configuration_setup b (preferences (handleSave r now d)))
    as (d' & Hs & Hd).
  exists d'. split; [exact Hs|]. rewrite Hd.
  destruct (handleSave_fields r now d H1 H2 H3)
    as ((E1 & E2 & E3 & E4 & E5 & E6) & (P1 & P2 & P3 & P4 & P5 & P6)).
  unfold configuration.
  destruct (loadConfig_fields (power_on (preferences (handleSave r now d))))
    as (-> & -> & -> & -> & -> & ->).
  unfold getString. cbn [preferences power_on].
  rewrite P1, P2, P3, P4, P5, P6. cbv beta iota delta [default from_option id].
  rewrite E1, E2, E3, !trim_idem.
  reflexivity.
Qed.

Lemma saved_configuration_survives_reboot_witness :
  ∃ d', setup boot_idle
          (power_on (preferences (handleSave request_with_spaces 1234
                                    (power_on ∅)))) = Some d'
        ∧ configuration d'
          = configuration (handleSave request_with_spaces 1234 (power_on ∅)).
Proof.
  exact (saved_configuration_survives_reboot request_with_spaces 1234
           (power_on ∅) boot_idle eq_refl eq_refl eq_refl).
Defined.

(** X16.  Of all requests only a [POST /save] can change the settings:
    any other request, and any request at all while the web server has
    not been started, leaves the six configuration strings, the restart
    flag, the flash, the WiFi mode and the server as they are. *)
Theorem only_post_save_changes_settings
    (cl : option Request) (now : Z) (d : Device) :
  serverBegun d = false
  ∨ (∀ r, cl = Some r → ¬ (method r = HTTP_POST ∧ uri r = "/save")) →
  settings (handleClient cl now d) = settings d.
Proof.
  intros [Hs | Hr]; [rewrite (handleClient_not_begun _ _ _ Hs); reflexivity|].
  unfold handleClient. destruct cl as [r|]; [|reflexivity].
  destruct (negb (serverBegun d)); [reflexivity|].
  destruct (_ && _); [reflexivity|].
  destruct (bool_decide (method r = HTTP_POST)) eqn:Em;
    destruct (bool_decide (uri r = "/save")) eqn:Eu; cbn [andb];
    try reflexivity.
  apply bool_decide_eq_true in Em, Eu. destruct (Hr r eq_refl). auto.
Qed.

Lemma only_post_save_changes_settings_witness :
  settings (handleClient (Some request_favicon) 7000
              (dev (booted boot_button_held saved_config)))
  = settings (dev (booted boot_button_held saved_config)).
Proof.
  apply only_post_save_changes_settings. right.
  intros r [= <-] [Hm _]. discriminate Hm.
Defined.

End PortalFacts.

(** ** The HTTP exchange *)

Module ExchangeFacts.
Import Headers StringFacts HeaderFacts WhitespaceFacts HeaderLineFacts.




Lemma splitLines_app_nl a b :
  splitLines (a +:+ String nl b) = splitLines a ++ splitLines b.
Proof.
  induction a as [|c a IH]; [reflexivity|].
  rewrite app_cons. cbn [splitLines]. rewrite IH.
  destruct (Ascii.eqb c nl); [reflexivity|].
  destruct (splitLines_cons a) as (l & ls & ->). reflexivity.
Qed.

(** X18.  Header texts compose: the headers of two texts joined by a
    newline are the headers of the first followed by the headers of the
    second. *)
Theorem parseHeaders_joined (a b : string) :
  len (a +:+ String nl b) < two31 →
  ∃ ha hb, parseHeaders a = Some ha ∧ parseHeaders b = Some hb
           ∧ parseHeaders (a +:+ String nl b) = Some (ha ++ hb).
Proof.
  intros Hlen. pose proof (len_nonneg a). pose proof (len_nonneg b).
  rewrite len_app, len_cons in Hlen.
  exists (specHeaders a), (specHeaders b).
  split; [apply parseHeaders_spec; lia|].
  split; [apply parseHeaders_spec; lia|].
  rewrite parseHeaders_spec by (rewrite len_app, len_cons; lia).
  unfold specHeaders. rewrite splitLines_app_nl, omap_app. reflexivity.
Qed.

Lemma parseHeaders_joined_witness :
  ∃ ha hb, parseHeaders "Accept: text/plain" = Some ha
           ∧ parseHeaders example_headers = Some hb
           ∧ parseHeaders ("Accept: text/plain" +:+ String nl example_headers)
             = Some (ha ++ hb).
Proof.
  apply parseHeaders_joined. vm_compute. reflexivity.
Defined.

End ExchangeFacts.

(** ** Start-up *)

Module SetupFacts.
Import ConnectionFacts LoopFacts WhitespaceFacts RetryFacts StoreFacts.

Lemma total_delay_app es1 es2 :
  total_delay (es1 ++ es2) = total_delay es1 + total_delay es2.
Proof.
  induction es1 as [|e es1 IH]; [reflexivity|].
  cbn [app total_delay foldr] in *. fold (total_delay (es1 ++ es2)).
  fold (total_delay es1). lia.
Qed.

Lemma total_delay_polls p :
  total_delay (repeat (Delay CONNECTION_RETRY_DELAY) p) = 1000 * Z.of_nat p.
Proof.
  induction p as [|p IH]; [reflexivity|].
  cbn [repeat total_delay foldr]. fold (total_delay (repeat (Delay CONNECTION_RETRY_DELAY) p)).
  rewrite IH. cbn [delay_of]. unfold CONNECTION_RETRY_DELAY. lia.
Qed.

Lemma total_delay_cycle s pw p :
  total_delay (cycle_events s pw p) = 1000 + 1000 * Z.of_nat p.
Proof.
  unfold cycle_events. rewrite total_delay_app, total_delay_polls. reflexivity.
Qed.

Lemma total_delay_portal a : 1100 <= total_delay (portal_calls a) <= 2100.
Proof. unfold portal_calls. destruct (apStarted1 a); vm_compute; split; discriminate. Qed.

Lemma backoff_first : backoff 0 = [Delay 3000].
Proof. reflexivity. Qed.

Lemma backoff_second : backoff (0 + 1) = [Delay 3000].
Proof. reflexivity. Qed.

Lemma backoff_third : backoff (0 + 1 + 1) = [].
Proof. reflexivity. Qed.

Ltac backoffs := rewrite ?backoff_first, ?backoff_second, ?backoff_third.

(** The waiting of the cycles of one connection attempt. *)
Lemma total_delay_cycles s pw polls connected :
  (1 <= length polls <= 3)%nat →
  Forall (fun p => (p <= 10)%nat) polls →
  1000 <= total_delay (cycles_events s pw 0 polls connected) <= 39000.
Proof.
  intros Hlen Hall.
  destruct polls as [|p1 [|p2 [|p3 [|p4 polls]]]]; simpl in Hlen; try lia.
  - apply Forall_cons in Hall as [H1 _].
    cbn [cycles_events]. rewrite !total_delay_app, total_delay_cycle.
    destruct connected; backoffs; cbn; lia.
  - apply Forall_cons in Hall as [H1 Hall]. apply Forall_cons in Hall as [H2 _].
    cbn [cycles_events]. rewrite !total_delay_app, !total_delay_cycle.
    destruct connected; backoffs; cbn; lia.
  - apply Forall_cons in Hall as [H1 Hall]. apply Forall_cons in Hall as [H2 Hall].
    apply Forall_cons in Hall as [H3 _].
    cbn [cycles_events]. rewrite !total_delay_app, !total_delay_cycle.
    destruct connected; backoffs; cbn; lia.
Qed.

(** X19.  [setupWiFi] always returns, and it has waited in [delay] for at
    least 1.1 s and at most 41.2 s by then: at most 39.1 s when it returns
    connected, and at most 2.1 s more for starting the portal. *)
Theorem setupWiFi_delay_bounded
    (status : nat → wl_status_t) (a : ApInputs) (d : Device) :
  ∃ d' es,
    setupWiFi status a d = Some d'
    ∧ trace d' = trace d ++ es
    ∧ 1100 <= total_delay es <= 41200
    ∧ (wifiMode d' = WIFI_MODE_STA → total_delay es <= 39100).
Proof.
  unfold setupWiFi.
  set (d0 := d ▷ WiFi_set_mode WIFI_MODE_STA ▷ emit (Delay 100)).
  destruct (connectLoop_runs status (Z.to_nat MAX_FULL_CONNECTION_ATTEMPTS)
              0 0 d0)
    as (polls & connected & k' & -> & Hlen & Hfail & Hok & Hrun);
    [unfold MAX_FULL_CONNECTION_ATTEMPTS; lia | lia |].
  unfold MAX_FULL_CONNECTION_ATTEMPTS in *.
  assert (Hl : (1 <= length polls <= 3)%nat).
  { split; [|lia]. destruct connected.
    - specialize (Hok eq_refl). destruct polls; [contradiction|simpl; lia].
    - specialize (Hfail eq_refl). lia. }
  pose proof (total_delay_cycles (ssid d0) (password d0) polls connected Hl
                (cycles_run_bounded _ _ _ _ Hrun)) as Hc.
  pose proof (total_delay_portal a) as Hp.
  destruct connected.
  - eexists _, ([WiFi_mode WIFI_MODE_STA; Delay 100]
                ++ cycles_events (ssid d0) (password d0) 0 polls true).
    split; [reflexivity|].
    split; [rewrite emits_spec; cbn [trace]; subst d0; dev_simpl;
            rewrite <- !app_assoc; reflexivity|].
    rewrite total_delay_app.
    change (total_delay [WiFi_mode WIFI_MODE_STA; Delay 100]) with 100.
    split; [lia|]. intros _. lia.
  - eexists _, ([WiFi_mode WIFI_MODE_STA; Delay 100]
                ++ cycles_events (ssid d0) (password d0) 0 polls false
                ++ portal_calls a).
    split; [reflexivity|].
    split; [rewrite portal_spec, !emits_spec; cbn [trace]; subst d0; dev_simpl;
            rewrite <- !app_assoc; reflexivity|].
    rewrite !total_delay_app.
    change (total_delay [WiFi_mode WIFI_MODE_STA; Delay 100]) with 100.
    split; [lia|].
    rewrite portal_spec, emits_spec. cbn [wifiMode]. dev_simpl. discriminate.
Qed.

Lemma begins_polls p :
  List.filter is_begin (repeat (Delay CONNECTION_RETRY_DELAY) p) = [].
Proof. induction p as [|p IH]; [reflexivity|exact IH]. Qed.

Lemma begins_backoff fullAttempt :
  List.filter is_begin (backoff fullAttempt) = [].
Proof. unfold backoff. destruct (fullAttempt <? _); reflexivity. Qed.

Lemma begins_cycles s pw : ∀ polls fullAttempt connected,
  List.filter is_begin (cycles_events s pw fullAttempt polls connected)
  = repeat (WiFi_begin s pw) (length polls).
Proof.
  induction polls as [|p polls IH]; intros fa connected; [reflexivity|].
  cbn [cycles_events length repeat]. unfold cycle_events.
  rewrite !List.filter_app, begins_polls, IH.
  destruct polls; [destruct connected|]; rewrite ?begins_backoff; reflexivity.
Qed.

Lemma begins_portal a : List.filter is_begin (portal_calls a) = [].
Proof. unfold portal_calls. destruct (apStarted1 a); reflexivity. Qed.

(** [setup] up to its decision between the portal and the station. *)
Lemma setup_factored b nvs :
  ∃ d1,
    ssid d1 = trim (default "" (nvs !! "ssid"))
    ∧ password d1 = trim (default "" (nvs !! "password"))
    ∧ serverBegun d1 = false
    ∧ List.filter is_begin (trace d1) = []
    ∧ setup b (power_on nvs)
      = if button_low_at_boot b
        then Some (d1 ▷ setupAP (ap_inputs b) ▷ setupWebServer)
        else if (0 <? len (ssid d1)) && (0 <? len (password d1))
             then setupWiFi (wifi_status b) (ap_inputs b) d1
             else Some (d1 ▷ setupAP (ap_inputs b) ▷ setupWebServer).
Proof.
  unfold setup. cbv zeta.
  match goal with |- context [loadConfig ?x] => exists (loadConfig x) end.
  repeat split.
  all: unfold loadConfig, getString; cbv zeta;
    destruct (bool_decide (wakeup_reason b = ESP_SLEEP_WAKEUP_GPIO));
    destruct (bool_decide (wakeup_reason b ≠ ESP_SLEEP_WAKEUP_GPIO));
    dev_simpl; reflexivity.
Qed.

Lemma nonempty_len s : s ≠ "" → (0 <? len s) = true.
Proof.
  intros H. apply Z.ltb_lt. pose proof (HeaderFacts.len_nonneg s).
  destruct (Z.eq_dec (len s) 0) as [E|E]; [|lia].
  destruct H. apply HeaderFacts.len_zero, E.
Qed.

(** X20.  What [setup] starts.  With the button held at power-on, or
    with a stored SSID or password that is empty or only white space, it
    starts the portal and never calls [WiFi.begin].  Otherwise it tries
    the station: [WiFi.begin] is called one to three times, each time with
    the trimmed stored credentials, and the portal runs afterwards exactly
    if the device ended in access-point mode. *)
Theorem setup_portal_or_station (b : BootInputs) (nvs : gmap string string) :
  let s := trim (default "" (nvs !! "ssid")) in
  let p := trim (default "" (nvs !! "password")) in
  ∃ d, setup b (power_on nvs) = Some d
       ∧ if button_low_at_boot b || bool_decide (s = "")
            || bool_decide (p = "")
         then wifiMode d = WIFI_MODE_AP ∧ serverBegun d = true
              ∧ List.filter is_begin (trace d) = []
         else ∃ n, (1 <= n <= 3)%nat
                   ∧ List.filter is_begin (trace d)
                     = repeat (WiFi_begin s p) n
                   ∧ (wifiMode d = WIFI_MODE_AP ↔ serverBegun d = true).
Proof.
  cbv zeta.
  destruct (setup_factored b nvs) as (d1 & Hs & Hp & Hsrv & Hb & ->).
  rewrite <- Hs, <- Hp.
  assert (Hportal :
    wifiMode (d1 ▷ setupAP (ap_inputs b) ▷ setupWebServer) = WIFI_MODE_AP
    ∧ serverBegun (d1 ▷ setupAP (ap_inputs b) ▷ setupWebServer) = true
    ∧ List.filter is_begin
        (trace (d1 ▷ setupAP (ap_inputs b) ▷ setupWebServer)) = []).
  { rewrite portal_spec, emits_spec. cbn [wifiMode serverBegun trace]. dev_simpl.
    rewrite List.filter_app, Hb, begins_portal. auto. }
  destruct (button_low_at_boot b); cbn [orb].
  { eexists. split; [reflexivity | exact Hportal]. }
  case_bool_decide as Es.
  { rewrite Es. cbn [orb andb]. eexists. split; [reflexivity | exact Hportal]. }
  case_bool_decide as Ep; cbn [orb].
  { rewrite Ep, andb_false_r. eexists. split; [reflexivity | exact Hportal]. }
  rewrite (nonempty_len _ Es), (nonempty_len _ Ep). cbn [andb].
  unfold setupWiFi.
  set (d0 := d1 ▷ WiFi_set_mode WIFI_MODE_STA ▷ emit (Delay 100)).
  destruct (connectLoop_runs (wifi_status b)
              (Z.to_nat MAX_FULL_CONNECTION_ATTEMPTS) 0 0 d0)
    as (polls & connected & k' & -> & Hlen & Hfail & Hok & Hrun);
    [unfold MAX_FULL_CONNECTION_ATTEMPTS; lia | lia |].
  unfold MAX_FULL_CONNECTION_ATTEMPTS in *.
  assert (Hl : (1 <= length polls <= 3)%nat).
  { split; [|lia]. destruct connected.
    - specialize (Hok eq_refl). destruct polls; [contradiction|simpl; lia].
    - specialize (Hfail eq_refl). lia. }
  change (ssid d0) with (ssid d1). change (password d0) with (password d1).
  destruct connected; eexists; (split; [reflexivity|]); exists (length polls);
    (split; [exact Hl|]).
  - rewrite emits_spec. cbn [wifiMode serverBegun trace]. subst d0. dev_simpl.
    rewrite !List.filter_app, Hb, begins_cycles.
    split; [reflexivity|]. rewrite Hsrv. split; discriminate.
  - rewrite portal_spec, !emits_spec. cbn [wifiMode serverBegun trace].
    subst d0. dev_simpl.
    rewrite !List.filter_app, Hb, begins_cycles, begins_portal, app_nil_r.
    split; [reflexivity|]. split; reflexivity.
Qed.

End SetupFacts.
